(** * Filesystem and HDF5 helpers of the data pipeline ([src/utils/env.py])

    The module is a thin layer over [pathlib] and [h5py].  The development
    has five parts:

    - [Names], [H5Tree], [World], [Glob], [Lib], [H5py]: the environment
      the helpers run in.  A file system is a finite map from paths to
      entries, an HDF5 container is a tree of groups and datasets, and the
      library calls the helpers make ([Path.mkdir], [Path.exists],
      [Path.glob], [sorted], [h5py.File], [Group.keys],
      [Group.__contains__], [Group.__getitem__], [Group.__delitem__],
      [Group.create_dataset], [Group.require_group],
      [Dataset.__getitem__]) are functions in a state-and-exception monad
      that also records what the library did.
    - [Env]: the six functions of [env.py], written call for call over
      those library functions.
    - [Props], [Examples]: the predicates of the statements, and concrete
      states.
    - Facts about the environment, then one theorem for each property of
      [env.py].
    - Further properties of the six functions: the errors they raise and
      what is left of the state then, what they never touch, and how their
      calls compose.

    Scope of the environment model.  A path is the list of its components
    below the root of the name space; parsing a [str] into a [Path],
    relative paths, [..], symbolic links and permissions are left out, and
    so a pattern with a [..] component is not covered by the statements
    about listings.  [Path.glob] is that of Python 3.13, a component of a
    pattern being read as [fnmatch] reads it.  A regular file is a
    container, an empty file or any other file.  HDF5 keeps one access,
    read-only or read-write, for all the file objects that are open on a
    file.  The value of a dataset is a one-dimensional array of numbers
    that are integers; the data handed to [save_h5] is such an array or a
    Python list of integers, which [numpy] turns into an array or, when an
    element takes more than 64 bits, into an array of objects that HDF5
    cannot store.  A compression filter is recorded on the dataset; that
    the filter is lossless is h5py's guarantee, so a dataset holds its
    decoded value.  A write that the storage refuses for want of space is
    left out. *)

From stdpp Require Import base gmap strings list sorting fin_maps.
From Stdlib Require Import Ascii String ZArith.

Local Open Scope string_scope.
Local Open Scope list_scope.

Set Warnings "-register-all".

(** ** Names inside a container, and patterns: strings cut at slashes *)

Module Names.

Definition slash : ascii := "/"%char.

(** [split_go cur s]: the components of [s] between slashes, [cur] being
    the reversed prefix of the component being read. *)
Fixpoint split_go (cur : string) (s : string) : list string :=
  match s with
  | EmptyString => [String.rev cur]
  | String a s' =>
      if Ascii.eqb a slash
      then String.rev cur :: split_go EmptyString s'
      else split_go (String a cur) s'
  end.

Definition split (s : string) : list string := split_go EmptyString s.

Definition proper_segment (s : string) : bool :=
  negb (String.eqb s "") && negb (String.eqb s ".").

(** The components that count: HDF5 reads a name as a path in which empty
    components and [.] stand for the group itself, and [pathlib] drops
    them from a pattern. *)
Definition segments (s : string) : list string :=
  List.filter proper_segment (split s).

Definition absolute (s : string) : bool :=
  match s with
  | String a _ => Ascii.eqb a slash
  | EmptyString => false
  end.

Fixpoint has_slash (s : string) : bool :=
  match s with
  | EmptyString => false
  | String a s' => Ascii.eqb a slash || has_slash s'
  end.

(** [s.lstrip('/')]. *)
Fixpoint lstrip (s : string) : string :=
  match s with
  | EmptyString => s
  | String a s' => if Ascii.eqb a slash then lstrip s' else s
  end.

(** [s.rsplit('/', 1)], when [s] has a slash. *)
Fixpoint rsplit (s : string) : option (string * string) :=
  match s with
  | EmptyString => None
  | String a s' =>
      match rsplit s' with
      | Some (l, r) => Some (String a l, r)
      | None => if Ascii.eqb a slash then Some (EmptyString, s') else None
      end
  end.

(** A link name: what a key of a group is.  *)
Definition link_name (s : string) : bool :=
  proper_segment s && negb (has_slash s).

End Names.

(** ** The tree of an HDF5 container *)

Module H5Tree.

Inductive codec := gzip | lzf.

(** The value of a dataset as [numpy] sees it: the elements of a
    one-dimensional array of numbers, which are integers here and are
    never computed with. *)
Definition array := list Z.

Record dataset := Build_dataset {
  ds_data : array;
  ds_compression : option codec
}.

Inductive node :=
| Dataset (d : dataset)
| Group (links : gmap string node).

(** The object a path of link names leads to, from the group [g]. *)
Fixpoint lookup_at (p : list string) (g : gmap string node) : option node :=
  match p with
  | [] => Some (Group g)
  | k :: p' =>
      match g !! k with
      | Some (Group g') => lookup_at p' g'
      | Some (Dataset d) => match p' with [] => Some (Dataset d) | _ => None end
      | None => None
      end
  end.

Definition group_at (p : list string) (g : gmap string node)
  : option (gmap string node) :=
  match lookup_at p g with
  | Some (Group g') => Some g'
  | _ => None
  end.

(** [alter_at p f g] rewrites the group at [p] with [f]; [None] when [p]
    does not lead to a group or [f] refuses. *)
Fixpoint alter_at (p : list string)
    (f : gmap string node → option (gmap string node))
    (g : gmap string node) : option (gmap string node) :=
  match p with
  | [] => f g
  | k :: p' =>
      match g !! k with
      | Some (Group g') =>
          match alter_at p' f g' with
          | Some g'' => Some (<[k := Group g'']> g)
          | None => None
          end
      | _ => None
      end
  end.

(** Removing the link at the end of [p] ([H5Ldelete]); a group goes with
    everything below it. *)
Fixpoint unlink_at (p : list string) (g : gmap string node)
  : option (gmap string node) :=
  match p with
  | [] => None
  | [k] => match g !! k with Some _ => Some (delete k g) | None => None end
  | k :: p' =>
      match g !! k with
      | Some (Group g') =>
          match unlink_at p' g' with
          | Some g'' => Some (<[k := Group g'']> g)
          | None => None
          end
      | _ => None
      end
  end.

(** Linking the new object [n] at the end of [p], with the groups on the
    way created when missing (h5py's link-creation property list asks
    for intermediate groups).  [None] when the last link exists already
    or a dataset is on the way. *)
Fixpoint link_at (p : list string) (n : node) (g : gmap string node)
  : option (gmap string node) :=
  match p with
  | [] => None
  | [k] => match g !! k with None => Some (<[k := n]> g) | Some _ => None end
  | k :: p' =>
      match g !! k with
      | Some (Group g') =>
          match link_at p' n g' with
          | Some g'' => Some (<[k := Group g'']> g)
          | None => None
          end
      | None =>
          match link_at p' n ∅ with
          | Some g'' => Some (<[k := Group g'']> g)
          | None => None
          end
      | Some (Dataset _) => None
      end
  end.

(** The object the links [p] lead to from the object [n]. *)
Definition lookup_in (n : node) (p : list string) : option node :=
  match n with
  | Group g => lookup_at p g
  | Dataset d => match p with [] => Some n | _ => None end
  end.

End H5Tree.

(** ** The state the helpers run in *)

Module World.
Import H5Tree.

(** A path: its components below the root; [[]] is the root directory. *)
Abbreviation path := (list string).

(** What is at a path: a directory, a container file, a regular file
    that is neither a container nor empty, or an empty regular file. *)
Inductive entry :=
| Dir
| H5File (root : gmap string node)
| OtherFile
| EmptyFile.

(** The modes [env.py] opens a container with. *)
Inductive mode := mode_r | mode_a | mode_w.

Record file_handle := Build_file_handle {
  fh_path : path;
  fh_writable : bool
}.

(** A [h5py.Group] object: the file object it belongs to and its place
    in the container.  A [h5py.File] object is the group at [[]]. *)
Record group_handle := Build_group_handle {
  gh_file : nat;
  gh_path : list string
}.

(** What the library did, in order. *)
Inductive event :=
| EvOpen (p : path) (m : mode) (fid : nat)
| EvClose (fid : nat)
| EvRead (p : path) (at_ : list string)
| EvUnlink (p : path) (at_ : list string)
| EvCreateDataset (p : path) (at_ : list string) (d : dataset)
| EvCreateGroup (p : path) (at_ : list string).

Record world := Build_world {
  fs : gmap path entry;
  handles : list (option file_handle);
  events : list event
}.

Inductive os_error := ENOENT | EEXIST | ENOTDIR | EISDIR | ENOTHDF5 | EBUSY.

Inductive message :=
| KeysNotFound (missing_keys : gset string) (file_path : path)
| LibraryMessage (what : string).

(** Python's exceptions.  [FileNotFoundError], [FileExistsError],
    [NotADirectoryError] and [IsADirectoryError] are the [OSError]s
    with [ENOENT], [EEXIST], [ENOTDIR] and [EISDIR]; [ENOTHDF5] and
    [EBUSY] mark the [OSError]s of HDF5 for a file that is not a
    container and for a file that is open in a way that rules the call
    out. *)
Inductive exn :=
| OSError (e : os_error) (p : path)
| KeyError (name : string)
| TypeError (what : string)
| ValueError (msg : message)
| NotImplementedError (what : string).

Inductive result (A : Type) :=
| Ok (a : A)
| Raise (e : exn).
Arguments Ok {A} a.
Arguments Raise {A} e.

(** A computation: the state survives an exception. *)
Definition M (A : Type) := world → result A * world.

Definition ret {A} (a : A) : M A := λ w, (Ok a, w).
Definition raise {A} (e : exn) : M A := λ w, (Raise e, w).
Definition bind {A B} (m : M A) (k : A → M B) : M B :=
  λ w, match m w with
       | (Ok a, w') => k a w'
       | (Raise e, w') => (Raise e, w')
       end.
Definition get : M world := λ w, (Ok w, w).
Definition put (w' : world) : M unit := λ _, (Ok tt, w').
Definition log (e : event) : M unit :=
  λ w, (Ok tt, Build_world (fs w) (handles w) (events w ++ [e])).
Definition set_fs (fs' : gmap path entry) : M unit :=
  λ w, (Ok tt, Build_world fs' (handles w) (events w)).

(** [try m handler]: Python's [try: m except: handler]. *)
Definition try {A} (m : M A) (handler : exn → M A) : M A :=
  λ w, match m w with
       | (Ok a, w') => (Ok a, w')
       | (Raise e, w') => handler e w'
       end.

(** [finally m cleanup]: [cleanup] runs on both exits. *)
Definition finally {A} (m : M A) (cleanup : M unit) : M A :=
  λ w, match m w with
       | (r, w') =>
           match cleanup w' with
           | (Ok _, w'') => (r, w'')
           | (Raise e, w'') => (Raise e, w'')
           end
       end.

(** The monadic loop of a comprehension over a list. *)
Fixpoint mapM {A B} (f : A → M B) (l : list A) : M (list B) :=
  match l with
  | [] => ret []
  | x :: l' => bind (f x) (λ y, bind (mapM f l') (λ ys, ret (y :: ys)))
  end.

(** stdpp's [x ← m; k] and [m ;; k] are [bind]. *)
#[export] Instance M_ret : MRet M := @ret.
#[export] Instance M_bind : MBind M := λ A B k m, bind m k.

End World.

(** ** Glob patterns ([fnmatch] on one component, [**] across components) *)

Module Glob.
Import Names.

Inductive token :=
| TAny                                  (* ? *)
| TStar                                 (* * *)
| TLit (c : ascii)
| TClass (negated : bool) (ranges : list (ascii * ascii)).

(** The text of a class up to the bracket that closes it, and what
    follows that bracket. *)
Fixpoint until_bracket (s : string) : option (list ascii * string) :=
  match s with
  | EmptyString => None
  | String c s' =>
      if Ascii.eqb c "]" then Some ([], s')
      else match until_bracket s' with
           | Some (body, rest) => Some (c :: body, rest)
           | None => None
           end
  end.

(** [fnmatch] looks for the closing bracket after an optional [!] and an
    optional []], which stand for themselves there. *)
Definition class_span (s : string) : option (list ascii * string) :=
  let '(bang, s1) := match s with
                     | String "!" s1 => (["!"%char], s1)
                     | _ => ([], s)
                     end in
  let '(bracket, s2) := match s1 with
                        | String "]" s2 => (["]"%char], s2)
                        | _ => ([], s1)
                        end in
  match until_bracket s2 with
  | Some (body, rest) => Some (bang ++ bracket ++ body, rest)
  | None => None
  end.

(** The chunks between the hyphens that make ranges: a hyphen is looked
    for after [skip] characters of a chunk, so that a chunk is never cut
    before its second character. *)
Fixpoint chunks_go (skip : nat) (cur : list ascii) (s : list ascii)
  : list (list ascii) :=
  match s with
  | [] => [cur]
  | c :: s' =>
      match skip with
      | S n => chunks_go n (cur ++ [c]) s'
      | O => if Ascii.eqb c "-" then cur :: chunks_go 2 [] s'
             else chunks_go 0 (cur ++ [c]) s'
      end
  end.

(** A hyphen at the very end is a character of the last chunk. *)
Fixpoint close_chunks (cs : list (list ascii)) : list (list ascii) :=
  match cs with
  | [c; []] => [c ++ ["-"%char]]
  | c :: cs' => c :: close_chunks cs'
  | [] => []
  end.

Definition code (c : ascii) : N := N_of_ascii c.

(** Ranges that would be empty are taken out, last first: the two ends
    go and the chunks are joined. *)
Fixpoint drop_empty_ranges (cs : list (list ascii)) : list (list ascii) :=
  match cs with
  | [] => []
  | c :: cs' =>
      match drop_empty_ranges cs' with
      | [] => [c]
      | d :: rest =>
          match last c, d with
          | Some lo, hi :: d' =>
              if (code hi <? code lo)%N then (removelast c ++ d') :: rest
              else c :: d :: rest
          | _, _ => c :: d :: rest
          end
      end
  end.

(** The characters of a class: the characters of a chunk stand for
    themselves, but the last of one chunk and the first of the next are
    the two ends of a range. *)
Inductive item := Lit (c : ascii) | Dash.

Fixpoint join_chunks (cs : list (list ascii)) : list item :=
  match cs with
  | [] => []
  | [c] => Lit <$> c
  | c :: cs' => (Lit <$> c) ++ Dash :: join_chunks cs'
  end.

(** The ranges of a class, as a regular expression reads them: a
    character, the hyphen between two chunks and a character are a
    range, and any other character is the range of itself. *)
Fixpoint ranges_fuel (n : nat) (l : list item) : list (ascii * ascii) :=
  match n with
  | O => []
  | S n' =>
      match l with
      | [] => []
      | Lit lo :: Dash :: Lit hi :: l' => (lo, hi) :: ranges_fuel n' l'
      | Lit c :: l' => (c, c) :: ranges_fuel n' l'
      | Dash :: l' => ("-"%char, "-"%char) :: ranges_fuel n' l'
      end
  end.

Definition ranges (l : list item) : list (ascii * ascii) :=
  ranges_fuel (List.length l) l.

Definition has_hyphen (s : list ascii) : bool := existsb (Ascii.eqb "-") s.

Definition class_items (stuff : list ascii) : list item :=
  if has_hyphen stuff
  then join_chunks (drop_empty_ranges (close_chunks
         (chunks_go (match stuff with "!"%char :: _ => 2 | _ => 1 end) [] stuff)))
  else Lit <$> stuff.

(** A class opens with [[]: negated after [!]; without a closing
    bracket the [[] is a literal. *)
Definition class_open (s : string)
  : option (bool * list (ascii * ascii) * string) :=
  match class_span s with
  | Some (stuff, rest) =>
      match class_items stuff with
      | Lit "!" :: items => Some (true, ranges items, rest)
      | items => Some (false, ranges items, rest)
      end
  | None => None
  end.

Fixpoint tokens_fuel (n : nat) (s : string) : list token :=
  match n, s with
  | _, EmptyString => []
  | O, _ => []
  | S n', String "?" rest => TAny :: tokens_fuel n' rest
  | S n', String "*" rest => TStar :: tokens_fuel n' rest
  | S n', String "[" rest =>
      match class_open rest with
      | Some (neg, rs, rest') => TClass neg rs :: tokens_fuel n' rest'
      | None => TLit "[" :: tokens_fuel n' rest
      end
  | S n', String c rest => TLit c :: tokens_fuel n' rest
  end.

Definition tokens (s : string) : list token := tokens_fuel (String.length s) s.

Definition in_range (c : ascii) (r : ascii * ascii) : bool :=
  (N_of_ascii (fst r) <=? N_of_ascii c)%N && (N_of_ascii c <=? N_of_ascii (snd r))%N.

Fixpoint match_tokens (ts : list token) : string → bool :=
  match ts with
  | [] => λ s, match s with EmptyString => true | _ => false end
  | TStar :: ts' =>
      fix star (s : string) : bool :=
        match_tokens ts' s ||
        match s with
        | EmptyString => false
        | String _ s' => star s'
        end
  | TAny :: ts' =>
      λ s, match s with
           | EmptyString => false
           | String _ s' => match_tokens ts' s'
           end
  | TLit c :: ts' =>
      λ s, match s with
           | EmptyString => false
           | String a s' => Ascii.eqb a c && match_tokens ts' s'
           end
  | TClass neg rs :: ts' =>
      λ s, match s with
           | EmptyString => false
           | String a s' =>
               xorb neg (existsb (in_range a) rs) && match_tokens ts' s'
           end
  end.

(** [fnmatch.fnmatchcase name pat]. *)
Definition fnmatch (name pat : string) : bool := match_tokens (tokens pat) name.

(** A relative path against the components of a pattern; [**] stands
    for any number of components.  A component [..], which [pathlib]
    follows to the directory above, is not covered: the paths here have
    no such component. *)
Fixpoint match_parts (pats : list string) : list string → bool :=
  match pats with
  | [] => λ rel, match rel with [] => true | _ => false end
  | p :: pats' =>
      if String.eqb p "**"
      then fix skip (rel : list string) : bool :=
             match_parts pats' rel ||
             match rel with
             | [] => false
             | _ :: rel' => skip rel'
             end
      else λ rel, match rel with
                  | [] => false
                  | n :: rel' => fnmatch n p && match_parts pats' rel'
                  end
  end.

Fixpoint ends_with_slash (s : string) : bool :=
  match s with
  | EmptyString => false
  | String a EmptyString => Ascii.eqb a slash
  | String _ s' => ends_with_slash s'
  end.

(** Whether the entry at the relative path [rel] is selected by
    [pattern]; a pattern that ends with a separator selects directories
    only. *)
Definition glob_match (pattern : string) (rel : list string) (is_dir : bool) : bool :=
  match_parts (segments pattern) rel &&
  (if ends_with_slash pattern then is_dir else true).

End Glob.

(** ** The library calls: [os], [pathlib], [logging] *)

Module Lib.
Import Names H5Tree World.

(** *** Files and directories *)

Definition parent (p : path) : path := removelast p.

(** Following the components [rest] from the directory [cur]: the error
    of the first component that is not a directory, if any. *)
Fixpoint walk (fs : gmap path entry) (cur : path) (rest : list string)
  : option os_error :=
  match rest with
  | [] => None
  | k :: rest' =>
      match fs !! (cur ++ [k]) with
      | Some Dir => walk fs (cur ++ [k]) rest'
      | Some _ => Some ENOTDIR
      | None => Some ENOENT
      end
  end.

(** [os.stat]. *)
Definition stat (fs : gmap path entry) (p : path) : os_error + entry :=
  match p with
  | [] => inr Dir
  | _ =>
      match walk fs [] (parent p) with
      | Some e => inl e
      | None =>
          match fs !! p with
          | Some x => inr x
          | None => inl ENOENT
          end
      end
  end.

Definition exists_ (fs : gmap path entry) (p : path) : bool :=
  match stat fs p with inr _ => true | inl _ => false end.

Definition is_dir (fs : gmap path entry) (p : path) : bool :=
  match stat fs p with inr Dir => true | _ => false end.

(** [Path.exists] and [Path.is_dir]. *)
Definition Path_exists (p : path) : M bool := w ← get; mret (exists_ (fs w) p).
Definition Path_is_dir (p : path) : M bool := w ← get; mret (is_dir (fs w) p).

(** [os.mkdir]: one directory, below an existing one. *)
Definition os_mkdir (p : path) : M unit :=
  w ← get;
  match p with
  | [] => raise (OSError EEXIST p)
  | _ =>
      match walk (fs w) [] (parent p) with
      | Some e => raise (OSError e p)
      | None =>
          match fs w !! p with
          | Some _ => raise (OSError EEXIST p)
          | None => set_fs (<[p := Dir]> (fs w))
          end
      end
  end.

(** [Path.mkdir(parents=False, exist_ok=exist_ok)]. *)
Definition mkdir_flat (exist_ok : bool) (p : path) : M unit :=
  try (os_mkdir p) (λ e,
    match e with
    | OSError ENOENT _ => raise e
    | OSError _ _ =>
        d ← Path_is_dir p;
        if negb exist_ok || negb d then raise e else mret tt
    | _ => raise e
    end).

(** [Path.mkdir(parents=True, exist_ok=exist_ok)] on the path whose
    components, last first, are [rp]: when the parent is missing it is
    made first, with [parents=True, exist_ok=True], and the directory
    is made again without [parents]. *)
Fixpoint mkdir_parents (exist_ok : bool) (rp : list string) : M unit :=
  try (os_mkdir (rev rp)) (λ e,
    match e with
    | OSError ENOENT _ =>
        match rp with
        | [] => raise e
        | _ :: rparent =>
            mkdir_parents true rparent;;
            mkdir_flat exist_ok (rev rp)
        end
    | OSError _ _ =>
        d ← Path_is_dir (rev rp);
        if negb exist_ok || negb d then raise e else mret tt
    | _ => raise e
    end).

Definition Path_mkdir (parents exist_ok : bool) (p : path) : M unit :=
  if parents then mkdir_parents exist_ok (rev p) else mkdir_flat exist_ok p.

(** [Path.relative_to]. *)
Fixpoint relative_to (dir p : path) : option (list string) :=
  match dir, p with
  | [], _ => Some p
  | d :: dir', x :: p' => if String.eqb d x then relative_to dir' p' else None
  | _ :: _, [] => None
  end.

Definition selected (fs : gmap path entry) (dir : path) (pattern : string)
    (p : path) : bool :=
  exists_ fs p &&
  match relative_to dir p with
  | Some rel => Glob.glob_match pattern rel (is_dir fs p)
  | None => false
  end.

(** [Path.glob]: the selected entries at and below [dir], in the order
    the directory scan meets them.  Nothing is yielded, and nothing
    raised, when [dir] is not a directory. *)
Definition Path_glob (dir : path) (pattern : string) : M (list path) :=
  if absolute pattern then
    raise (NotImplementedError "Non-relative patterns are unsupported")
  else
    match segments pattern with
    | [] => raise (ValueError (LibraryMessage "Unacceptable pattern"))
    | _ =>
        w ← get;
        if is_dir (fs w) dir
        then mret (filter (λ p, Is_true (selected (fs w) dir pattern p))
                          (dir :: filter (λ p, p ≠ dir) (map_to_list (fs w)).*1))
        else mret []
    end.

(** The order of [Path] objects: component by component, each by code
    points. *)
Fixpoint path_leb (p q : path) : bool :=
  match p, q with
  | [], _ => true
  | _ :: _, [] => false
  | x :: p', y :: q' =>
      match String.compare x y with
      | Lt => true
      | Eq => path_leb p' q'
      | Gt => false
      end
  end.

Definition path_le (p q : path) : Prop := path_leb p q = true.

#[export] Instance path_le_dec : RelDecision path_le.
Proof. intros p q. unfold path_le. apply _. Defined.

(** [sorted] on paths. *)
Definition sorted (l : list path) : list path := merge_sort path_le l.

(** [logger.debug]: the module sets its logger to [INFO], so the record
    is dropped. *)
Definition logger_debug (msg : string) (n : nat) (directory : path) : M unit :=
  mret tt.

End Lib.

(** ** The library calls: [h5py] *)

Module H5py.
Import Names H5Tree World Lib.

(** What [group[name]] gives back. *)
Inductive h5object :=
| ObjGroup (g : group_handle)
| ObjDataset (d : group_handle).

Definition register (p : path) (m : mode) (writable : bool) : M group_handle :=
  w ← get;
  let fid := List.length (handles w) in
  put (Build_world (fs w) (handles w ++ [Some (Build_file_handle p writable)])
                   (events w ++ [EvOpen p m fid]));;
  mret (Build_group_handle fid []).

(** A new, empty container at [p]; whatever file was there is gone. *)
Definition create (p : path) (m : mode) : M group_handle :=
  w ← get;
  match p with
  | [] => raise (OSError EISDIR p)
  | _ =>
      match walk (fs w) [] (parent p) with
      | Some e => raise (OSError e p)
      | None => set_fs (<[p := H5File ∅]> (fs w));; register p m true
      end
  end.

Definition is_open_at (p : path) (h : option file_handle) : bool :=
  match h with
  | Some fh => bool_decide (fh_path fh = p)
  | None => false
  end.

(** [h] is a file object open on [p] with the given access. *)
Definition open_with (writable : bool) (p : path) (h : option file_handle) : bool :=
  match h with
  | Some fh => bool_decide (fh_path fh = p) && Bool.eqb (fh_writable fh) writable
  | None => false
  end.

(** The access that the file objects open on [p] share: read-write when
    one of them is open for writing, read-only when one of them is
    open read-only. *)
Definition open_rw (hs : list (option file_handle)) (p : path) : bool :=
  existsb (open_with true p) hs.
Definition open_ro (hs : list (option file_handle)) (p : path) : bool :=
  existsb (open_with false p) hs.

(** [h5py.File(p, mode)].  The file objects that are open on a file
    share the access of the first of them.  [r] opens an existing
    container, read-only unless it is open for writing already.  [a]
    opens it read-write, which HDF5 refuses while the file is open
    read-only; it writes the start of a container into an empty file and
    creates the file when there is none.  [w] creates it, truncating a
    file that exists unless it is open. *)
Definition File (p : path) (m : mode) : M group_handle :=
  w ← get;
  match m, stat (fs w) p with
  | mode_r, inr (H5File _) => register p m (open_rw (handles w) p)
  | mode_a, inr (H5File _) =>
      if open_ro (handles w) p
      then raise (OSError EBUSY p)
      else register p m true
  | mode_a, inr EmptyFile => create p m
  | mode_a, inl ENOENT => create p m
  | mode_w, inr (H5File _) | mode_w, inr OtherFile | mode_w, inr EmptyFile =>
      if existsb (is_open_at p) (handles w)
      then raise (OSError EBUSY p)
      else create p m
  | mode_w, inl ENOENT => create p m
  | _, inr Dir => raise (OSError EISDIR p)
  | _, inr OtherFile | _, inr EmptyFile => raise (OSError ENOTHDF5 p)
  | _, inl e => raise (OSError e p)
  end.

(** [File.close]. *)
Definition close (fid : nat) : M unit :=
  w ← get;
  put (Build_world (fs w) (<[fid := None]> (handles w))
                   (events w ++ [EvClose fid])).

(** [with h5py.File(p, mode) as f: body]. *)
Definition with_File {A} (p : path) (m : mode) (body : group_handle → M A) : M A :=
  f ← File p m;
  finally (body f) (close (gh_file f)).

Definition invalid {A} : M A :=
  raise (ValueError (LibraryMessage "Invalid location identifier")).

(** The open file behind a handle, and its tree. *)
Definition the_file (h : group_handle) : M file_handle :=
  w ← get;
  match handles w !! gh_file h with
  | Some (Some fh) => mret fh
  | _ => invalid
  end.

Definition the_root (fh : file_handle) : M (gmap string node) :=
  w ← get;
  match fs w !! fh_path fh with
  | Some (H5File root) => mret root
  | _ => invalid
  end.

Definition set_root (fh : file_handle) (root : gmap string node) : M unit :=
  w ← get;
  set_fs (<[fh_path fh := H5File root]> (fs w)).

(** Where [name] leads from the group [h]: the group the search starts
    from (the root of the file after a leading slash) and the links to
    follow from there. *)
Definition start (h : group_handle) (name : string) : list string :=
  if absolute name then [] else gh_path h.

Definition locate (h : group_handle) (name : string) : list string :=
  start h name ++ segments name.

(** [group.keys()]. *)
Definition keys (h : group_handle) : M (list string) :=
  fh ← the_file h;
  root ← the_root fh;
  match group_at (gh_path h) root with
  | Some g => mret (map_to_list g).*1
  | None => invalid
  end.

(** [name in group]: [False] for the empty name and on a closed file. *)
Definition contains (h : group_handle) (name : string) : M bool :=
  if String.eqb name "" then mret false else
  w ← get;
  match handles w !! gh_file h with
  | Some (Some fh) =>
      match fs w !! fh_path fh with
      | Some (H5File root) =>
          mret (bool_decide (is_Some (lookup_at (locate h name) root)))
      | _ => mret false
      end
  | _ => mret false
  end.

(** [group[name]]. *)
Definition getitem (h : group_handle) (name : string) : M h5object :=
  fh ← the_file h;
  root ← the_root fh;
  match lookup_at (locate h name) root with
  | Some (Group _) => mret (ObjGroup (Build_group_handle (gh_file h) (locate h name)))
  | Some (Dataset _) => mret (ObjDataset (Build_group_handle (gh_file h) (locate h name)))
  | None => raise (KeyError name)
  end.

(** [obj[:]]: the whole array of a dataset, read into memory. *)
Definition slice_all (obj : h5object) : M array :=
  match obj with
  | ObjGroup _ => raise (TypeError "Accessing a group is done with bytes or str")
  | ObjDataset d =>
      fh ← the_file d;
      root ← the_root fh;
      match lookup_at (gh_path d) root with
      | Some (Dataset ds) => log (EvRead (fh_path fh) (gh_path d));; mret (ds_data ds)
      | _ => invalid
      end
  end.

(** [del group[name]]. *)
Definition delitem (h : group_handle) (name : string) : M unit :=
  fh ← the_file h;
  root ← the_root fh;
  if negb (fh_writable fh) then raise (KeyError name) else
  match unlink_at (locate h name) root with
  | Some root' => set_root fh root';; log (EvUnlink (fh_path fh) (locate h name))
  | None => raise (KeyError name)
  end.

Definition unable {A} (what : string) : M A :=
  raise (ValueError (LibraryMessage what)).

(** [group.create_group(name)]: the groups on the way are created too. *)
Definition create_group (h : group_handle) (name : string) : M group_handle :=
  fh ← the_file h;
  root ← the_root fh;
  if negb (fh_writable fh) then unable "Unable to create group" else
  match alter_at (start h name) (link_at (segments name) (Group ∅)) root with
  | Some root' =>
      set_root fh root';;
      log (EvCreateGroup (fh_path fh) (locate h name));;
      mret (Build_group_handle (gh_file h) (locate h name))
  | None => unable "Unable to create group"
  end.

(** [group.require_group(name)]: the group is created when the name is
    not in the group; an object that is there must be a group. *)
Definition require_group (h : group_handle) (name : string) : M group_handle :=
  b ← contains h name;
  if negb b then create_group h name else
  grp ← getitem h name;
  match grp with
  | ObjGroup g => mret g
  | ObjDataset _ => raise (TypeError "Incompatible object (Dataset) already exists")
  end.

(** A new dataset under the link [k] of the group [g]. *)
Definition new_dataset (g : group_handle) (k : string) (d : dataset) : M group_handle :=
  fh ← the_file g;
  root ← the_root fh;
  if negb (fh_writable fh) then unable "Unable to create dataset" else
  match alter_at (gh_path g) (link_at [k] (Dataset d)) root with
  | Some root' =>
      set_root fh root';;
      log (EvCreateDataset (fh_path fh) (gh_path g ++ [k]) d);;
      mret (Build_group_handle (gh_file g) (gh_path g ++ [k]))
  | None => unable "Unable to create dataset"
  end.

(** [h5d.create(group, name)] followed by the write of the data; [name]
    is one link name here, possibly after slashes. *)
Definition h5d_create (g : group_handle) (name : string) (d : dataset) : M group_handle :=
  match segments name with
  | [k] => new_dataset (Build_group_handle (gh_file g) (start g name)) k d
  | _ => unable "Unable to create dataset"
  end.

(** What a caller hands over as [data]: a numeric [numpy] array, given
    by its elements, or a Python list of integers of any size. *)
Inductive pydata :=
| NdArray (a : list Z)
| PyList (l : list Z).

Definition fits_int64 (z : Z) : bool := (- 2 ^ 63 <=? z)%Z && (z <? 2 ^ 63)%Z.
Definition needs_uint64 (z : Z) : bool := (2 ^ 63 <=? z)%Z && (z <? 2 ^ 64)%Z.

(** The [float64] nearest to an integer below [2 ^ 64] in size: the
    integer itself below [2 ^ 53], and beyond that its 53 leading bits,
    rounded to even. *)
Definition to_float64 (z : Z) : Z :=
  let a := Z.abs z in
  if (a <? 2 ^ 53)%Z then z else
  let e := (Z.log2 a - 52)%Z in
  let q := (a / 2 ^ e)%Z in
  let r := (a mod 2 ^ e)%Z in
  let half := (2 ^ (e - 1))%Z in
  let q' := if (half <? r)%Z || ((r =? half)%Z && Z.odd q) then (q + 1)%Z else q in
  (Z.sgn z * (q' * 2 ^ e))%Z.

(** [numpy.asarray(data)], when HDF5 has a type for the result.  A list
    of integers becomes an [int64] array when every element fits, an
    [uint64] array when every element is beyond [int64] and fits 64
    bits, a [float64] array when it has elements of both kinds, and an
    array of objects, that HDF5 has no type for, when an element fits
    neither. *)
Definition asarray (data : pydata) : option array :=
  match data with
  | NdArray a => Some a
  | PyList l =>
      if forallb fits_int64 l then Some l
      else if forallb needs_uint64 l then Some l
      else if forallb (λ z, fits_int64 z || needs_uint64 z) l then Some (to_float64 <$> l)
      else None
  end.

(** The message of the [TypeError] for an array of objects. *)
Definition no_hdf5_type : string :=
  "Object dtype dtype('O') has no native HDF5 equivalent".

(** [dataset.make_new_dset(group, data=data, name=name)]: the data is
    turned into an array and its type looked up before anything is
    created. *)
Definition make_new_dset (g : group_handle) (name : string) (data : pydata)
    (compression : option codec) : M group_handle :=
  match asarray data with
  | Some a => h5d_create g name (Build_dataset a compression)
  | None => raise (TypeError no_hdf5_type)
  end.

(** [group.create_dataset(name, data=data, compression=compression)]:
    a name with a slash inside is split at the last one, and what is
    before goes through [require_group]. *)
Definition create_dataset (h : group_handle) (name : string) (data : pydata)
    (compression : option codec) : M group_handle :=
  if negb (String.eqb name "") && has_slash (lstrip name) then
    match rsplit name with
    | Some (parent_path, last) =>
        group ← require_group h parent_path;
        make_new_dset group last data compression
    | None => make_new_dset h name data compression
    end
  else make_new_dset h name data compression.

(** An array is data: a statement about an array handed to [save_h5] is
    about a [numpy] array. *)
#[warning="-uniform-inheritance"] Coercion NdArray : list >-> pydata.

End H5py.

(** ** [env.py] *)

Module Env.
Import Names H5Tree World Lib H5py.

(** [make_dir]: [Path(str).mkdir(parents=True, exist_ok=True)]. *)
Definition make_dir (str : path) : M unit :=
  Path_mkdir true true str.

(** [fetch_files]: the sorted matches of [pattern] under [directory]. *)
Definition fetch_files (pattern : string) (directory : path) : M (list path) :=
  found ← Path_glob directory pattern;
  let files := sorted found in
  logger_debug "Found %s files to import in directory %s."
               (List.length files) directory;;
  mret files.

(** The dictionary a comprehension builds: a later pair replaces an
    earlier one with the same key. *)
Definition dict_of {V} (kvs : list (string * V)) : gmap string V :=
  foldl (λ m kv, <[kv.1 := kv.2]> m) ∅ kvs.

(** [open_hdf5(file_path, *args)]. *)
Definition open_hdf5 (file_path : path) (args : list string)
  : M (gmap string array) :=
  with_File file_path mode_r (λ f,
    keys ← match args with
           | [] => H5py.keys f
           | _ => mret args
           end;
    fkeys ← H5py.keys f;
    let missing_keys : gset string := list_to_set keys ∖ list_to_set fkeys in
    if bool_decide (missing_keys ≠ ∅)
    then raise (ValueError (KeysNotFound missing_keys file_path))
    else
      kvs ← mapM (λ key, obj ← getitem f key;
                         v ← slice_all obj;
                         mret (key, v)) keys;
      mret (dict_of kvs)).

(** [make_h5]: append to a file that exists, create it otherwise. *)
Definition make_h5 (file : path) : M group_handle :=
  e ← Path_exists file;
  let mode := if (e : bool) then mode_a else mode_w in
  File file mode.

(** [get_h5_object]. *)
Definition get_h5_object (file : path) (method : string) : M group_handle :=
  h5 ← make_h5 file;
  require_group h5 method.

(** [save_h5(h5, col, data, compression="gzip")]. *)
Definition save_h5 (h5 : group_handle) (col : string) (data : pydata)
    (compression : option codec) : M group_handle :=
  b ← contains h5 col;
  (if (b : bool) then delitem h5 col else mret tt);;
  create_dataset h5 col data compression.

(** The default of [compression]. *)
Definition default_compression : option codec := Some gzip.

End Env.

(** ** Predicates used in the statements *)

Module Props.
Import Names H5Tree World Lib H5py.

(** Nothing but directories on the way to [d], [d] included. *)
Definition way_clear (fs : gmap path entry) (d : path) : Prop :=
  ∀ q, q `prefix_of` d → q ≠ [] → fs !! q = None ∨ fs !! q = Some Dir.

(** The patterns [Path.glob] accepts: relative, with a component. *)
Definition valid_pattern (pattern : string) : bool :=
  negb (absolute pattern) &&
  match segments pattern with [] => false | _ => true end.

(** [p] is an entry at or below [dir] that [pattern] selects. *)
Definition matches (fs : gmap path entry) (dir : path) (pattern : string)
    (p : path) : Prop :=
  exists_ fs p = true ∧
  ∃ rel, p = dir ++ rel ∧ Glob.glob_match pattern rel (is_dir fs p) = true.

(** The pattern has no component [..], so that what it selects is at or
    below the directory. *)
Definition stays_below (pattern : string) : bool :=
  forallb (λ s, negb (String.eqb s "..")) (segments pattern).

(** The character [a] is in one of the ranges. *)
Definition in_ranges (a : ascii) (rs : list (ascii * ascii)) : Prop :=
  ∃ lo hi, (lo, hi) ∈ rs ∧ (N_of_ascii lo ≤ N_of_ascii a ≤ N_of_ascii hi)%N.

(** What the tokens of a component say of a name: [?] stands for one
    character, [*] for any number of them, a class for one character in
    one of its ranges, or in none of them when it is negated, and
    another character for itself. *)
Inductive accepts : list Glob.token → string → Prop :=
| accepts_end : accepts [] ""
| accepts_any ts a s :
    accepts ts s → accepts (Glob.TAny :: ts) (String a s)
| accepts_star_none ts s :
    accepts ts s → accepts (Glob.TStar :: ts) s
| accepts_star_more ts a s :
    accepts (Glob.TStar :: ts) s → accepts (Glob.TStar :: ts) (String a s)
| accepts_lit ts c s :
    accepts ts s → accepts (Glob.TLit c :: ts) (String c s)
| accepts_class ts rs a s :
    in_ranges a rs → accepts ts s → accepts (Glob.TClass false rs :: ts) (String a s)
| accepts_negated ts rs a s :
    ¬ in_ranges a rs → accepts ts s → accepts (Glob.TClass true rs :: ts) (String a s).

(** What the components of a pattern say of a relative path: [**]
    stands for any number of components, and any other component for one
    name that its tokens accept. *)
Inductive selects : list string → list string → Prop :=
| selects_end : selects [] []
| selects_name pat pats n rel :
    pat ≠ "**" → accepts (Glob.tokens pat) n → selects pats rel →
    selects (pat :: pats) (n :: rel)
| selects_here pats rel :
    selects pats rel → selects ("**" :: pats) rel
| selects_below pats n rel :
    selects ("**" :: pats) rel → selects ("**" :: pats) (n :: rel).

(** [p] is an entry at or below [dir] whose path from [dir] the pattern
    selects; after a pattern that ends with a slash it is a directory. *)
Definition listed (fs : gmap path entry) (dir : path) (pattern : string)
    (p : path) : Prop :=
  exists_ fs p = true ∧
  ∃ rel, p = dir ++ rel ∧ selects (segments pattern) rel ∧
         (Glob.ends_with_slash pattern = true → is_dir fs p = true).

(** The entries [Path.glob] looks at: [dir] and whatever else is in the
    file system. *)
Definition candidates (fs : gmap path entry) (dir : path) : list path :=
  dir :: filter (λ p, p ≠ dir) (map_to_list fs).*1.

(** What is left of [Path.mkdir] once [os.mkdir] has raised something
    other than [ENOENT]. *)
Definition settle (exist_ok : bool) (p : path) (e : exn) : M unit :=
  d ← Path_is_dir p;
  if negb exist_ok || negb d then raise e else mret tt.

(** The handle [h] belongs to an open file object on the container at
    [p], whose tree is [root], and stands for the group [g] in it. *)
Definition open_group (w : world) (h : group_handle) (p : path)
    (writable : bool) (root g : gmap string node) : Prop :=
  handles w !! gh_file h = Some (Some (Build_file_handle p writable)) ∧
  fs w !! p = Some (H5File root) ∧
  group_at (gh_path h) root = Some g.

(** The state after the tree of the container at [p] became [root] and
    the library did [evs]. *)
Definition with_root (w : world) (p : path) (root : gmap string node)
    (evs : list event) : world :=
  Build_world (<[p := H5File root]> (fs w)) (handles w) (events w ++ evs).

(** What [save_h5] makes the library do on the group [g] of the
    container at [p]: an unlink when [col] is there, then the creation. *)
Definition save_events (p : path) (at_ : list string) (g : gmap string node)
    (col : string) (d : dataset) : list event :=
  (match g !! col with
   | Some _ => [EvUnlink p (at_ ++ [col])]
   | None => []
   end) ++ [EvCreateDataset p (at_ ++ [col]) d].

(** The state once [h5py.File] has handed out a new file object. *)
Definition opened (w : world) (p : path) (m : mode) (writable : bool) : world :=
  Build_world (fs w)
              (handles w ++ [Some (Build_file_handle p writable)])
              (events w ++ [EvOpen p m (List.length (handles w))]).

Definition add_events (w : world) (evs : list event) : world :=
  Build_world (fs w) (handles w) (events w ++ evs).

(** The state [open_hdf5] leaves: the file system as it was, the file
    object it opened closed again, and in between the reads [evs]. *)
Definition after_read (w : world) (p : path) (evs : list event) : world :=
  Build_world (fs w)
              (handles w ++ [None])
              (events w ++ [EvOpen p mode_r (List.length (handles w))] ++ evs ++
               [EvClose (List.length (handles w))]).

Definition is_dataset (n : node) : bool :=
  match n with Dataset _ => true | Group _ => false end.

(** The array stored under the key [k] of [g]. *)
Definition array_in (g : gmap string node) (k : string) : array :=
  match g !! k with
  | Some (Dataset d) => ds_data d
  | _ => []
  end.

(** The keys [open_hdf5] reads: the arguments, or every key of the
    container when there is none. *)
Definition requested (args : list string) (root : gmap string node) : list string :=
  match args with
  | [] => (map_to_list root).*1
  | _ => args
  end.

Definition read_events (p : path) (keys : list string) : list event :=
  (λ k, EvRead p [k]) <$> keys.

(** The keys of a group are link names, as in every HDF5 file. *)
Definition names_ok (g : gmap string node) : bool :=
  forallb Names.link_name (map_to_list g).*1.

(** [h] is a [h5py.File] object, open for writing on the container file
    at [p], whose tree is [root]. *)
Definition open_file (w : world) (h : group_handle) (p : path)
    (root : gmap string node) : Prop :=
  handles w !! gh_file h = Some (Some (Build_file_handle p true)) ∧
  gh_path h = [] ∧
  stat (fs w) p = inr (H5File root).

(** Nothing is at [p], and the directory above [p] exists. *)
Definition creatable (fs : gmap path entry) (p : path) : Prop :=
  p ≠ [] ∧ walk fs [] (parent p) = None ∧ fs !! p = None.

(** The tree [make_h5] finds at [p]: that of the container file that is
    there, or the empty tree of the container it makes of an empty file
    or where there is no file. *)
Definition hosts (fs : gmap path entry) (p : path) (root : gmap string node) : Prop :=
  stat fs p = inr (H5File root) ∨
  ((creatable fs p ∨ stat fs p = inr EmptyFile) ∧ root = ∅).

(** No file object is open read-only on [p]: HDF5 lets the file be
    opened for writing. *)
Definition free_for_writing (w : world) (p : path) : Prop :=
  open_ro (handles w) p = false.

(** The tree with the group [name] in it. *)
Definition with_group (root : gmap string node) (name : string) : gmap string node :=
  match root !! name with
  | Some _ => root
  | None => <[name := Group ∅]> root
  end.

(** Neither path is on the way to the other. *)
Definition apart (p q : list string) : Prop :=
  ¬ p `prefix_of` q ∧ ¬ q `prefix_of` p.

(** The handle [h] belongs to an open file object on the container at
    [p], whose tree is [root]. *)
Definition live (w : world) (h : group_handle) (p : path) (writable : bool)
    (root : gmap string node) : Prop :=
  handles w !! gh_file h = Some (Some (Build_file_handle p writable)) ∧
  fs w !! p = Some (H5File root).

(** What a [save_h5] that returns has made the library do at [loc]: an
    unlink when something was there, the groups [made] on the way, the
    creation of the dataset. *)
Definition save_trace (p : path) (loc : list string) (root : gmap string node)
    (made : list event) (d : dataset) : list event :=
  (match lookup_at loc root with
   | Some _ => [EvUnlink p loc]
   | None => []
   end) ++ made ++ [EvCreateDataset p loc d].

(** The library read a dataset of the container at [p]. *)
Definition is_read (p : path) (e : event) : Prop := ∃ at_, e = EvRead p at_.

(** No file object open for writing is behind the number [fid]. *)
Definition no_write (w : world) (fid : nat) : Prop :=
  ∀ p, handles w !! fid ≠ Some (Some (Build_file_handle p true)).

End Props.

(** ** Concrete states *)

Module Examples.
Import H5Tree World.

(** A file system with one directory, [data]. *)
Definition fs_data : gmap path entry := {[ ["data"] := Dir ]}.
Definition w_data : world := Build_world fs_data [] [].

(** A directory [d] that holds the files [a.txt], [b.csv] and [c.txt]. *)
Definition fs_abc : gmap path entry :=
  <[ ["d"; "c.txt"] := OtherFile ]>
    (<[ ["d"; "b.csv"] := OtherFile ]>
       (<[ ["d"; "a.txt"] := OtherFile ]> {[ ["d"] := Dir ]})).
Definition w_abc : world := Build_world fs_abc [] [].

(** A container with the datasets [x] and [y], and a state in which a
    file object is open on it for writing. *)
Definition store : gmap string node :=
  <[ "y" := Dataset (Build_dataset [7; 8]%Z None) ]>
    {[ "x" := Dataset (Build_dataset [1; 2; 3]%Z (Some gzip)) ]}.
Definition fs_store : gmap path entry :=
  <[ ["data"; "store.h5"] := H5File store ]> fs_data.
Definition w_store : world := Build_world fs_store [] [].
Definition w_store_open : world :=
  Build_world fs_store [Some (Build_file_handle ["data"; "store.h5"] true)] [].

(** The container while a file object is open on it read-only. *)
Definition w_store_reading : world :=
  Build_world fs_store [Some (Build_file_handle ["data"; "store.h5"] false)] [].

(** The directory [data] with an empty file in it. *)
Definition fs_touched : gmap path entry :=
  <[ ["data"; "new.h5"] := EmptyFile ]> fs_data.
Definition w_touched : world := Build_world fs_touched [] [].

(** The same container with a group [pca] beside the datasets, which
    holds a dataset [x] of its own. *)
Definition grouped : gmap string node :=
  <[ "pca" := Group {[ "x" := Dataset (Build_dataset [4; 5]%Z (Some gzip)) ]} ]> store.
Definition fs_grouped : gmap path entry :=
  <[ ["data"; "store.h5"] := H5File grouped ]> fs_data.
Definition w_grouped : world := Build_world fs_grouped [] [].
Definition w_grouped_open : world :=
  Build_world fs_grouped [Some (Build_file_handle ["data"; "store.h5"] true)] [].

(** A directory [d] that holds a directory [a], with a file [b] in it,
    and a file [a.txt]. *)
Definition fs_nested : gmap path entry :=
  <[ ["d"; "a.txt"] := OtherFile ]>
    (<[ ["d"; "a"; "b"] := OtherFile ]>
       (<[ ["d"; "a"] := Dir ]> {[ ["d"] := Dir ]})).
Definition w_nested : world := Build_world fs_nested [] [].

End Examples.

(** * Facts about the environment *)

Import H5Tree World Lib H5py Env Props.

(** ** Runs of the model *)

Example segments_of_a_name : Names.segments "/grp//pca/./x" = ["grp"; "pca"; "x"].
Proof. reflexivity. Qed.

Example fnmatch_star : Glob.fnmatch "a.txt" "*.txt" = true ∧ Glob.fnmatch "b.csv" "*.txt" = false.
Proof. split; reflexivity. Qed.

Example fnmatch_class :
  Glob.fnmatch "run7.h5" "run[0-9].h?" = true ∧ Glob.fnmatch "runA.h5" "run[!A-Z].h5" = false.
Proof. split; reflexivity. Qed.

(** A bracket right after the opening one stands for itself and may
    start a range; a range that would be empty is dropped with its two
    ends. *)
Example fnmatch_class_edges :
  Glob.fnmatch "^" "[]-a]" = true ∧ Glob.fnmatch "-" "[]-a]" = false ∧
  Glob.fnmatch "x" "[z-a]" = false ∧ Glob.fnmatch "x" "[!a-!]" = true ∧
  Glob.fnmatch "-" "[a-]" = true ∧ Glob.fnmatch "[" "[a" = false.
Proof. repeat split; reflexivity. Qed.

(** What [numpy] makes of lists of integers. *)
Example asarray_of_lists :
  asarray (PyList [1; 2; 3]%Z) = Some [1; 2; 3]%Z ∧
  asarray (PyList [2 ^ 63]%Z) = Some [2 ^ 63]%Z ∧
  asarray (PyList [1; 2 ^ 63 + 1]%Z) = Some [1; 2 ^ 63]%Z ∧
  asarray (PyList [2 ^ 64]%Z) = None ∧
  asarray (PyList [- 2 ^ 63 - 1]%Z) = None.
Proof. repeat split; vm_compute; reflexivity. Qed.

Example glob_recursive :
  (fetch_files "**/*.h5" [] Examples.w_store).1 = Ok [["data"; "store.h5"]].
Proof. reflexivity. Qed.

(** A regular file on the way: [NotADirectoryError], and nothing is made. *)
Example make_dir_through_a_file :
  make_dir ["d"; "a.txt"; "sub"] Examples.w_abc =
    (Raise (OSError ENOTDIR ["d"; "a.txt"; "sub"]), Examples.w_abc).
Proof. reflexivity. Qed.

(** A name with a slash is written below a group: it is not a key of the
    root, and [open_hdf5] does not find it. *)
Example nested_name_is_not_a_key :
  (save_h5 (Build_group_handle 0 []) "g/x" [1; 2; 3]%Z default_compression
           Examples.w_store_open).1 = Ok (Build_group_handle 0 ["g"; "x"]) ∧
  ((save_h5 (Build_group_handle 0 []) "g/x" [1; 2; 3]%Z default_compression;;
    open_hdf5 ["data"; "store.h5"] ["g/x"]) Examples.w_store_open).1 =
    Raise (ValueError (KeysNotFound {["g/x"]} ["data"; "store.h5"])).
Proof. split; vm_compute; reflexivity. Qed.

Section NamesFacts.
Import Names.

Lemma split_go_no_slash (s cur : string) :
  has_slash s = false → split_go cur s = [String.rev_app cur s].
Proof.
  revert cur. induction s as [|a s IH]; intros cur Hs; simpl in *.
  - reflexivity.
  - apply orb_false_iff in Hs as [Ha Hs]. rewrite Ha. by rewrite IH.
Qed.

Lemma segments_link_name (s : string) :
  link_name s = true → segments s = [s].
Proof.
  unfold link_name, segments, split. intros [Hp Hs]%andb_true_iff.
  apply negb_true_iff in Hs. rewrite split_go_no_slash by done.
  simpl. by rewrite Hp.
Qed.

Lemma absolute_link_name (s : string) :
  link_name s = true → absolute s = false.
Proof.
  unfold link_name. intros [_ Hs]%andb_true_iff. apply negb_true_iff in Hs.
  destruct s as [|a s]; simpl in *; [done|].
  by apply orb_false_iff in Hs as [-> _].
Qed.

Lemma link_name_nonempty (s : string) :
  link_name s = true → String.eqb s "" = false.
Proof.
  unfold link_name, proper_segment.
  intros [[Hne _]%andb_true_iff _]%andb_true_iff. by apply negb_true_iff.
Qed.

Lemma lstrip_link_name (s : string) :
  link_name s = true →
  negb (String.eqb s "") && has_slash (lstrip s) = false.
Proof.
  intros Hl. rewrite link_name_nonempty by done.
  unfold link_name in Hl. apply andb_true_iff in Hl as [_ Hs].
  apply negb_true_iff in Hs. destruct s as [|a s]; [done|].
  simpl in *. apply orb_false_iff in Hs as [Ha Hs]. rewrite Ha. simpl.
  by rewrite Ha, Hs.
Qed.

Lemma rsplit_app (s l r : string) :
  rsplit s = Some (l, r) → s = l +:+ String slash r ∧ has_slash r = false.
Proof.
  revert l. induction s as [|a s IH]; intros l; [done|]. cbn [rsplit].
  destruct (rsplit s) as [[l' r']|] eqn:Hs.
  - intros [= <- <-]. destruct (IH l' eq_refl) as [-> Hr]. by split.
  - destruct (Ascii.eqb_spec a slash) as [->|Hne]; [|done].
    intros [= <- <-]. split; [done|]. clear IH.
    induction s as [|b s IH]; [done|]. cbn [rsplit] in Hs. cbn [has_slash].
    destruct (rsplit s) as [[? ?]|]; [done|].
    destruct (Ascii.eqb b slash); [done|]. by apply IH.
Qed.

Lemma split_go_app (cur l r : string) :
  split_go cur (l +:+ String slash r) = split_go cur l ++ split_go EmptyString r.
Proof.
  revert cur. induction l as [|a l IH]; intros cur; simpl.
  - reflexivity.
  - destruct (Ascii.eqb a slash); [|apply IH]. by rewrite IH.
Qed.

Lemma segments_app (l r : string) :
  segments (l +:+ String slash r) = segments l ++ segments r.
Proof. unfold segments, split. by rewrite split_go_app, List.filter_app. Qed.

Lemma absolute_app (l r : string) :
  l ≠ EmptyString → absolute (l +:+ r) = absolute l.
Proof. by destruct l. Qed.

Lemma absolute_no_slash (s : string) : has_slash s = false → absolute s = false.
Proof.
  destruct s as [|a s]; [done|]. simpl. by intros [-> _]%orb_false_iff.
Qed.

Lemma has_slash_app (a b : string) :
  has_slash (a +:+ b) = has_slash a || has_slash b.
Proof.
  induction a as [|c a IH]; [done|]. simpl. rewrite IH. by destruct (Ascii.eqb c _).
Qed.

Lemma has_slash_rev_app (a b : string) :
  has_slash (String.rev_app a b) = has_slash a || has_slash b.
Proof.
  revert b. induction a as [|c a IH]; intros b; [done|]. simpl. rewrite IH. simpl.
  destruct (Ascii.eqb c slash); simpl; [by rewrite orb_true_r|done].
Qed.

Lemma split_go_slashless (cur s : string) :
  has_slash cur = false → Forall (λ x, has_slash x = false) (split_go cur s).
Proof.
  revert cur. induction s as [|a s IH]; intros cur Hcur; simpl.
  - apply Forall_singleton. unfold String.rev. by rewrite has_slash_rev_app, Hcur.
  - destruct (Ascii.eqb a slash) eqn:Ha.
    + apply Forall_cons. split; [|by apply IH].
      unfold String.rev. by rewrite has_slash_rev_app, Hcur.
    + apply IH. simpl. by rewrite Ha.
Qed.

(** The components of a name are link names. *)
Lemma segments_link_names (s : string) :
  Forall (λ k, link_name k = true) (segments s).
Proof.
  unfold segments, split. apply Forall_forall. intros k Hk.
  apply list_elem_of_In, filter_In in Hk as [Hk%list_elem_of_In Hp].
  pose proof (split_go_slashless EmptyString s eq_refl) as Hall.
  rewrite Forall_forall in Hall. unfold link_name. by rewrite Hp, (Hall k Hk).
Qed.

End NamesFacts.

Section TreeFacts.
Import H5Tree.
Implicit Types (g root : gmap string node) (p gp : list string) (k : string).

Lemma group_at_nil g : group_at [] g = Some g.
Proof. reflexivity. Qed.

Lemma group_at_cons k p g :
  group_at (k :: p) g =
    match g !! k with
    | Some (Group g') => group_at p g'
    | _ => None
    end.
Proof.
  unfold group_at. simpl. destruct (g !! k) as [[d|g']|]; try done.
  by destruct p.
Qed.

Lemma lookup_at_snoc gp k root :
  lookup_at (gp ++ [k]) root =
    match group_at gp root with
    | Some g => g !! k
    | None => None
    end.
Proof.
  revert root. induction gp as [|a gp IH]; intros root.
  - cbn. by destruct (root !! k) as [[?|?]|].
  - rewrite group_at_cons. simpl.
    destruct (root !! a) as [[d|g']|]; [|apply IH|done].
    by destruct gp.
Qed.

Lemma alter_at_inv gp f root root' :
  alter_at gp f root = Some root' →
  ∃ g g', group_at gp root = Some g ∧ f g = Some g' ∧
          group_at gp root' = Some g'.
Proof.
  revert root root'. induction gp as [|a gp IH]; intros root root' H.
  - simpl in H. exists root, root'. by rewrite !group_at_nil.
  - simpl in H. rewrite !group_at_cons.
    destruct (root !! a) as [[d|g1]|] eqn:Ha; try done.
    destruct (alter_at gp f g1) as [g2|] eqn:Hg; [|done].
    injection H as <-. rewrite lookup_insert_eq.
    by apply IH.
Qed.

Lemma alter_at_group_at gp f root g g' :
  group_at gp root = Some g → f g = Some g' →
  ∃ root', alter_at gp f root = Some root' ∧ group_at gp root' = Some g'.
Proof.
  revert root. induction gp as [|a gp IH]; intros root Hg Hf.
  - rewrite group_at_nil in Hg. injection Hg as ->. by exists g'.
  - rewrite group_at_cons in Hg. simpl.
    destruct (root !! a) as [[d|g1]|] eqn:Ha; try done.
    destruct (IH g1 Hg Hf) as (g2 & -> & Hg2).
    eexists. split; [done|]. by rewrite group_at_cons, lookup_insert_eq.
Qed.

Lemma unlink_at_cons a p g :
  p ≠ [] →
  unlink_at (a :: p) g =
    match g !! a with
    | Some (Group g') =>
        match unlink_at p g' with
        | Some g'' => Some (<[a := Group g'']> g)
        | None => None
        end
    | _ => None
    end.
Proof. by destruct p. Qed.

Lemma unlink_at_snoc gp k root :
  unlink_at (gp ++ [k]) root = alter_at gp (unlink_at [k]) root.
Proof.
  revert root. induction gp as [|a gp IH]; intros root; [done|].
  change ((a :: gp) ++ [k]) with (a :: (gp ++ [k])).
  rewrite unlink_at_cons by (by destruct gp). cbn [alter_at].
  destruct (root !! a) as [[d|g1]|]; try done. by rewrite IH.
Qed.

Lemma unlink_one k g :
  unlink_at [k] g = match g !! k with Some _ => Some (delete k g) | None => None end.
Proof. reflexivity. Qed.

Lemma link_one k n g :
  link_at [k] n g = match g !! k with None => Some (<[k := n]> g) | Some _ => None end.
Proof. reflexivity. Qed.

Lemma lookup_at_cons k p g :
  lookup_at (k :: p) g =
    match g !! k with
    | Some n => lookup_in n p
    | None => None
    end.
Proof. simpl. by destruct (g !! k) as [[d|g']|]. Qed.

Lemma lookup_in_app n p q :
  lookup_in n (p ++ q) =
    match lookup_in n p with
    | Some n' => lookup_in n' q
    | None => None
    end.
Proof.
  revert n. induction p as [|k p IH]; intros [d|g]; try done.
  cbn [lookup_in app]. rewrite !lookup_at_cons.
  destruct (g !! k) as [n'|]; [apply IH|done].
Qed.

Lemma lookup_at_app p q g :
  lookup_at (p ++ q) g =
    match lookup_at p g with
    | Some n => lookup_in n q
    | None => None
    end.
Proof. apply (lookup_in_app (Group g)). Qed.

Lemma lookup_at_empty k p : lookup_at (k :: p) ∅ = None.
Proof. by rewrite lookup_at_cons, lookup_empty. Qed.

Lemma apart_cons k a (rel q : list string) :
  apart (k :: rel) (a :: q) → a ≠ k ∨ (a = k ∧ apart rel q).
Proof.
  intros [H1 H2]. destruct (decide (a = k)) as [->|?]; [right|by left].
  split; [done|]. split; intros ?; [apply H1|apply H2]; by apply prefix_cons.
Qed.

Lemma apart_nil_l (q : list string) : ¬ apart [] q.
Proof. intros [H _]. apply H, prefix_nil. Qed.

Lemma apart_nil_r (p : list string) : ¬ apart p [].
Proof. intros [_ H]. apply H, prefix_nil. Qed.

Lemma link_at_cons a p n g :
  p ≠ [] →
  link_at (a :: p) n g =
    match g !! a with
    | Some (Group g') =>
        match link_at p n g' with
        | Some g'' => Some (<[a := Group g'']> g)
        | None => None
        end
    | None =>
        match link_at p n ∅ with
        | Some g'' => Some (<[a := Group g'']> g)
        | None => None
        end
    | Some (Dataset _) => None
    end.
Proof. by destruct p. Qed.

(** A new link leaves alone what is apart from it. *)
Lemma link_at_frame rel n g g' q :
  link_at rel n g = Some g' → apart rel q → lookup_at q g' = lookup_at q g.
Proof.
  revert g g' q. induction rel as [|k rel IH]; intros g g' q Hl Ha; [done|].
  destruct q as [|a q]; [by destruct (apart_nil_r _ Ha)|].
  apply apart_cons in Ha. rewrite !lookup_at_cons.
  destruct (decide (rel = [])) as [->|Hrel].
  - rewrite link_one in Hl. destruct (g !! k) eqn:Hk; [done|]. injection Hl as <-.
    destruct Ha as [Hne|[_ Ha]]; [by rewrite lookup_insert_ne|].
    by destruct (apart_nil_l _ Ha).
  - rewrite link_at_cons in Hl by done.
    destruct Ha as [Hne|[-> Ha]].
    + destruct (g !! k) as [[d|g1]|]; [done| |];
        [destruct (link_at rel n g1)|destruct (link_at rel n ∅)]; try done;
        injection Hl as <-; by rewrite lookup_insert_ne.
    + destruct (g !! k) as [[d|g1]|]; [done| |].
      * destruct (link_at rel n g1) as [g1'|] eqn:Hl1; [|done]. injection Hl as <-.
        rewrite lookup_insert_eq. cbn [lookup_in]. by eapply IH.
      * destruct (link_at rel n ∅) as [g1'|] eqn:Hl1; [|done]. injection Hl as <-.
        rewrite lookup_insert_eq. cbn [lookup_in]. rewrite (IH _ _ _ Hl1 Ha).
        destruct q as [|b q]; [by destruct (apart_nil_r _ Ha)|].
        apply lookup_at_empty.
Qed.

(** A new link was not there, and leads to the new object. *)
Lemma link_at_lookup rel n g g' :
  link_at rel n g = Some g' →
  lookup_at rel g = None ∧ ∀ more, lookup_at (rel ++ more) g' = lookup_in n more.
Proof.
  revert g g'. induction rel as [|k rel IH]; intros g g' Hl; [done|].
  cbn [app]. setoid_rewrite lookup_at_cons.
  destruct (decide (rel = [])) as [->|Hrel].
  - rewrite link_one in Hl. destruct (g !! k) eqn:Hk; [done|]. injection Hl as <-.
    split; [done|]. intros more. by rewrite lookup_insert_eq.
  - rewrite link_at_cons in Hl by done.
    destruct (g !! k) as [[d|g1]|]; [done| |].
    + destruct (link_at rel n g1) as [g1'|] eqn:Hl1; [|done]. injection Hl as <-.
      destruct (IH _ _ Hl1) as [Hnone Hnew]. split; [done|].
      intros more. rewrite lookup_insert_eq. apply Hnew.
    + destruct (link_at rel n ∅) as [g1'|] eqn:Hl1; [|done]. injection Hl as <-.
      destruct (IH _ _ Hl1) as [_ Hnew]. split; [done|].
      intros more. rewrite lookup_insert_eq. apply Hnew.
Qed.

(** Removing a link leaves alone what is apart from it. *)
Lemma unlink_at_frame rel g g' q :
  unlink_at rel g = Some g' → apart rel q → lookup_at q g' = lookup_at q g.
Proof.
  revert g g' q. induction rel as [|k rel IH]; intros g g' q Hl Ha; [done|].
  destruct q as [|a q]; [by destruct (apart_nil_r _ Ha)|].
  apply apart_cons in Ha. rewrite !lookup_at_cons.
  destruct (decide (rel = [])) as [->|Hrel].
  - rewrite unlink_one in Hl. destruct (g !! k) eqn:Hk; [|done]. injection Hl as <-.
    destruct Ha as [Hne|[_ Ha]]; [by rewrite lookup_delete_ne|].
    by destruct (apart_nil_l _ Ha).
  - rewrite unlink_at_cons in Hl by done.
    destruct (g !! k) as [[d|g1]|] eqn:Hk; [done| |done].
    destruct (unlink_at rel g1) as [g1'|] eqn:Hl1; [|done]. injection Hl as <-.
    destruct Ha as [Hne|[-> Ha]]; [by rewrite lookup_insert_ne|].
    rewrite lookup_insert_eq, Hk. cbn [lookup_in]. by eapply IH.
Qed.

(** A link that can be removed is there. *)
Lemma unlink_at_lookup rel g g' :
  unlink_at rel g = Some g' → is_Some (lookup_at rel g) ∧ lookup_at rel g' = None.
Proof.
  revert g g'. induction rel as [|k rel IH]; intros g g' Hl; [done|].
  rewrite !lookup_at_cons.
  destruct (decide (rel = [])) as [->|Hrel].
  - rewrite unlink_one in Hl. destruct (g !! k) as [n|] eqn:Hk; [|done].
    injection Hl as <-. rewrite lookup_delete_eq. split; [|done].
    destruct n; by eexists.
  - rewrite unlink_at_cons in Hl by done.
    destruct (g !! k) as [[d|g1]|] eqn:Hk; [done| |done].
    destruct (unlink_at rel g1) as [g1'|] eqn:Hl1; [|done]. injection Hl as <-.
    rewrite lookup_insert_eq. by apply IH.
Qed.

(** A rewrite of the group at [base] leaves alone what is apart from
    [base]. *)
Lemma alter_at_frame_out base f g g' q :
  alter_at base f g = Some g' → apart base q → lookup_at q g' = lookup_at q g.
Proof.
  revert g g' q. induction base as [|k base IH]; intros g g' q Hal Ha;
    [by destruct (apart_nil_l _ Ha)|].
  destruct q as [|a q]; [by destruct (apart_nil_r _ Ha)|].
  apply apart_cons in Ha. rewrite !lookup_at_cons. cbn [alter_at] in Hal.
  destruct (g !! k) as [[d|g1]|] eqn:Hk; [done| |done].
  destruct (alter_at base f g1) as [g1'|] eqn:Hal1; [|done]. injection Hal as <-.
  destruct Ha as [Hne|[-> Ha]]; [by rewrite lookup_insert_ne|].
  rewrite lookup_insert_eq, Hk. cbn [lookup_in]. by eapply IH.
Qed.

Lemma lookup_at_group_at p g g0 :
  group_at p g = Some g0 ↔ lookup_at p g = Some (Group g0).
Proof.
  unfold group_at. destruct (lookup_at p g) as [[d|g1]|]; naive_solver.
Qed.

(** A rewrite of the group at [base] that leaves alone what is apart
    from [rel] leaves alone what is apart from [base ++ rel]. *)
Lemma alter_at_frame base rel f g g' q :
  alter_at base f g = Some g' →
  (∀ g0 g0' q', f g0 = Some g0' → apart rel q' → lookup_at q' g0' = lookup_at q' g0) →
  apart (base ++ rel) q →
  lookup_at q g' = lookup_at q g.
Proof.
  intros Hal Hf [H1 H2].
  destruct (decide (base `prefix_of` q)) as [[q' ->]|Hb].
  - apply alter_at_inv in Hal as (g0 & g0' & Hg0 & Hfg & Hg0').
    apply lookup_at_group_at in Hg0, Hg0'.
    rewrite !lookup_at_app, Hg0, Hg0'. cbn [lookup_in].
    eapply Hf; [done|]. split; intros ?; [apply H1|apply H2]; by apply prefix_app.
  - eapply alter_at_frame_out; [done|]. split; [done|].
    intros ?. apply H2. by apply prefix_app_r.
Qed.

End TreeFacts.

Section FsFacts.
Import World Lib.
Implicit Types (fs : gmap path entry) (p q cur l : path) (k : string).

Lemma parent_snoc l k : parent (l ++ [k]) = l.
Proof. apply removelast_last. Qed.

Lemma walk_snoc fs cur l k :
  walk fs cur (l ++ [k]) =
    match walk fs cur l with
    | Some e => Some e
    | None =>
        match fs !! (cur ++ l ++ [k]) with
        | Some Dir => None
        | Some _ => Some ENOTDIR
        | None => Some ENOENT
        end
    end.
Proof.
  revert cur. induction l as [|a l IH]; intros cur; simpl.
  - by destruct (fs !! (cur ++ [k])) as [[]|].
  - destruct (fs !! (cur ++ [a])) as [[]|]; try done.
    rewrite IH. by rewrite <- (assoc_L (++) cur [a]).
Qed.

Lemma walk_error fs cur l e :
  walk fs cur l = Some e → e = ENOENT ∨ e = ENOTDIR.
Proof.
  revert cur. induction l as [|a l IH]; intros cur; simpl; [done|].
  destruct (fs !! (cur ++ [a])) as [[]|]; naive_solver.
Qed.

(** A walk stops with [ENOTDIR] at an entry that is not a directory. *)
Lemma walk_ENOTDIR fs cur l :
  walk fs cur l = Some ENOTDIR →
  ∃ q x, q `prefix_of` l ∧ q ≠ [] ∧ fs !! (cur ++ q) = Some x ∧ x ≠ Dir.
Proof.
  revert cur. induction l as [|a l IH]; intros cur; simpl; [done|].
  destruct (fs !! (cur ++ [a])) as [x|] eqn:Ha; [|done].
  destruct x.
  - intros (q & x & Hq & Hne & Hx & Hd)%IH.
    exists (a :: q), x. split_and!; [by apply prefix_cons|done| |done].
    by rewrite <- Hx, <- (assoc_L (++) cur [a]).
  - intros _. exists [a], (H5File root). split_and!; try done.
    by apply prefix_cons, prefix_nil.
  - intros _. exists [a], OtherFile. split_and!; try done.
    by apply prefix_cons, prefix_nil.
  - intros _. exists [a], EmptyFile. split_and!; try done.
    by apply prefix_cons, prefix_nil.
Qed.

Lemma walk_None fs cur l :
  walk fs cur l = None ↔
  ∀ q, q `prefix_of` l → q ≠ [] → fs !! (cur ++ q) = Some Dir.
Proof.
  revert cur. induction l as [|a l IH]; intros cur; simpl.
  - split; [|done]. intros _ q Hq%prefix_nil_inv. done.
  - split.
    + destruct (fs !! (cur ++ [a])) as [[]|] eqn:Ha; try done.
      intros Hw [|b q] [t Ht] Hne; [done|]. simplify_eq/=.
      destruct q as [|c q]; [done|].
      replace (cur ++ b :: c :: q) with ((cur ++ [b]) ++ c :: q)
        by (by rewrite <- (assoc_L (++))).
      apply (proj1 (IH _) Hw); [by eexists|done].
    + intros H. rewrite (H [a]); [|by apply prefix_cons, prefix_nil|done].
      apply IH. intros q Hq Hne. rewrite <- (assoc_L (++) cur [a]).
      apply H; [by apply prefix_cons|done].
Qed.

Lemma walk_insert_dir fs cur l p :
  walk fs cur l = None → walk (<[p := Dir]> fs) cur l = None.
Proof.
  rewrite !walk_None. intros H q Hq Hne.
  destruct (decide (p = cur ++ q)) as [->|Hp].
  - by rewrite lookup_insert_eq.
  - rewrite lookup_insert_ne by done. by apply H.
Qed.

Lemma walk_insert_ne fs cur l p x :
  (∀ q, q `prefix_of` l → q ≠ [] → cur ++ q ≠ p) →
  walk (<[p := x]> fs) cur l = walk fs cur l.
Proof.
  revert cur. induction l as [|a l IH]; intros cur H; simpl; [done|].
  rewrite lookup_insert_ne.
  2:{ intros E. eapply (H [a]); [by apply prefix_cons, prefix_nil|done|done]. }
  destruct (fs !! (cur ++ [a])) as [[]|]; try done.
  apply IH. intros q Hq Hne. rewrite <- (assoc_L (++) cur [a]).
  apply H; [by apply prefix_cons|done].
Qed.

Lemma stat_snoc fs l k :
  stat fs (l ++ [k]) =
    match walk fs [] l with
    | Some e => inl e
    | None =>
        match fs !! (l ++ [k]) with
        | Some x => inr x
        | None => inl ENOENT
        end
    end.
Proof.
  unfold stat. rewrite parent_snoc. by destruct l.
Qed.

Lemma is_dir_walk fs p : is_dir fs p = true ↔ walk fs [] p = None.
Proof.
  unfold is_dir. destruct p as [|k l _] using rev_ind; [done|].
  rewrite stat_snoc, walk_snoc. simpl.
  destruct (walk fs [] l); [done|].
  by destruct (fs !! (l ++ [k])) as [[]|].
Qed.

Lemma is_dir_exists fs p : is_dir fs p = true → exists_ fs p = true.
Proof. unfold is_dir, exists_. by destruct (stat fs p). Qed.

Lemma relative_to_Some dir p rel :
  relative_to dir p = Some rel ↔ p = dir ++ rel.
Proof.
  revert p. induction dir as [|d dir IH]; intros p; simpl.
  - split; [by intros [= ->]|by intros ->].
  - destruct p as [|x p]; [done|].
    destruct (String.eqb_spec d x) as [->|Hne].
    + rewrite IH. split; [by intros ->|by intros [= ->]].
    + split; [done|by intros [= ? ?]].
Qed.

End FsFacts.

(** * [make_dir] *)

Section MkdirFacts.
Import World Lib Props.
Implicit Types (p q l : path) (k : string) (rp : list string) (w : world).

Lemma os_mkdir_snoc l k w :
  os_mkdir (l ++ [k]) w =
    match walk (fs w) [] l with
    | Some e => (Raise (OSError e (l ++ [k])), w)
    | None =>
        match fs w !! (l ++ [k]) with
        | Some _ => (Raise (OSError EEXIST (l ++ [k])), w)
        | None => (Ok tt, Build_world (<[l ++ [k] := Dir]> (fs w))
                                      (handles w) (events w))
        end
    end.
Proof.
  unfold os_mkdir, mbind, M_bind, bind, get, raise, set_fs.
  rewrite parent_snoc.
  destruct (l ++ [k]) eqn:E; [by destruct l|]. cbv beta iota. rewrite <- E.
  destruct (walk (fs w) [] l); [reflexivity|].
  destruct (fs w !! (l ++ [k])); reflexivity.
Qed.

Lemma settle_eq exist_ok p e w :
  settle exist_ok p e w =
    if negb exist_ok || negb (is_dir (fs w) p) then (Raise e, w) else (Ok tt, w).
Proof.
  unfold settle, Path_is_dir, mbind, M_bind, bind, get, mret, M_ret, ret, raise.
  by destruct (negb exist_ok || negb (is_dir (fs w) p)).
Qed.

Lemma mkdir_flat_snoc exist_ok l k w :
  mkdir_flat exist_ok (l ++ [k]) w =
    match walk (fs w) [] l with
    | Some ENOENT => (Raise (OSError ENOENT (l ++ [k])), w)
    | Some e => settle exist_ok (l ++ [k]) (OSError e (l ++ [k])) w
    | None =>
        match fs w !! (l ++ [k]) with
        | Some _ => settle exist_ok (l ++ [k]) (OSError EEXIST (l ++ [k])) w
        | None => (Ok tt, Build_world (<[l ++ [k] := Dir]> (fs w))
                                      (handles w) (events w))
        end
    end.
Proof.
  unfold mkdir_flat, try. rewrite os_mkdir_snoc.
  destruct (walk (fs w) [] l) as [e|] eqn:Hw.
  - destruct (walk_error _ _ _ _ Hw) as [-> | ->]; done.
  - by destruct (fs w !! (l ++ [k])).
Qed.

Lemma mkdir_parents_nil exist_ok w :
  mkdir_parents exist_ok [] w = settle exist_ok [] (OSError EEXIST []) w.
Proof. reflexivity. Qed.

Lemma mkdir_parents_cons exist_ok k rp w :
  mkdir_parents exist_ok (k :: rp) w =
    match walk (fs w) [] (rev rp) with
    | Some ENOENT =>
        match mkdir_parents true rp w with
        | (Ok _, w') => mkdir_flat exist_ok (rev rp ++ [k]) w'
        | (Raise e, w') => (Raise e, w')
        end
    | Some e => settle exist_ok (rev rp ++ [k]) (OSError e (rev rp ++ [k])) w
    | None =>
        match fs w !! (rev rp ++ [k]) with
        | Some _ =>
            settle exist_ok (rev rp ++ [k]) (OSError EEXIST (rev rp ++ [k])) w
        | None => (Ok tt, Build_world (<[rev rp ++ [k] := Dir]> (fs w))
                                      (handles w) (events w))
        end
    end.
Proof.
  cbn [mkdir_parents rev]. unfold try at 1. rewrite os_mkdir_snoc.
  destruct (walk (fs w) [] (rev rp)) as [e|] eqn:Hw.
  - destruct (walk_error _ _ _ _ Hw) as [-> | ->]; done.
  - by destruct (fs w !! (rev rp ++ [k])).
Qed.

Lemma settle_Ok exist_ok p e w w' :
  settle exist_ok p e w = (Ok tt, w') → w' = w ∧ walk (fs w) [] p = None.
Proof.
  rewrite settle_eq. destruct exist_ok; simpl; [|done].
  destruct (is_dir (fs w) p) eqn:Hd; simpl; [|done].
  intros [= <-]. split; [done|]. by apply is_dir_walk.
Qed.

Lemma settle_is_dir p e w :
  walk (fs w) [] p = None → settle true p e w = (Ok tt, w).
Proof.
  intros Hd%is_dir_walk. rewrite settle_eq. by rewrite Hd.
Qed.

Lemma walk_new_dir (fs : gmap path entry) l k :
  walk fs [] l = None → walk (<[l ++ [k] := Dir]> fs) [] (l ++ [k]) = None.
Proof.
  intros Hw. rewrite walk_snoc, walk_insert_dir by done.
  simpl. by rewrite lookup_insert_eq.
Qed.

Lemma mkdir_flat_is_dir exist_ok p w w' :
  mkdir_flat exist_ok p w = (Ok tt, w') → walk (fs w') [] p = None.
Proof.
  destruct p as [|k l _] using rev_ind; [done|].
  rewrite mkdir_flat_snoc.
  destruct (walk (fs w) [] l) as [[]|] eqn:Hw; try done;
    try (by intros [-> ?]%settle_Ok).
  destruct (fs w !! (l ++ [k])) eqn:Hp.
  - by intros [-> ?]%settle_Ok.
  - intros [= <-]. by apply walk_new_dir.
Qed.

(** After a successful [mkdir] the directory is there. *)
Lemma mkdir_parents_is_dir rp exist_ok w w' :
  mkdir_parents exist_ok rp w = (Ok tt, w') → walk (fs w') [] (rev rp) = None.
Proof.
  revert exist_ok w w'. induction rp as [|k rp IH]; intros exist_ok w w'; [done|].
  rewrite mkdir_parents_cons. cbn [rev].
  destruct (walk (fs w) [] (rev rp)) as [[]|] eqn:Hw; try done;
    try (by intros [-> ?]%settle_Ok).
  - destruct (mkdir_parents true rp w) as [[[]|e] w1]; [|done].
    apply mkdir_flat_is_dir.
  - destruct (fs w !! (rev rp ++ [k])) eqn:Hp.
    + by intros [-> ?]%settle_Ok.
    + intros [= <-]. by apply walk_new_dir.
Qed.

(** On a directory that exists [mkdir] changes nothing. *)
Lemma mkdir_parents_noop rp w :
  walk (fs w) [] (rev rp) = None → mkdir_parents true rp w = (Ok tt, w).
Proof.
  destruct rp as [|k rp]; intros Hw.
  - rewrite mkdir_parents_nil. by apply settle_is_dir.
  - rewrite mkdir_parents_cons. cbn [rev] in Hw.
    pose proof Hw as Hw'. rewrite walk_snoc in Hw'.
    destruct (walk (fs w) [] (rev rp)); [done|]. simpl in Hw'.
    destruct (fs w !! (rev rp ++ [k])) as [[]|]; try done.
    by apply settle_is_dir.
Qed.

(** With nothing but directories on the way, [mkdir] succeeds; it adds
    directories along the path and touches nothing else. *)
Lemma mkdir_parents_clear rp w :
  way_clear (fs w) (rev rp) →
  ∃ fs', mkdir_parents true rp w = (Ok tt, Build_world fs' (handles w) (events w)) ∧
         walk fs' [] (rev rp) = None ∧
         ∀ q, fs' !! q = fs w !! q ∨
              (q `prefix_of` rev rp ∧ q ≠ [] ∧ fs w !! q = None ∧ fs' !! q = Some Dir).
Proof.
  revert w. induction rp as [|k rp IH]; intros [fs0 hs ev] Hc; cbn [fs handles events] in *.
  - exists fs0. split_and!; [|done|by left].
    rewrite mkdir_parents_nil. by apply settle_is_dir.
  - cbn [rev] in *.
    assert (way_clear fs0 (rev rp)) as Hc'.
    { intros q Hq Hne. apply Hc; [by apply prefix_app_r|done]. }
    assert (fs0 !! (rev rp ++ [k]) = None ∨ fs0 !! (rev rp ++ [k]) = Some Dir) as Hk.
    { apply Hc; [done|by destruct (rev rp)]. }
    rewrite mkdir_parents_cons. cbn [fs handles events].
    destruct (walk fs0 [] (rev rp)) as [e|] eqn:Hw.
    + destruct (walk_error _ _ _ _ Hw) as [-> | ->].
      * destruct (IH (Build_world fs0 hs ev) Hc') as (fs1 & -> & Hw1 & Hfr).
        cbn [fs handles events] in *.
        rewrite mkdir_flat_snoc. cbn [fs handles events]. rewrite Hw1.
        assert (fs1 !! (rev rp ++ [k]) = fs0 !! (rev rp ++ [k])) as Hsame.
        { destruct (Hfr (rev rp ++ [k])) as [?|(Hpre & _)]; [done|].
          apply prefix_length in Hpre. rewrite length_app in Hpre.
          simpl in Hpre. lia. }
        rewrite Hsame. destruct Hk as [Hk | Hk]; rewrite Hk.
        -- exists (<[rev rp ++ [k] := Dir]> fs1).
           split_and!; [done|by apply walk_new_dir|].
           intros q. destruct (decide (q = rev rp ++ [k])) as [->|Hq].
           ++ right. rewrite lookup_insert_eq.
              split_and!; try done. by destruct (rev rp).
           ++ rewrite lookup_insert_ne by done.
              destruct (Hfr q) as [?|(?&?&?&?)]; [by left|right].
              split_and!; try done. by apply prefix_app_r.
        -- exists fs1. split_and!.
           ++ apply settle_is_dir. cbn [fs]. rewrite walk_snoc, Hw1. simpl.
              by rewrite Hsame, Hk.
           ++ rewrite walk_snoc, Hw1. simpl. by rewrite Hsame, Hk.
           ++ intros q. destruct (Hfr q) as [?|(?&?&?&?)]; [by left|right].
              split_and!; try done. by apply prefix_app_r.
      * apply walk_ENOTDIR in Hw as (q & x & Hq & Hne & Hx & Hd).
        destruct (Hc' q Hq Hne); simpl in *; congruence.
    + destruct Hk as [Hk | Hk]; rewrite Hk.
      * exists (<[rev rp ++ [k] := Dir]> fs0). split_and!; [done|by apply walk_new_dir|].
        intros q. destruct (decide (q = rev rp ++ [k])) as [->|Hq].
        -- right. rewrite lookup_insert_eq. split_and!; try done. by destruct (rev rp).
        -- left. by rewrite lookup_insert_ne.
      * exists fs0. split_and!; [| |by left].
        -- apply settle_is_dir. cbn [fs]. rewrite walk_snoc, Hw. simpl. by rewrite Hk.
        -- rewrite walk_snoc, Hw. simpl. by rewrite Hk.
Qed.

End MkdirFacts.

(** * [fetch_files] *)

Section PathOrder.
Implicit Types (p q r : path) (x y z : string).

Lemma compare_refl x : String.compare x x = Eq.
Proof.
  pose proof (String.compare_antisym x x) as H.
  by destruct (String.compare x x).
Qed.

Lemma compare_lt_trans x y z :
  String.compare x y = Lt → String.compare y z = Lt → String.compare x z = Lt.
Proof.
  intros Hxy Hyz.
  assert (String.le x z) as Hxz.
  { trans y; unfold String.le, String.leb; by rewrite ?Hxy, ?Hyz. }
  unfold String.le, String.leb in Hxz.
  destruct (String.compare x z) eqn:E; [|done|done].
  apply String.compare_eq_iff in E as ->.
  rewrite String.compare_antisym, Hyz in Hxy. done.
Qed.

#[export] Instance path_le_refl : Reflexive path_le.
Proof.
  intros p. unfold path_le. induction p as [|x p IH]; simpl; [done|].
  by rewrite compare_refl.
Qed.

#[export] Instance path_le_trans : Transitive path_le.
Proof.
  unfold path_le. intros p.
  induction p as [|x p IH]; intros [|y q] [|z r]; simpl; try done.
  destruct (String.compare x y) eqn:Hxy; [| |done].
  - apply String.compare_eq_iff in Hxy as ->.
    destruct (String.compare y z); [apply IH|done|done].
  - destruct (String.compare y z) eqn:Hyz; [| |done].
    + apply String.compare_eq_iff in Hyz as ->. by rewrite Hxy.
    + by rewrite (compare_lt_trans _ _ _ Hxy Hyz).
Qed.

#[export] Instance path_le_total : Total path_le.
Proof.
  unfold path_le. intros p.
  induction p as [|x p IH]; intros [|y q]; simpl; auto.
  rewrite (String.compare_antisym y x).
  destruct (String.compare x y); simpl; auto.
Qed.

#[export] Instance path_le_antisym : AntiSymm (=) path_le.
Proof.
  unfold path_le. intros p.
  induction p as [|x p IH]; intros [|y q]; simpl; try done.
  rewrite (String.compare_antisym y x).
  destruct (String.compare x y) eqn:Hxy; simpl; try done.
  apply String.compare_eq_iff in Hxy as ->. intros ??. f_equal. by apply IH.
Qed.

Lemma path_leb_app p q r : path_leb (p ++ q) (p ++ r) = path_leb q r.
Proof. induction p as [|x p IH]; simpl; [done|]. by rewrite compare_refl. Qed.

Lemma sorted_StronglySorted (l : list path) : StronglySorted path_le (sorted l).
Proof. apply StronglySorted_merge_sort; apply _. Qed.

Lemma sorted_Permutation (l : list path) : sorted l ≡ₚ l.
Proof. apply merge_sort_Permutation. Qed.


End PathOrder.

Section GlobFacts.
Implicit Types (fs : gmap path entry) (p q dir : path) (w : world).

Lemma exists_lookup fs p : exists_ fs p = true → p = [] ∨ is_Some (fs !! p).
Proof.
  unfold exists_, stat. destruct p as [|k l]; [by left|]. right.
  destruct (walk fs [] (parent (k :: l))); [done|].
  by destruct (fs !! (k :: l)).
Qed.

Lemma selected_matches fs dir pattern p :
  selected fs dir pattern p = true ↔ matches fs dir pattern p.
Proof.
  unfold selected, matches. rewrite andb_true_iff. split.
  - intros [He Hm]. split; [done|].
    destruct (relative_to dir p) as [rel|] eqn:Hrel; [|done].
    apply relative_to_Some in Hrel. by exists rel.
  - intros [He (rel & Hrel & Hm)]. split; [done|].
    apply relative_to_Some in Hrel. by rewrite Hrel.
Qed.

Lemma in_range_spec a rs :
  existsb (Glob.in_range a) rs = true ↔ in_ranges a rs.
Proof.
  rewrite existsb_exists. unfold in_ranges, Glob.in_range. split.
  - intros ([lo hi] & Hin%list_elem_of_In & [H1%N.leb_le H2%N.leb_le]%andb_true_iff).
    by exists lo, hi.
  - intros (lo & hi & Hin%list_elem_of_In & H1%N.leb_le & H2%N.leb_le).
    exists (lo, hi). split; [done|]. by apply andb_true_iff.
Qed.

Lemma match_tokens_star ts s :
  Glob.match_tokens (Glob.TStar :: ts) s =
    Glob.match_tokens ts s ||
    match s with
    | EmptyString => false
    | String _ s' => Glob.match_tokens (Glob.TStar :: ts) s'
    end.
Proof. by destruct s. Qed.

(** The matcher decides what the tokens accept. *)
Lemma match_tokens_accepts ts s : Glob.match_tokens ts s = true ↔ accepts ts s.
Proof.
  revert s. induction ts as [|t ts IH]; intros s.
  - destruct s; simpl; split; try done; [constructor|inversion 1].
  - destruct t as [| |c|neg rs].
    + destruct s as [|a s]; simpl.
      * split; [done|inversion 1].
      * rewrite IH. split; [by constructor|by inversion 1].
    + induction s as [|a s IHs]; rewrite match_tokens_star.
      * rewrite orb_false_r, IH. split; [by constructor|by inversion 1].
      * rewrite orb_true_iff, IH, IHs. split.
        -- intros [?|?]; by constructor.
        -- inversion 1; by auto.
    + destruct s as [|a s]; simpl.
      * split; [done|inversion 1].
      * rewrite andb_true_iff, IH. split.
        -- intros [->%Ascii.eqb_eq ?]. by constructor.
        -- inversion 1; subst. split; [apply Ascii.eqb_refl|done].
    + destruct s as [|a s]; simpl.
      * split; [done|inversion 1].
      * rewrite andb_true_iff, IH. destruct neg; simpl.
        -- change (if existsb (Glob.in_range a) rs then false else true)
             with (negb (existsb (Glob.in_range a) rs)).
           rewrite negb_true_iff, <- not_true_iff_false, in_range_spec.
           split; [intros [? ?]; by constructor|by inversion 1].
        -- rewrite in_range_spec.
           split; [intros [? ?]; by constructor|by inversion 1].
Qed.

Lemma match_parts_rec pats rel :
  Glob.match_parts ("**" :: pats) rel =
    Glob.match_parts pats rel ||
    match rel with
    | [] => false
    | _ :: rel' => Glob.match_parts ("**" :: pats) rel'
    end.
Proof. by destruct rel. Qed.

Lemma match_parts_name pat pats rel :
  pat ≠ "**" →
  Glob.match_parts (pat :: pats) rel =
    match rel with
    | [] => false
    | n :: rel' => Glob.fnmatch n pat && Glob.match_parts pats rel'
    end.
Proof.
  intros Hne. cbn [Glob.match_parts].
  destruct (String.eqb_spec pat "**") as [->|_]; [done|]. by destruct rel.
Qed.

(** The matcher of relative paths decides what the components select. *)
Lemma match_parts_selects pats rel : Glob.match_parts pats rel = true ↔ selects pats rel.
Proof.
  revert rel. induction pats as [|pat pats IH]; intros rel.
  - destruct rel; simpl; split; try done; [constructor|inversion 1].
  - destruct (decide (pat = "**")) as [->|Hne].
    + induction rel as [|n rel IHrel]; rewrite match_parts_rec.
      * rewrite orb_false_r, IH. split; [by constructor|].
        inversion 1; by subst.
      * rewrite orb_true_iff, IH, IHrel. split.
        -- intros [?|?]; [by apply selects_here|by apply selects_below].
        -- inversion 1; subst; [done|by left|by right].
    + rewrite match_parts_name by done. destruct rel as [|n rel].
      * split; [done|inversion 1; by subst].
      * rewrite andb_true_iff, IH. unfold Glob.fnmatch.
        rewrite match_tokens_accepts. split.
        -- intros [? ?]. by constructor.
        -- inversion 1; subst; done.
Qed.

Lemma matches_listed fs dir pattern p :
  matches fs dir pattern p ↔ listed fs dir pattern p.
Proof.
  unfold matches, listed, Glob.glob_match. apply and_iff_compat_l.
  split; intros (rel & -> & H); exists rel; (split; [done|]).
  - apply andb_true_iff in H as [Hm Hd]. split; [by apply match_parts_selects|].
    intros Hs. by rewrite Hs in Hd.
  - destruct H as [Hm Hd]. apply andb_true_iff. split; [by apply match_parts_selects|].
    destruct (Glob.ends_with_slash pattern); [by apply Hd|done].
Qed.


Lemma elem_of_candidates fs dir p :
  p ∈ candidates fs dir ↔ p = dir ∨ (p ≠ dir ∧ is_Some (fs !! p)).
Proof.
  unfold candidates. rewrite elem_of_cons, list_elem_of_filter, list_elem_of_fmap.
  apply or_iff_compat_l, and_iff_compat_l. split.
  - intros ([q x] & -> & Hx%elem_of_map_to_list). by exists x.
  - intros [x Hx]. exists (p, x). split; [done|]. by apply elem_of_map_to_list.
Qed.

Lemma elem_of_glob fs dir pattern p :
  p ∈ filter (λ p, Is_true (selected fs dir pattern p)) (candidates fs dir) ↔
  matches fs dir pattern p.
Proof.
  rewrite list_elem_of_filter, Is_true_true, selected_matches, elem_of_candidates.
  split; [by intros [? _]|]. intros Hm. split; [done|].
  destruct (decide (p = dir)) as [?|Hne]; [by left|right]. split; [done|].
  destruct Hm as [[->|?]%exists_lookup (rel & Hrel & _)]; [|done].
  symmetry in Hrel. by apply app_nil in Hrel as [-> _].
Qed.

Lemma Path_glob_valid dir pattern w :
  valid_pattern pattern = true →
  Path_glob dir pattern w =
    (Ok (if is_dir (fs w) dir
         then filter (λ p, Is_true (selected (fs w) dir pattern p))
                     (candidates (fs w) dir)
         else []), w).
Proof.
  unfold valid_pattern, Path_glob.
  intros [Hrel Hseg]%andb_true_iff.
  apply negb_true_iff in Hrel. rewrite Hrel.
  destruct (Names.segments pattern); [done|].
  unfold mbind, M_bind, bind, get, mret, M_ret, ret.
  by destruct (is_dir (fs w) dir).
Qed.

Lemma fetch_files_valid dir pattern w :
  valid_pattern pattern = true →
  fetch_files pattern dir w =
    (Ok (sorted (if is_dir (fs w) dir
                 then filter (λ p, Is_true (selected (fs w) dir pattern p))
                             (candidates (fs w) dir)
                 else [])), w).
Proof.
  intros Hv. unfold fetch_files, mbind, M_bind, bind.
  by rewrite Path_glob_valid.
Qed.


End GlobFacts.

Section MakeDir.
Import World Lib Props Env.

Lemma is_dir_prefix (fs : gmap path entry) (d q : path) :
  is_dir fs d = true → q `prefix_of` d → is_dir fs q = true.
Proof.
  rewrite !is_dir_walk, !walk_None. intros H Hq r Hr Hne.
  apply H; [by etrans|done].
Qed.

End MakeDir.

(** C8. [make_dir d] makes [d] and every missing directory above it, so
    that [d] is a directory afterwards, when nothing but directories is on
    the way; entries that exist stay as they are.  On a [d] that is a
    directory it returns without an error and without a change.  Calling
    it twice is calling it once. *)
Theorem make_dir_ensures (d : path) (w : world) :
  (way_clear (fs w) d →
   ∃ fs', make_dir d w =
            (Ok tt, Build_world fs' (handles w) (events w)) ∧
          (∀ q, q `prefix_of` d → is_dir fs' q = true) ∧
          (∀ q, ¬ q `prefix_of` d → fs' !! q = fs w !! q) ∧
          (∀ q x, fs w !! q = Some x → fs' !! q = Some x)) ∧
  (is_dir (fs w) d = true → make_dir d w = (Ok tt, w)) ∧
  (make_dir d;; make_dir d) w = make_dir d w.
Proof.
  unfold make_dir, Path_mkdir. split_and!.
  - intros Hc. rewrite <- (rev_involutive d) in Hc.
    destruct (mkdir_parents_clear _ _ Hc) as (fs' & Hrun & Hw & Hfr).
    rewrite rev_involutive in Hw, Hfr.
    exists fs'. split_and!; [done| | |].
    + intros q Hq. eapply is_dir_prefix; [by apply is_dir_walk|done].
    + intros q Hq. by destruct (Hfr q) as [?|(?&_)].
    + intros q x Hx. destruct (Hfr q) as [->|(_&_&?&_)]; [done|congruence].
  - intros Hd%is_dir_walk. apply mkdir_parents_noop. by rewrite rev_involutive.
  - unfold mbind, M_bind, bind.
    destruct (mkdir_parents true (rev d) w) as [[[]|e] w'] eqn:Hrun; [|done].
    apply mkdir_parents_noop. by eapply mkdir_parents_is_dir.
Qed.

Lemma make_dir_ensures_witness :
  (∃ fs', make_dir ["data"; "raw"; "2024"] Examples.w_data =
            (Ok tt, Build_world fs' [] []) ∧
          (∀ q, q `prefix_of` ["data"; "raw"; "2024"] → is_dir fs' q = true) ∧
          (∀ q, ¬ q `prefix_of` ["data"; "raw"; "2024"] →
                fs' !! q = Examples.fs_data !! q) ∧
          (∀ q x, Examples.fs_data !! q = Some x → fs' !! q = Some x)) ∧
  make_dir ["data"] Examples.w_data = (Ok tt, Examples.w_data).
Proof.
  split.
  - apply (proj1 (make_dir_ensures ["data"; "raw"; "2024"] Examples.w_data)).
    intros q _ _. simpl. unfold Examples.fs_data.
    destruct (decide (q = ["data"])) as [->|Hq].
    + right. apply lookup_singleton_eq.
    + left. by apply lookup_singleton_ne.
  - apply (proj1 (proj2 (make_dir_ensures ["data"] Examples.w_data))).
    reflexivity.
Defined.



(** C3 fails: on a directory that does not exist [fetch_files] returns
    the empty list, it raises nothing. *)
Lemma fetch_files_missing_directory_counterexample :
  exists_ Examples.fs_data ["nowhere"] = false ∧
  fetch_files "*.txt" ["nowhere"] Examples.w_data = (Ok [], Examples.w_data) ∧
  ¬ (∀ pattern directory w,
       exists_ (fs w) directory = false →
       ∃ e w', fetch_files pattern directory w = (Raise e, w')).
Proof.
  split_and!; [reflexivity|reflexivity|].
  intros H. destruct (H "*.txt" ["nowhere"] Examples.w_data) as (e & w' & He);
    [reflexivity|]. discriminate He.
Qed.

(** C3, amended. On a directory that does not exist [fetch_files] returns
    the empty list and leaves the state alone, for every pattern
    [Path.glob] accepts; the only errors are those of the pattern itself,
    a [ValueError] for a pattern without a component and a
    [NotImplementedError] for an absolute one, never an [OSError]. *)
Theorem fetch_files_missing_directory (pattern : string) (directory : path) (w : world) :
  exists_ (fs w) directory = false →
  (valid_pattern pattern = true →
   fetch_files pattern directory w = (Ok [], w)) ∧
  (∀ e w', fetch_files pattern directory w = (Raise e, w') →
           valid_pattern pattern = false ∧ w' = w ∧
           ∀ err p, e ≠ OSError err p).
Proof.
  intros He.
  assert (is_dir (fs w) directory = false) as Hd.
  { destruct (is_dir (fs w) directory) eqn:Hd; [|done].
    apply is_dir_exists in Hd. congruence. }
  split.
  - intros Hv. by rewrite fetch_files_valid, Hd.
  - intros e w'. destruct (valid_pattern pattern) eqn:Hv.
    + by rewrite fetch_files_valid, Hd.
    + unfold fetch_files, Path_glob, valid_pattern in *.
      unfold mbind, M_bind, bind, raise.
      destruct (Names.absolute pattern); [by intros [= <- <-]|].
      destruct (Names.segments pattern); [by intros [= <- <-]|done].
Qed.

Lemma fetch_files_missing_directory_witness :
  (valid_pattern "*.txt" = true →
   fetch_files "*.txt" ["nowhere"] Examples.w_data = (Ok [], Examples.w_data)) ∧
  (∀ e w', fetch_files "*.txt" ["nowhere"] Examples.w_data = (Raise e, w') →
           valid_pattern "*.txt" = false ∧ w' = Examples.w_data ∧
           ∀ err p, e ≠ OSError err p).
Proof.
  apply (fetch_files_missing_directory "*.txt" ["nowhere"] Examples.w_data).
  reflexivity.
Defined.

(** * The container calls *)

Ltac mrun :=
  unfold mbind, M_bind, mret, M_ret, bind, ret, get, put, raise, set_fs, log,
    invalid, unable;
  cbn [fs handles events gh_file gh_path fh_path fh_writable].

Lemma bind_run {A B} (m : M A) (k : A → M B) (w : world) :
  (m ≫= k) w =
    match m w with
    | (Ok a, w') => k a w'
    | (Raise e, w') => (Raise e, w')
    end.
Proof. reflexivity. Qed.

Section H5Facts.
Implicit Types (w : world) (h : group_handle) (p : path)
  (root g : gmap string node) (col k : string).

Lemma locate_link_name h col :
  Names.link_name col = true → locate h col = gh_path h ++ [col].
Proof.
  intros Hl. unfold locate, start.
  by rewrite absolute_link_name, segments_link_name.
Qed.

Lemma open_group_with_root w h p wr root g root' g' evs :
  open_group w h p wr root g →
  group_at (gh_path h) root' = Some g' →
  open_group (with_root w p root' evs) h p wr root' g'.
Proof.
  intros (Hh & _ & _) Hg. split_and!; [done| |done].
  simpl. apply lookup_insert_eq.
Qed.

Lemma contains_open w h p wr root g col :
  open_group w h p wr root g → Names.link_name col = true →
  contains h col w = (Ok (bool_decide (is_Some (g !! col))), w).
Proof.
  intros (Hh & Hp & Hg) Hl. unfold contains.
  rewrite link_name_nonempty by done. mrun.
  rewrite Hh. cbn [fh_path]. rewrite Hp, locate_link_name by done.
  by rewrite lookup_at_snoc, Hg.
Qed.

Lemma delitem_open w h p root g col n :
  open_group w h p true root g → Names.link_name col = true →
  g !! col = Some n →
  ∃ root', delitem h col w =
             (Ok tt, with_root w p root' [EvUnlink p (gh_path h ++ [col])]) ∧
           group_at (gh_path h) root' = Some (delete col g).
Proof.
  intros (Hh & Hp & Hg) Hl Hn.
  destruct (alter_at_group_at (gh_path h) (H5Tree.unlink_at [col]) root g (delete col g))
    as (root' & Hal & Hg'); [done|by rewrite unlink_one, Hn|].
  exists root'. split; [|done].
  unfold delitem, the_file, the_root, set_root. mrun.
  rewrite Hh. cbn [fh_path fh_writable negb]. rewrite Hp.
  by rewrite locate_link_name, unlink_at_snoc, Hal.
Qed.

Lemma new_dataset_open w h p root g k d :
  open_group w h p true root g → g !! k = None →
  ∃ root', new_dataset h k d w =
             (Ok (Build_group_handle (gh_file h) (gh_path h ++ [k])),
              with_root w p root' [EvCreateDataset p (gh_path h ++ [k]) d]) ∧
           group_at (gh_path h) root' = Some (<[k := Dataset d]> g).
Proof.
  intros (Hh & Hp & Hg) Hk.
  destruct (alter_at_group_at (gh_path h) (H5Tree.link_at [k] (Dataset d)) root g
              (<[k := Dataset d]> g)) as (root' & Hal & Hg');
    [done|by rewrite link_one, Hk|].
  exists root'. split; [|done].
  unfold new_dataset, the_file, the_root, set_root. mrun.
  rewrite Hh. cbn [fh_path fh_writable negb]. by rewrite Hp, Hal.
Qed.

(** Data that [numpy] turns into the array [a] is written as [a] is. *)
Lemma create_dataset_asarray h name (data : pydata) a compression :
  asarray data = Some a →
  create_dataset h name data compression = create_dataset h name (NdArray a) compression.
Proof.
  intros Ha. unfold create_dataset, make_new_dset. rewrite Ha. reflexivity.
Qed.

Lemma save_h5_asarray h col (data : pydata) a compression w :
  asarray data = Some a →
  save_h5 h col data compression w = save_h5 h col (NdArray a) compression w.
Proof.
  intros Ha. unfold save_h5. by rewrite (create_dataset_asarray h col data a).
Qed.

Lemma create_dataset_link_name h col (data : array) compression :
  Names.link_name col = true →
  create_dataset h col data compression =
    new_dataset h col (Build_dataset data compression).
Proof.
  intros Hl. unfold create_dataset, make_new_dset, h5d_create, start. cbn [asarray].
  rewrite lstrip_link_name by done.
  rewrite segments_link_name, absolute_link_name by done. by destruct h.
Qed.

(** Data that [numpy] turns into an array of objects: nothing is created
    under a key. *)
Lemma create_dataset_refused h col (data : pydata) compression w :
  asarray data = None → Names.link_name col = true →
  create_dataset h col data compression w = (Raise (TypeError no_hdf5_type), w).
Proof.
  intros Ha Hl. unfold create_dataset, make_new_dset. rewrite Ha.
  by rewrite lstrip_link_name.
Qed.

Lemma with_root_with_root w p root1 evs1 root2 evs2 :
  with_root (with_root w p root1 evs1) p root2 evs2 =
  with_root w p root2 (evs1 ++ evs2).
Proof.
  unfold with_root. cbn [fs handles events].
  by rewrite insert_insert_eq, (assoc_L (++)).
Qed.

(** [save_h5] on an open, writable group: the link [col] is replaced. *)
Lemma save_h5_open w h p root g col (data : array) compression :
  open_group w h p true root g → Names.link_name col = true →
  ∃ root',
    save_h5 h col data compression w =
      (Ok (Build_group_handle (gh_file h) (gh_path h ++ [col])),
       with_root w p root'
         (save_events p (gh_path h) g col (Build_dataset data compression))) ∧
    group_at (gh_path h) root' =
      Some (<[col := Dataset (Build_dataset data compression)]> g).
Proof.
  intros Ho Hl. unfold save_h5, save_events, mbind, M_bind, bind.
  rewrite (contains_open _ _ _ _ _ _ _ Ho Hl).
  rewrite create_dataset_link_name by done.
  destruct (g !! col) as [n|] eqn:Hn.
  - rewrite bool_decide_true by done.
    destruct (delitem_open _ _ _ _ _ _ _ Ho Hl Hn) as (root1 & -> & Hg1).
    pose proof (open_group_with_root _ _ _ _ _ _ _ _
                  [EvUnlink p (gh_path h ++ [col])] Ho Hg1) as Ho1.
    destruct (new_dataset_open _ _ _ _ _ col (Build_dataset data compression) Ho1)
      as (root2 & -> & Hg2); [apply lookup_delete_eq|].
    exists root2. rewrite with_root_with_root.
    split; [done|]. by rewrite Hg2, insert_delete_eq.
  - rewrite bool_decide_false by (by intros [? ?]).
    destruct (new_dataset_open _ _ _ _ _ col (Build_dataset data compression) Ho Hn)
      as (root1 & Hrun & Hg1).
    exists root1. split; [|done]. unfold mret, M_ret, ret. by rewrite Hrun.
Qed.

End H5Facts.

(** * [open_hdf5] *)

Section ReadFacts.
Implicit Types (w : world) (h : group_handle) (p : path)
  (root g : gmap string node) (col k : string) (keys args : list string).

Lemma stat_lookup (fs : gmap path entry) p root :
  stat fs p = inr (H5File root) → fs !! p = Some (H5File root).
Proof.
  unfold stat. destruct p as [|a l]; [done|].
  destruct (walk fs [] (parent (a :: l))); [done|].
  destruct (fs !! (a :: l)); [|done]. by intros [= ->].
Qed.

Lemma File_r w p root :
  stat (fs w) p = inr (H5File root) →
  File p mode_r w =
    (Ok (Build_group_handle (List.length (handles w)) []),
     opened w p mode_r (open_rw (handles w) p)).
Proof.
  intros Hs. unfold File. mrun. rewrite Hs. by unfold register; mrun.
Qed.

Lemma open_group_opened w p m wr root :
  fs w !! p = Some (H5File root) →
  open_group (opened w p m wr) (Build_group_handle (List.length (handles w)) [])
             p wr root root.
Proof.
  intros Hp. split_and!; [|done|done]. simpl. by apply list_lookup_middle.
Qed.

Lemma add_events_add_events w evs1 evs2 :
  add_events (add_events w evs1) evs2 = add_events w (evs1 ++ evs2).
Proof. unfold add_events. simpl. by rewrite (assoc_L (++)). Qed.

Lemma add_events_nil w : add_events w [] = w.
Proof. destruct w. unfold add_events. simpl. by rewrite app_nil_r. Qed.

Lemma with_File_r {A} w p root (body : group_handle → M A) r w1 :
  stat (fs w) p = inr (H5File root) →
  body (Build_group_handle (List.length (handles w)) []) (opened w p mode_r (open_rw (handles w) p))
    = (r, w1) →
  with_File p mode_r body w =
    (r, Build_world (fs w1) (<[List.length (handles w) := None]> (handles w1))
                    (events w1 ++ [EvClose (List.length (handles w))])).
Proof.
  intros Hs Hb. unfold with_File, mbind, M_bind, bind.
  rewrite (File_r _ _ _ Hs). unfold finally. cbn [gh_file]. rewrite Hb.
  unfold close. mrun. by destruct r.
Qed.

Lemma after_read_eq w p evs :
  Build_world (fs (add_events (opened w p mode_r (open_rw (handles w) p)) evs))
    (<[List.length (handles w) := None]>
       (handles (add_events (opened w p mode_r (open_rw (handles w) p)) evs)))
    (events (add_events (opened w p mode_r (open_rw (handles w) p)) evs) ++
       [EvClose (List.length (handles w))])
  = after_read w p evs.
Proof.
  unfold after_read, add_events, opened. cbn [fs handles events]. f_equal.
  - rewrite insert_app_r_alt by done. by rewrite Nat.sub_diag.
  - by rewrite <- !(assoc_L (++)).
Qed.

Lemma keys_open w h p wr root g :
  open_group w h p wr root g → keys h w = (Ok (map_to_list g).*1, w).
Proof.
  intros (Hh & Hp & Hg). unfold keys, the_file, the_root. mrun.
  rewrite Hh. cbn [fh_path]. by rewrite Hp, Hg.
Qed.

(** One step of the comprehension: [(key, f[key][:])]. *)
Lemma read_item w h p wr root g k n :
  open_group w h p wr root g → Names.link_name k = true → g !! k = Some n →
  (obj ← getitem h k; v ← slice_all obj; mret (k, v)) w =
    match n with
    | Dataset d => (Ok (k, ds_data d), add_events w [EvRead p (gh_path h ++ [k])])
    | Group _ => (Raise (TypeError "Accessing a group is done with bytes or str"), w)
    end.
Proof.
  intros (Hh & Hp & Hg) Hl Hk.
  unfold getitem, slice_all, the_file, the_root. mrun.
  rewrite Hh. cbn [fh_path]. rewrite Hp, locate_link_name by done.
  rewrite lookup_at_snoc, Hg, Hk. destruct n as [d|g'].
  - cbn [gh_file gh_path]. rewrite Hh. cbn [fh_path].
    by rewrite Hp, lookup_at_snoc, Hg, Hk.
  - done.
Qed.

Lemma keys_to_set root :
  list_to_set (map_to_list root).*1 =@{gset string} dom root.
Proof. symmetry. apply leibniz_equiv, dom_alt. Qed.

Lemma requested_keys w h p wr root args :
  open_group w h p wr root root →
  (match args with [] => keys h | _ => mret args end) w =
    (Ok (requested args root), w).
Proof.
  intros Ho. destruct args; [|done]. by rewrite (keys_open _ _ _ _ _ _ Ho).
Qed.

(** The comprehension over keys that all name datasets. *)
Lemma read_all_datasets w h p wr root keys :
  open_group w h p wr root root → gh_path h = [] →
  Forall (λ k, Names.link_name k = true ∧ ∃ d, root !! k = Some (Dataset d)) keys →
  mapM (λ key, obj ← getitem h key; v ← slice_all obj; mret (key, v)) keys w =
    (Ok ((λ k, (k, array_in root k)) <$> keys), add_events w (read_events p keys)).
Proof.
  intros Ho Hroot Hall. revert w Ho.
  induction Hall as [|k keys [Hl [d Hd]] _ IH]; intros w Ho.
  - cbn. unfold ret. by rewrite add_events_nil.
  - cbn [mapM]. unfold bind at 1.
    rewrite (read_item _ _ _ _ _ _ _ _ Ho Hl Hd). unfold bind at 1.
    rewrite IH by done. unfold ret. rewrite add_events_add_events.
    rewrite Hroot. cbn [fmap list_fmap read_events app].
    unfold array_in at 2. by rewrite Hd.
Qed.

(** The comprehension meets a group: [TypeError]. *)
Lemma read_all_group w h p wr root keys :
  open_group w h p wr root root → gh_path h = [] →
  Forall (λ k, Names.link_name k = true ∧ is_Some (root !! k)) keys →
  Exists (λ k, ∃ g', root !! k = Some (Group g')) keys →
  ∃ e evs,
    mapM (λ key, obj ← getitem h key; v ← slice_all obj; mret (key, v)) keys w =
      (Raise e, add_events w evs).
Proof.
  intros Ho Hroot Hall. revert w Ho.
  induction Hall as [|k keys [Hl [n Hn]] Hall IH]; intros w Ho Hex.
  - by apply Exists_nil in Hex.
  - cbn [mapM]. unfold bind at 1.
    rewrite (read_item _ _ _ _ _ _ _ _ Ho Hl Hn). destruct n as [d|g'].
    + apply Exists_cons in Hex as [[g' Hg']|Hex]; [congruence|].
      destruct (IH (add_events w [EvRead p (gh_path h ++ [k])]) Ho Hex)
        as (e & evs & Hrun).
      unfold bind at 1. rewrite Hrun. rewrite add_events_add_events. eauto.
    + exists (TypeError "Accessing a group is done with bytes or str"), [].
      by rewrite add_events_nil.
Qed.

(** A key is missing: the error, before anything is read. *)
Lemma open_hdf5_missing w p args root :
  stat (fs w) p = inr (H5File root) →
  list_to_set (requested args root) ∖ dom root ≠@{gset string} ∅ →
  open_hdf5 p args w =
    (Raise (ValueError (KeysNotFound (list_to_set (requested args root) ∖ dom root) p)),
     after_read w p []).
Proof.
  intros Hs Hm. unfold open_hdf5.
  pose proof (open_group_opened w p mode_r (open_rw (handles w) p) root
                (stat_lookup _ _ _ Hs)) as Ho.
  erewrite with_File_r; [|done|].
  2:{ rewrite bind_run, (requested_keys _ _ _ _ _ _ Ho).
      rewrite bind_run, (keys_open _ _ _ _ _ _ Ho), keys_to_set.
      rewrite bool_decide_true by done. reflexivity. }
  by rewrite <- after_read_eq, add_events_nil.
Qed.

(** Every requested key names a dataset: the dictionary of the arrays. *)
Lemma open_hdf5_datasets w p args root :
  stat (fs w) p = inr (H5File root) →
  Forall (λ k, Names.link_name k = true ∧ ∃ d, root !! k = Some (Dataset d))
         (requested args root) →
  open_hdf5 p args w =
    (Ok (dict_of ((λ k, (k, array_in root k)) <$> requested args root)),
     after_read w p (read_events p (requested args root))).
Proof.
  intros Hs Hall. unfold open_hdf5.
  pose proof (open_group_opened w p mode_r (open_rw (handles w) p) root
                (stat_lookup _ _ _ Hs)) as Ho.
  assert (list_to_set (requested args root) ∖ dom root =@{gset string} ∅) as Hm.
  { apply set_eq. intros k.
    rewrite elem_of_difference, elem_of_list_to_set, elem_of_dom.
    split; [|by intros ?%elem_of_empty]. intros [Hk Hn]. destruct Hn.
    rewrite Forall_forall in Hall. destruct (Hall k Hk) as [_ [d ->]]. eauto. }
  erewrite with_File_r; [|done|].
  2:{ rewrite bind_run, (requested_keys _ _ _ _ _ _ Ho).
      rewrite bind_run, (keys_open _ _ _ _ _ _ Ho), keys_to_set, Hm.
      rewrite bool_decide_false by (by intros ?).
      rewrite bind_run, (read_all_datasets _ _ p _ root _ Ho eq_refl Hall).
      reflexivity. }
  by rewrite after_read_eq.
Qed.

(** A requested key names a group: the comprehension raises. *)
Lemma open_hdf5_group w p args root :
  stat (fs w) p = inr (H5File root) →
  Forall (λ k, Names.link_name k = true ∧ is_Some (root !! k)) (requested args root) →
  Exists (λ k, ∃ g', root !! k = Some (Group g')) (requested args root) →
  ∃ e evs, open_hdf5 p args w = (Raise e, after_read w p evs).
Proof.
  intros Hs Hall Hex. unfold open_hdf5.
  pose proof (open_group_opened w p mode_r (open_rw (handles w) p) root
                (stat_lookup _ _ _ Hs)) as Ho.
  assert (list_to_set (requested args root) ∖ dom root =@{gset string} ∅) as Hm.
  { apply set_eq. intros k.
    rewrite elem_of_difference, elem_of_list_to_set, elem_of_dom.
    split; [|by intros ?%elem_of_empty]. intros [Hk Hn]. destruct Hn.
    rewrite Forall_forall in Hall. by destruct (Hall k Hk). }
  destruct (read_all_group _ _ p _ root _ Ho eq_refl Hall Hex) as (e & evs & Hrun).
  exists e, evs.
  erewrite with_File_r; [|done|].
  2:{ rewrite bind_run, (requested_keys _ _ _ _ _ _ Ho).
      rewrite bind_run, (keys_open _ _ _ _ _ _ Ho), keys_to_set, Hm.
      rewrite bool_decide_false by (by intros ?).
      rewrite bind_run, Hrun. reflexivity. }
  by rewrite after_read_eq.
Qed.

Lemma dict_of_lookup {V} (f : string → V) keys k :
  dict_of ((λ k, (k, f k)) <$> keys) !! k =
    if decide (k ∈ keys) then Some (f k) else None.
Proof.
  unfold dict_of.
  assert (∀ (m0 : gmap string V),
            foldl (λ m kv, <[kv.1 := kv.2]> m) m0 ((λ k, (k, f k)) <$> keys) !! k =
              if decide (k ∈ keys) then Some (f k) else m0 !! k) as H.
  { induction keys as [|a keys IH]; intros m0; [done|].
    cbn [fmap list_fmap foldl]. rewrite IH. cbn [fst snd].
    destruct (decide (k ∈ keys)) as [Hin|Hout].
    - rewrite decide_True by (by right). done.
    - destruct (decide (k = a)) as [->|Hne].
      + rewrite decide_True by left. apply lookup_insert_eq.
      + rewrite decide_False by (by intros [?|?]%elem_of_cons).
        by rewrite lookup_insert_ne. }
  rewrite H. by destruct (decide (k ∈ keys)).
Qed.

Lemma dict_of_dom {V} (f : string → V) keys :
  dom (dict_of ((λ k, (k, f k)) <$> keys)) =@{gset string} list_to_set keys.
Proof.
  apply set_eq. intros k.
  rewrite elem_of_dom, dict_of_lookup, elem_of_list_to_set.
  destruct (decide (k ∈ keys)); [by eauto|]. split; [by intros [? ?]|done].
Qed.

End ReadFacts.

Lemma names_ok_lookup (g : gmap string node) (k : string) :
  names_ok g = true → is_Some (g !! k) → Names.link_name k = true.
Proof.
  unfold names_ok. rewrite forallb_forall. intros H [n Hn]. apply H.
  apply list_elem_of_In, list_elem_of_fmap. exists (k, n).
  split; [done|]. by apply elem_of_map_to_list.
Qed.

Lemma names_ok_iff g :
  names_ok g = true ↔ ∀ k, is_Some (g !! k) → Names.link_name k = true.
Proof.
  split; [intros H k; by apply names_ok_lookup|].
  intros H. unfold names_ok. apply forallb_forall. intros k Hk%list_elem_of_In.
  apply H, elem_of_dom. rewrite <- keys_to_set. by apply elem_of_list_to_set.
Qed.

(** C1. On a container file, when a requested key is not among the
    top-level keys, [open_hdf5] raises an error that carries the set of
    the missing keys and the path of the file; the file object is closed
    again, the file system is as before, and the library has opened and
    closed the file and read no dataset. *)
Theorem open_hdf5_missing_keys (w : world) (file_path : path) (args : list string)
    (root : gmap string node) :
  stat (fs w) file_path = inr (H5File root) →
  (∃ k, k ∈ args ∧ root !! k = None) →
  ∃ missing_keys : gset string,
    open_hdf5 file_path args w =
      (Raise (ValueError (KeysNotFound missing_keys file_path)),
       after_read w file_path []) ∧
    (∀ k, k ∈ missing_keys ↔ k ∈ args ∧ root !! k = None) ∧
    fs (after_read w file_path []) = fs w ∧
    events (after_read w file_path []) =
      events w ++ [EvOpen file_path mode_r (List.length (handles w));
                   EvClose (List.length (handles w))] ∧
    (∀ p at_, EvRead p at_ ∈ events (after_read w file_path []) →
              EvRead p at_ ∈ events w).
Proof.
  intros Hs (k & Hk & Hn).
  assert (requested args root = args) as Hreq by (by destruct args; [inversion Hk|]).
  assert (∀ k, k ∈ list_to_set args ∖ dom root ↔ k ∈ args ∧ root !! k = None) as Hin.
  { intros k'. rewrite elem_of_difference, elem_of_list_to_set, elem_of_dom.
    by rewrite <- eq_None_not_Some. }
  exists (list_to_set args ∖ dom root). split_and!; [|done|done|done|].
  - pose proof (open_hdf5_missing w file_path args root Hs) as Hrun.
    rewrite Hreq in Hrun. apply Hrun.
    intros He. assert (k ∈ (∅ : gset string)) as []%elem_of_empty.
    rewrite <- He. by apply Hin.
  - cbn [after_read events app]. intros p at_.
    rewrite elem_of_app. intros [?|H]; [done|]. exfalso.
    apply elem_of_cons in H as [?|H]; [done|].
    apply elem_of_cons in H as [?|H]; [done|]. by apply elem_of_nil in H.
Qed.

Lemma open_hdf5_missing_keys_witness :
  ∃ missing_keys : gset string,
    open_hdf5 ["data"; "store.h5"] ["x"; "z"] Examples.w_store =
      (Raise (ValueError (KeysNotFound missing_keys ["data"; "store.h5"])),
       after_read Examples.w_store ["data"; "store.h5"] []) ∧
    (∀ k, k ∈ missing_keys ↔ k ∈ ["x"; "z"] ∧ Examples.store !! k = None) ∧
    fs (after_read Examples.w_store ["data"; "store.h5"] []) = fs Examples.w_store ∧
    events (after_read Examples.w_store ["data"; "store.h5"] []) =
      events Examples.w_store ++
        [EvOpen ["data"; "store.h5"] mode_r (List.length (handles Examples.w_store));
         EvClose (List.length (handles Examples.w_store))] ∧
    (∀ p at_, EvRead p at_ ∈ events (after_read Examples.w_store ["data"; "store.h5"] []) →
              EvRead p at_ ∈ events Examples.w_store).
Proof.
  apply (open_hdf5_missing_keys Examples.w_store ["data"; "store.h5"] ["x"; "z"]
           Examples.store).
  - reflexivity.
  - exists "z". split; [by right; left|reflexivity].
Defined.

(** C6. On a container file whose keys are link names: without explicit
    keys [open_hdf5] asks for the full set of top-level keys; when it
    returns a dictionary, its keys are the requested keys, each mapped to
    the array of that dataset, read into memory while the file was open,
    and the file object it opened is closed in the state it leaves; and it
    does return one whenever every requested key names a dataset. *)
Theorem open_hdf5_all_keys (w : world) (file_path : path) (args : list string)
    (root : gmap string node) :
  stat (fs w) file_path = inr (H5File root) →
  names_ok root = true →
  (args = [] → list_to_set (requested args root) =@{gset string} dom root) ∧
  (∀ m w', open_hdf5 file_path args w = (Ok m, w') →
     dom m =@{gset string} list_to_set (requested args root) ∧
     (∀ k, k ∈ requested args root →
           ∃ d, root !! k = Some (Dataset d) ∧ m !! k = Some (ds_data d)) ∧
     w' = after_read w file_path (read_events file_path (requested args root)) ∧
     handles w' = handles w ++ [None] ∧
     fs w' = fs w) ∧
  ((∀ k, k ∈ requested args root → ∃ d, root !! k = Some (Dataset d)) →
   ∃ m, open_hdf5 file_path args w =
          (Ok m, after_read w file_path (read_events file_path (requested args root)))).
Proof.
  intros Hs Hnames.
  assert (∀ keys, (∀ k, k ∈ keys → ∃ d, root !! k = Some (Dataset d)) →
            Forall (λ k, Names.link_name k = true ∧ ∃ d, root !! k = Some (Dataset d)) keys)
    as Hforall.
  { intros keys Hd. apply Forall_forall. intros k Hk. destruct (Hd k Hk) as [d Hkd].
    split; [|by exists d]. apply (names_ok_lookup root); [done|by rewrite Hkd]. }
  split_and!.
  - intros ->. apply keys_to_set.
  - intros m w' Hrun.
    destruct (decide (list_to_set (requested args root) ∖ dom root =@{gset string} ∅))
      as [Hm|Hm]; [|by rewrite (open_hdf5_missing _ _ _ _ Hs Hm) in Hrun].
    assert (∀ k, k ∈ requested args root → is_Some (root !! k)) as Hpresent.
    { intros k Hk. apply elem_of_dom. apply dec_stable. intros Hn.
      assert (k ∈ (∅ : gset string)) as []%elem_of_empty.
      rewrite <- Hm. apply elem_of_difference. by rewrite elem_of_list_to_set. }
    set (P := λ k, from_option is_dataset false (root !! k)).
    destruct (decide (Forall (λ k, P k = true) (requested args root))) as [Hall|Hnot].
    + assert (∀ k, k ∈ requested args root → ∃ d, root !! k = Some (Dataset d)) as Hds.
      { rewrite Forall_forall in Hall. intros k Hk. specialize (Hall k Hk).
        unfold P in Hall. destruct (root !! k) as [[d|g']|]; try done. by exists d. }
      rewrite (open_hdf5_datasets _ _ _ _ Hs (Hforall _ Hds)) in Hrun.
      injection Hrun as <- <-. split_and!; [apply dict_of_dom| |done|done|done].
      intros k Hk. destruct (Hds k Hk) as [d Hd]. exists d. split; [done|].
      rewrite dict_of_lookup, decide_True by done. unfold array_in. by rewrite Hd.
    + apply not_Forall_Exists in Hnot; [|apply _].
      destruct (open_hdf5_group w file_path args root Hs) as (e & evs & Hraise).
      * apply Forall_forall. intros k Hk. split; [|by apply Hpresent].
        apply (names_ok_lookup root); [done|by apply Hpresent].
      * apply Exists_exists in Hnot as (k & Hk & Hnd).
        apply Exists_exists. exists k. split; [done|].
        destruct (Hpresent k Hk) as [[d|g'] Hn]; [|by exists g'].
        destruct Hnd. unfold P. by rewrite Hn.
      * congruence.
  - intros Hall. eexists. by apply open_hdf5_datasets, Hforall.
Qed.

Lemma open_hdf5_all_keys_witness :
  (([] : list string) = [] → list_to_set (requested [] Examples.store) =@{gset string} dom Examples.store) ∧
  (∀ m w', open_hdf5 ["data"; "store.h5"] [] Examples.w_store = (Ok m, w') →
     dom m =@{gset string} list_to_set (requested [] Examples.store) ∧
     (∀ k, k ∈ requested [] Examples.store →
           ∃ d, Examples.store !! k = Some (Dataset d) ∧ m !! k = Some (ds_data d)) ∧
     w' = after_read Examples.w_store ["data"; "store.h5"]
            (read_events ["data"; "store.h5"] (requested [] Examples.store)) ∧
     handles w' = handles Examples.w_store ++ [None] ∧
     fs w' = fs Examples.w_store) ∧
  ((∀ k, k ∈ requested [] Examples.store → ∃ d, Examples.store !! k = Some (Dataset d)) →
   ∃ m, open_hdf5 ["data"; "store.h5"] [] Examples.w_store =
          (Ok m, after_read Examples.w_store ["data"; "store.h5"]
                   (read_events ["data"; "store.h5"] (requested [] Examples.store)))).
Proof.
  apply (open_hdf5_all_keys Examples.w_store ["data"; "store.h5"] [] Examples.store);
    reflexivity.
Defined.

(** * [save_h5] *)

Section WriteFacts.
Implicit Types (w : world) (h : group_handle) (p : path)
  (root g : gmap string node) (col k : string).

Lemma stat_with_root (fs : gmap path entry) p root root' :
  stat fs p = inr (H5File root) →
  stat (<[p := H5File root']> fs) p = inr (H5File root').
Proof.
  destruct p as [|k l _] using rev_ind; [done|].
  rewrite !stat_snoc. intros Hs. rewrite walk_insert_ne.
  - destruct (walk fs [] l); [done|]. by rewrite lookup_insert_eq.
  - intros q Hq%prefix_length _ E. simpl in E. subst q.
    rewrite length_app in Hq. simpl in Hq. lia.
Qed.

Lemma stat_replaced (fs : gmap path entry) p x y :
  stat fs p = inr x → x ≠ Dir → stat (<[p := y]> fs) p = inr y.
Proof.
  destruct p as [|k l _] using rev_ind; [by intros [= <-]|].
  rewrite !stat_snoc. intros Hs _. rewrite walk_insert_ne.
  - destruct (walk fs [] l); [done|]. by rewrite lookup_insert_eq.
  - intros q Hq%prefix_length _ E. simpl in E. subst q.
    rewrite length_app in Hq. simpl in Hq. lia.
Qed.

Lemma open_file_group w h p root :
  open_file w h p root → open_group w h p true root root.
Proof.
  intros (Hh & Hroot & Hs). split_and!; [done|by apply stat_lookup|by rewrite Hroot].
Qed.

(** [save_h5] through a file object: the key [col] of the root is
    replaced, and the file object stays open on the new tree. *)
Lemma save_h5_file w h p root col (data : array) compression :
  open_file w h p root → Names.link_name col = true →
  let d := Build_dataset data compression in
  let w' := with_root w p (<[col := Dataset d]> root) (save_events p [] root col d) in
  save_h5 h col data compression w = (Ok (Build_group_handle (gh_file h) [col]), w') ∧
  open_file w' h p (<[col := Dataset d]> root).
Proof.
  intros Hf Hl d w'. pose proof Hf as (Hh & Hroot & Hs).
  destruct (save_h5_open w h p root root col data compression
              (open_file_group _ _ _ _ Hf) Hl) as (root' & Hrun & Hg).
  rewrite Hroot in *. rewrite group_at_nil in Hg. injection Hg as ->.
  split; [done|]. split_and!; [done|done|]. by eapply stat_with_root.
Qed.

(** Reading one dataset back. *)
Lemma open_hdf5_one w p root col d :
  stat (fs w) p = inr (H5File root) → Names.link_name col = true →
  root !! col = Some (Dataset d) →
  open_hdf5 p [col] w = (Ok {[col := ds_data d]}, after_read w p [EvRead p [col]]).
Proof.
  intros Hs Hl Hd.
  rewrite (open_hdf5_datasets w p [col] root Hs).
  - cbn. unfold array_in. by rewrite Hd, insert_empty.
  - apply Forall_singleton. split; [done|by exists d].
Qed.

Lemma contains_total h col w : ∃ b, contains h col w = (Ok b, w).
Proof.
  unfold contains. destruct (String.eqb col ""); [by eexists|]. mrun.
  destruct (handles w !! gh_file h) as [[fh|]|]; try by eexists.
  destruct (fs w !! fh_path fh) as [[]|]; by eexists.
Qed.

End WriteFacts.

(** Through a file object, a key written by [save_h5] is read back by
    [open_hdf5]. *)
Lemma save_then_open w h p root col (A : array) compression :
  open_file w h p root →
  Names.link_name col = true →
  ∃ w', (save_h5 h col A compression;; open_hdf5 p [col]) w =
          (Ok {[col := A]}, w').
Proof.
  intros Hf Hl.
  destruct (save_h5_file w h p root col A compression Hf Hl) as [Hrun Hf1].
  cbv zeta in Hrun, Hf1. destruct Hf1 as (_ & _ & Hs1).
  rewrite bind_run, Hrun.
  rewrite (open_hdf5_one _ p _ col (Build_dataset A compression) Hs1 Hl);
    [by eexists|apply lookup_insert_eq].
Qed.

(** * [make_h5] and [get_h5_object] *)

Section OpenFacts.
Implicit Types (w : world) (h : group_handle) (p file : path)
  (root g : gmap string node) (col k method : string).

Lemma creatable_stat (fs : gmap path entry) p :
  creatable fs p → stat fs p = inl ENOENT.
Proof.
  intros (Hne & Hw & Hp). unfold stat. destruct p; [done|]. by rewrite Hw, Hp.
Qed.

Lemma stat_created (fs : gmap path entry) p x :
  creatable fs p → stat (<[p := x]> fs) p = inr x.
Proof.
  intros (Hne & Hw & Hp). destruct p as [|k l _] using rev_ind; [done|].
  rewrite parent_snoc in Hw. rewrite stat_snoc, walk_insert_ne.
  - by rewrite Hw, lookup_insert_eq.
  - intros q Hq%prefix_length _ E. simpl in E. subst q.
    rewrite length_app in Hq. simpl in Hq. lia.
Qed.

Lemma Path_exists_run p w : Path_exists p w = (Ok (exists_ (fs w) p), w).
Proof. reflexivity. Qed.

Lemma open_ro_opened (hs : list (option file_handle)) (p q : path) :
  open_ro (hs ++ [Some (Build_file_handle p true)]) q = open_ro hs q.
Proof.
  unfold open_ro. rewrite existsb_app. cbn. by rewrite andb_false_r, !orb_false_r.
Qed.

Lemma free_for_writing_opened w p m q :
  free_for_writing w q → free_for_writing (opened w p m true) q.
Proof. unfold free_for_writing. cbn [opened handles]. by rewrite open_ro_opened. Qed.

Lemma free_for_writing_with_root w p root evs q :
  free_for_writing w q → free_for_writing (with_root w p root evs) q.
Proof. done. Qed.

(** A container file is there, not open read-only: [make_h5] opens it
    with [a]. *)
Lemma make_h5_existing w file root :
  stat (fs w) file = inr (H5File root) →
  free_for_writing w file →
  make_h5 file w =
    (Ok (Build_group_handle (List.length (handles w)) []), opened w file mode_a true).
Proof.
  intros Hs Hfree. unfold make_h5. rewrite bind_run, Path_exists_run.
  unfold exists_. rewrite Hs. unfold File. rewrite bind_run. cbn [get].
  unfold get. rewrite Hs, Hfree. reflexivity.
Qed.

(** A container file is there, open read-only: HDF5 refuses. *)
Lemma make_h5_read_only w file root :
  stat (fs w) file = inr (H5File root) →
  open_ro (handles w) file = true →
  make_h5 file w = (Raise (OSError EBUSY file), w).
Proof.
  intros Hs Hro. unfold make_h5. rewrite bind_run, Path_exists_run.
  unfold exists_. rewrite Hs. unfold File. rewrite bind_run. cbn [get].
  unfold get. rewrite Hs, Hro. reflexivity.
Qed.

Lemma stat_walk_parent (fs : gmap path entry) p x :
  stat fs p = inr x → p ≠ [] → walk fs [] (parent p) = None ∧ fs !! p = Some x.
Proof.
  unfold stat. destruct p as [|a l]; [done|]. intros Hs _.
  destruct (walk fs [] (parent (a :: l))); [done|].
  destruct (fs !! (a :: l)); [|done]. by injection Hs as ->.
Qed.

(** An empty file is there: [make_h5] makes a container of it, with [a]. *)
Lemma make_h5_empty w file :
  stat (fs w) file = inr EmptyFile →
  make_h5 file w =
    (Ok (Build_group_handle (List.length (handles w)) []),
     opened (Build_world (<[file := H5File ∅]> (fs w)) (handles w) (events w))
            file mode_a true).
Proof.
  intros Hs. unfold make_h5. rewrite bind_run, Path_exists_run.
  unfold exists_. rewrite Hs. unfold File. rewrite bind_run.
  unfold get. rewrite Hs. unfold create. rewrite bind_run. unfold get.
  destruct file as [|a l]; [done|].
  destruct (stat_walk_parent _ _ _ Hs) as [-> _]; [done|]. reflexivity.
Qed.

(** Nothing is there: [make_h5] creates an empty container with [w]. *)
Lemma make_h5_creatable w file :
  creatable (fs w) file →
  make_h5 file w =
    (Ok (Build_group_handle (List.length (handles w)) []),
     opened (Build_world (<[file := H5File ∅]> (fs w)) (handles w) (events w))
            file mode_w true).
Proof.
  intros Hc. pose proof (creatable_stat _ _ Hc) as Hs.
  destruct Hc as (Hne & Hw & Hp).
  unfold make_h5. rewrite bind_run, Path_exists_run.
  unfold exists_. rewrite Hs. unfold File. rewrite bind_run.
  unfold get. rewrite Hs. unfold create. rewrite bind_run. unfold get.
  destruct file; [done|]. rewrite Hw. reflexivity.
Qed.

(** Whatever is at the path, unless it is an empty file, [make_h5] does
    not touch it. *)
Lemma make_h5_keeps w file r w' :
  exists_ (fs w) file = true → stat (fs w) file ≠ inr EmptyFile →
  make_h5 file w = (r, w') → fs w' = fs w.
Proof.
  intros He Hne. unfold make_h5. rewrite bind_run, Path_exists_run, He.
  unfold File. rewrite bind_run. unfold get. unfold exists_ in He.
  destruct (stat (fs w) file) as [e|[|root| |]]; [done| | | |done];
    try by intros [= <- <-].
  by destruct (open_ro (handles w) file); intros [= <- <-].
Qed.

(** [require_group] through a file object. *)
Lemma require_group_file w h p root method :
  open_file w h p root → Names.link_name method = true →
  (∀ d, root !! method ≠ Some (Dataset d)) →
  require_group h method w =
    (Ok (Build_group_handle (gh_file h) [method]),
     match root !! method with
     | Some _ => w
     | None => with_root w p (<[method := Group ∅]> root) [EvCreateGroup p [method]]
     end).
Proof.
  intros (Hh & Hroot & Hs) Hl Hnd. pose proof (stat_lookup _ _ _ Hs) as Hp.
  unfold require_group. rewrite bind_run. unfold contains.
  rewrite link_name_nonempty by done. mrun. rewrite Hh. cbn [fh_path]. rewrite Hp.
  rewrite locate_link_name, Hroot by done. cbn [app lookup_at].
  destruct (root !! method) as [[d|grp]|] eqn:Hm.
  - by destruct (Hnd d).
  - rewrite bool_decide_true by done. cbn [negb].
    unfold getitem, the_file, the_root. mrun. rewrite Hh. cbn [fh_path].
    rewrite Hp, locate_link_name, Hroot by done. cbn [app lookup_at]. by rewrite Hm.
  - rewrite bool_decide_false by (by intros [? ?]). cbn [negb].
    unfold create_group, the_file, the_root, set_root, start. mrun. rewrite Hh.
    cbn [fh_path fh_writable negb]. rewrite Hp.
    rewrite locate_link_name, absolute_link_name, segments_link_name, Hroot by done.
    cbn [alter_at app]. by rewrite link_one, Hm.
Qed.

(** [make_h5] where it can open the file for writing: the file object it
    hands out, and the state it leaves. *)
Lemma make_h5_hosts w file root :
  hosts (fs w) file root →
  free_for_writing w file →
  ∃ w0 m,
    make_h5 file w = (Ok (Build_group_handle (List.length (handles w)) []), w0) ∧
    open_file w0 (Build_group_handle (List.length (handles w)) []) file root ∧
    events w0 = events w ++ [EvOpen file m (List.length (handles w))] ∧
    fs w0 = <[file := H5File root]> (fs w) ∧
    handles w0 = handles w ++ [Some (Build_file_handle file true)] ∧
    free_for_writing w0 file.
Proof.
  intros Hhost Hfree.
  assert (∀ m fs', free_for_writing
                     (opened (Build_world fs' (handles w) (events w)) file m true) file)
    as Hfree0.
  { intros m fs'. unfold free_for_writing. cbn [opened handles].
    by rewrite open_ro_opened. }
  destruct Hhost as [Hs|[[Hc|Hs] ->]].
  - exists (opened w file mode_a true), mode_a.
    split_and!; [by eapply make_h5_existing| |done| |done|].
    + split_and!; [by apply list_lookup_middle|done|done].
    + cbn. symmetry. by apply insert_id, stat_lookup.
    + by apply free_for_writing_opened.
  - eexists _, mode_w. split_and!; [by apply make_h5_creatable| |done|done|done|done].
    split_and!; [by apply list_lookup_middle|done|by apply stat_created].
  - eexists _, mode_a. split_and!; [by apply make_h5_empty| |done|done|done|done].
    split_and!; [by apply list_lookup_middle|done|by eapply stat_replaced].
Qed.

End OpenFacts.

(** C4. When a container file is at the path and no file object has it
    open read-only, [make_h5] opens it with mode [a], for reading and
    writing, and leaves the file system as it is; a container file is
    never truncated, whether [make_h5] returns or raises.  An empty file
    at the path is opened with [a] as well, and is an empty container
    from then on.  When nothing is at the path (and the directory above
    exists), [make_h5] creates an empty container with mode [w], open for
    writing.  After [make_h5] on a new path and a [save_h5] through the
    handle, a second [make_h5] on the path opens the file with [a] and the
    dataset is still in it. *)
Theorem make_h5_opens_or_creates (w : world) (file : path) :
  (∀ root, stat (fs w) file = inr (H5File root) →
     (free_for_writing w file →
      make_h5 file w =
        (Ok (Build_group_handle (List.length (handles w)) []),
         opened w file mode_a true)) ∧
     (∀ r w', make_h5 file w = (r, w') → fs w' = fs w)) ∧
  (stat (fs w) file = inr EmptyFile →
     make_h5 file w =
       (Ok (Build_group_handle (List.length (handles w)) []),
        opened (Build_world (<[file := H5File ∅]> (fs w)) (handles w) (events w))
               file mode_a true)) ∧
  (creatable (fs w) file →
     make_h5 file w =
       (Ok (Build_group_handle (List.length (handles w)) []),
        opened (Build_world (<[file := H5File ∅]> (fs w)) (handles w) (events w))
               file mode_w true) ∧
     (free_for_writing w file →
      ∀ col (data : pydata) a compression,
        Names.link_name col = true →
        asarray data = Some a →
        ∃ h w1 r w2,
          make_h5 file w = (Ok h, w1) ∧
          save_h5 h col data compression w1 = (Ok r, w2) ∧
          make_h5 file w2 =
            (Ok (Build_group_handle (List.length (handles w2)) []),
             opened w2 file mode_a true) ∧
          fs (opened w2 file mode_a true) !! file =
            Some (H5File {[col := Dataset (Build_dataset a compression)]}))).
Proof.
  split_and!.
  - intros root Hs. split; [by apply (make_h5_existing w file root)|].
    intros r w'. apply make_h5_keeps; [|by rewrite Hs].
    unfold exists_. by rewrite Hs.
  - apply make_h5_empty.
  - intros Hc. split; [by apply make_h5_creatable|].
    intros Hfree col data a compression Hl Ha.
    set (w1 := opened (Build_world (<[file := H5File ∅]> (fs w)) (handles w) (events w))
                      file mode_w true).
    set (h := Build_group_handle (List.length (handles w)) []).
    assert (open_file w1 h file ∅) as Hf.
    { split_and!; [by apply list_lookup_middle|done|by apply stat_created]. }
    destruct (save_h5_file w1 h file ∅ col a compression Hf Hl) as [Hrun Hf2].
    cbv zeta in Hrun, Hf2. destruct Hf2 as (_ & _ & Hs2).
    eexists h, w1, _, _. split_and!; [by apply make_h5_creatable| | |].
    + rewrite (save_h5_asarray h col data a) by done. exact Hrun.
    + eapply make_h5_existing; [done|].
      apply free_for_writing_with_root. by apply (free_for_writing_opened _ file mode_w).
    + rewrite insert_empty in Hs2. by apply stat_lookup in Hs2.
Qed.

Lemma make_h5_opens_or_creates_witness :
  make_h5 ["data"; "store.h5"] Examples.w_store =
    (Ok (Build_group_handle (List.length (handles Examples.w_store)) []),
     opened Examples.w_store ["data"; "store.h5"] mode_a true) ∧
  (∀ r w', make_h5 ["data"; "store.h5"] Examples.w_store = (r, w') →
           fs w' = fs Examples.w_store) ∧
  make_h5 ["data"; "new.h5"] Examples.w_touched =
    (Ok (Build_group_handle (List.length (handles Examples.w_touched)) []),
     opened (Build_world (<[["data"; "new.h5"] := H5File ∅]> (fs Examples.w_touched))
                         (handles Examples.w_touched) (events Examples.w_touched))
            ["data"; "new.h5"] mode_a true) ∧
  make_h5 ["data"; "new.h5"] Examples.w_data =
    (Ok (Build_group_handle (List.length (handles Examples.w_data)) []),
     opened (Build_world (<[["data"; "new.h5"] := H5File ∅]> (fs Examples.w_data))
                         (handles Examples.w_data) (events Examples.w_data))
            ["data"; "new.h5"] mode_w true) ∧
  ∃ h w1 r w2,
    make_h5 ["data"; "new.h5"] Examples.w_data = (Ok h, w1) ∧
    save_h5 h "x" (PyList [1; 2; 3]%Z) default_compression w1 = (Ok r, w2) ∧
    make_h5 ["data"; "new.h5"] w2 =
      (Ok (Build_group_handle (List.length (handles w2)) []),
       opened w2 ["data"; "new.h5"] mode_a true) ∧
    fs (opened w2 ["data"; "new.h5"] mode_a true) !! ["data"; "new.h5"] =
      Some (H5File {["x" := Dataset (Build_dataset [1; 2; 3]%Z default_compression)]}).
Proof.
  split_and!.
  - apply (proj1 (proj1 (make_h5_opens_or_creates Examples.w_store ["data"; "store.h5"])
                    Examples.store eq_refl)).
    reflexivity.
  - apply (proj2 (proj1 (make_h5_opens_or_creates Examples.w_store ["data"; "store.h5"])
                    Examples.store eq_refl)).
  - apply (proj1 (proj2 (make_h5_opens_or_creates Examples.w_touched ["data"; "new.h5"]))).
    reflexivity.
  - apply (proj2 (proj2 (make_h5_opens_or_creates Examples.w_data ["data"; "new.h5"]))).
    split_and!; [done|reflexivity|reflexivity].
  - apply (proj2 (proj2 (make_h5_opens_or_creates Examples.w_data ["data"; "new.h5"]))).
    + split_and!; [done|reflexivity|reflexivity].
    + reflexivity.
    + reflexivity.
    + reflexivity.
Defined.

(** [get_h5_object] with a key that is not a dataset, on a path that holds
    a container or is free: it returns, twice. *)
Lemma get_h5_object_key (w : world) (file : path) (method : string)
    (root : gmap string node) :
  Names.link_name method = true →
  hosts (fs w) file root →
  free_for_writing w file →
  (∀ d, root !! method ≠ Some (Dataset d)) →
  ∃ g1 w1 g2 w2 m evs grp,
    get_h5_object file method w = (Ok g1, w1) ∧
    events w1 = events w ++ EvOpen file m (gh_file g1) :: evs ∧
    fs w1 = <[file := H5File (with_group root method)]> (fs w) ∧
    with_group root method !! method = Some (Group grp) ∧
    (∀ k, k ≠ method → with_group root method !! k = root !! k) ∧
    get_h5_object file method w1 = (Ok g2, w2) ∧
    fs w2 = fs w1 ∧
    gh_path g1 = [method] ∧ gh_path g2 = [method] ∧
    handles w2 !! gh_file g1 = Some (Some (Build_file_handle file true)) ∧
    handles w2 !! gh_file g2 = Some (Some (Build_file_handle file true)).
Proof.
  intros Hl Hhost Hfree Hnd.
  set (n := List.length (handles w)).
  (* the first call: the state after [make_h5] *)
  assert (∃ w0 m, make_h5 file w = (Ok (Build_group_handle n []), w0) ∧
                  open_file w0 (Build_group_handle n []) file root ∧
                  events w0 = events w ++ [EvOpen file m n] ∧
                  fs w0 = <[file := H5File root]> (fs w) ∧
                  handles w0 = handles w ++ [Some (Build_file_handle file true)])
    as (w0 & m & Hopen & Hf0 & Hev0 & Hfs0 & Hh0).
  { destruct Hhost as [Hs|[[Hc|Hs] ->]].
    - exists (opened w file mode_a true), mode_a.
      split_and!; [by eapply make_h5_existing| |done| |done].
      + split_and!; [by apply list_lookup_middle|done|done].
      + cbn. symmetry. by apply insert_id, stat_lookup.
    - eexists _, mode_w. split_and!; [by apply make_h5_creatable| |done|done|done].
      split_and!; [by apply list_lookup_middle|done|by apply stat_created].
    - eexists _, mode_a. split_and!; [by apply make_h5_empty| |done|done|done].
      split_and!; [by apply list_lookup_middle|done|by eapply stat_replaced]. }
  pose proof (require_group_file w0 _ file root method Hf0 Hl Hnd) as Hreq.
  cbn [gh_file] in Hreq.
  set (w1 := match root !! method with
             | Some _ => w0
             | None => with_root w0 file (<[method := Group ∅]> root)
                                 [EvCreateGroup file [method]]
             end) in *.
  assert (get_h5_object file method w = (Ok (Build_group_handle n [method]), w1)) as Hrun1.
  { unfold get_h5_object. by rewrite bind_run, Hopen. }
  assert (fs w1 = <[file := H5File (with_group root method)]> (fs w)) as Hfs1.
  { unfold w1, with_group. destruct (root !! method); [done|].
    cbn. by rewrite Hfs0, insert_insert_eq. }
  assert (handles w1 = handles w ++ [Some (Build_file_handle file true)]) as Hh1.
  { unfold w1. by destruct (root !! method). }
  assert (stat (fs w1) file = inr (H5File (with_group root method))) as Hs1.
  { destruct Hf0 as (_ & _ & Hs0). unfold w1, with_group.
    destruct (root !! method); [done|]. cbn. by eapply stat_with_root. }
  assert (∃ grp, with_group root method !! method = Some (Group grp)) as [grp Hgrp].
  { unfold with_group. destruct (root !! method) as [[d|grp]|] eqn:Hm.
    - by destruct (Hnd d).
    - by exists grp.
    - exists ∅. apply lookup_insert_eq. }
  (* the second call *)
  set (n2 := List.length (handles w1)).
  assert (free_for_writing w1 file) as Hfree1.
  { unfold free_for_writing. by rewrite Hh1, open_ro_opened. }
  pose proof (make_h5_existing w1 file _ Hs1 Hfree1) as Hopen2. fold n2 in Hopen2.
  assert (open_file (opened w1 file mode_a true) (Build_group_handle n2 []) file
                    (with_group root method)) as Hf2.
  { split_and!; [by apply list_lookup_middle|done|done]. }
  pose proof (require_group_file _ _ file _ method Hf2 Hl) as Hreq2.
  rewrite Hgrp in Hreq2. cbn [gh_file] in Hreq2.
  exists (Build_group_handle n [method]), w1, (Build_group_handle n2 [method]),
    (opened w1 file mode_a true), m,
    (match root !! method with Some _ => [] | None => [EvCreateGroup file [method]] end),
    grp.
  split_and!; try done.
  - unfold w1. destruct (root !! method); [done|]. cbn.
    by rewrite Hev0, <- (assoc_L (++)).
  - intros k Hk. unfold with_group. destruct (root !! method); [done|].
    by rewrite lookup_insert_ne.
  - unfold get_h5_object. rewrite bind_run, Hopen2. apply Hreq2.
    by intros d.
  - cbn [gh_file opened handles]. rewrite Hh1.
    rewrite <- (assoc_L (++)). by apply list_lookup_middle.
  - cbn [gh_file opened handles]. by apply list_lookup_middle.
Qed.

(** * What a call that returns has done *)

Section Effects.
Implicit Types (w : world) (h : group_handle) (p : path)
  (root : gmap string node) (name col k : string).

Lemma live_with_root w h p wr root root' evs :
  live w h p wr root → live (with_root w p root' evs) h p wr root'.
Proof. intros [Hh _]. split; [done|]. cbn. apply lookup_insert_eq. Qed.

Lemma live_det w h p wr root p' wr' root' :
  live w h p wr root → live w h p' wr' root' → p = p' ∧ wr = wr' ∧ root = root'.
Proof. intros [Hh Hp] [Hh' Hp']. by simplify_eq. Qed.

Lemma live_same_file w h h' p wr root :
  gh_file h = gh_file h' → live w h p wr root → live w h' p wr root.
Proof. unfold live. by intros ->. Qed.

Lemma contains_live w h p wr root name :
  live w h p wr root → String.eqb name "" = false →
  contains h name w =
    (Ok (bool_decide (is_Some (lookup_at (locate h name) root))), w).
Proof.
  intros [Hh Hp] Hne. unfold contains. rewrite Hne. mrun.
  rewrite Hh. cbn [fh_path]. by rewrite Hp.
Qed.

Lemma delitem_Ok h name w r w' :
  delitem h name w = (Ok r, w') →
  ∃ p root root',
    live w h p true root ∧
    unlink_at (locate h name) root = Some root' ∧
    w' = with_root w p root' [EvUnlink p (locate h name)].
Proof.
  unfold delitem, the_file, the_root, set_root. mrun.
  destruct (handles w !! gh_file h) as [[[p wr]|]|] eqn:Hh; try done.
  cbn [fh_path fh_writable].
  destruct (fs w !! p) as [[|root| |]|] eqn:Hp; try done.
  destruct wr; [|done]. cbn [negb].
  destruct (unlink_at (locate h name) root) as [root'|] eqn:Hun; [|done].
  intros [= <- <-]. by exists p, root, root'.
Qed.

Lemma new_dataset_Ok (g : group_handle) k d w r w' :
  new_dataset g k d w = (Ok r, w') →
  ∃ p root root',
    live w g p true root ∧
    alter_at (gh_path g) (link_at [k] (Dataset d)) root = Some root' ∧
    w' = with_root w p root' [EvCreateDataset p (gh_path g ++ [k]) d] ∧
    r = Build_group_handle (gh_file g) (gh_path g ++ [k]).
Proof.
  unfold new_dataset, the_file, the_root, set_root. mrun.
  destruct (handles w !! gh_file g) as [[[p wr]|]|] eqn:Hh; try done.
  cbn [fh_path fh_writable].
  destruct (fs w !! p) as [[|root| |]|] eqn:Hp; try done.
  destruct wr; [|done]. cbn [negb].
  destruct (alter_at (gh_path g) _ root) as [root'|] eqn:Hal; [|done].
  intros [= <- <-]. by exists p, root, root'.
Qed.

Lemma create_group_Ok h name w r w' :
  create_group h name w = (Ok r, w') →
  ∃ p root root',
    live w h p true root ∧
    alter_at (start h name) (link_at (Names.segments name) (Group ∅)) root = Some root' ∧
    w' = with_root w p root' [EvCreateGroup p (locate h name)] ∧
    r = Build_group_handle (gh_file h) (locate h name).
Proof.
  unfold create_group, the_file, the_root, set_root. mrun.
  destruct (handles w !! gh_file h) as [[[p wr]|]|] eqn:Hh; try done.
  cbn [fh_path fh_writable].
  destruct (fs w !! p) as [[|root| |]|] eqn:Hp; try done.
  destruct wr; [|done]. cbn [negb].
  destruct (alter_at (start h name) _ root) as [root'|] eqn:Hal; [|done].
  intros [= <- <-]. by exists p, root, root'.
Qed.

(** A [require_group] that returns has found the group or made it. *)
Lemma require_group_Ok h name w r w' :
  require_group h name w = (Ok r, w') →
  r = Build_group_handle (gh_file h) (locate h name) ∧
  String.eqb name "" = false ∧
  ∃ p wr root,
    live w h p wr root ∧
    ((w' = w ∧ ∃ g0, lookup_at (locate h name) root = Some (Group g0)) ∨
     (wr = true ∧
      ∃ root', alter_at (start h name) (link_at (Names.segments name) (Group ∅)) root
                 = Some root' ∧
               w' = with_root w p root' [EvCreateGroup p (locate h name)])).
Proof.
  unfold require_group. rewrite bind_run.
  destruct (contains_total h name w) as [b Hb]. rewrite Hb. destruct b; cbn [negb].
  - (* the name is in the group *)
    unfold contains in Hb. destruct (String.eqb name "") eqn:Hne; [done|].
    revert Hb. mrun. unfold getitem, the_file, the_root. mrun.
    destruct (handles w !! gh_file h) as [[[p wr]|]|] eqn:Hh; try done.
    cbn [fh_path]. destruct (fs w !! p) as [[|root| |]|] eqn:Hp; try done.
    intros _. destruct (lookup_at (locate h name) root) as [[d|g0]|] eqn:Hl; try done.
    intros [= <- <-]. split_and!; [done|done|].
    exists p, wr, root. split; [done|]. left. split; [done|by exists g0].
  - intros (p & root & root' & Hlive & Hal & -> & ->)%create_group_Ok.
    split_and!; [done| |].
    + destruct (String.eqb_spec name "") as [->|]; [|done].
      apply alter_at_inv in Hal as (? & ? & _ & Hl & _). done.
    + exists p, true, root. split; [done|]. right. split; [done|by exists root'].
Qed.

Lemma alter_link_lookup base rel n root root' :
  alter_at base (link_at rel n) root = Some root' →
  lookup_at (base ++ rel) root = None ∧
  ∀ more, lookup_at (base ++ rel ++ more) root' = lookup_in n more.
Proof.
  intros (g0 & g0' & Hg0 & Hl & Hg0')%alter_at_inv.
  apply lookup_at_group_at in Hg0, Hg0'.
  destruct (link_at_lookup _ _ _ _ Hl) as [Hnone Hnew].
  split; [by rewrite lookup_at_app, Hg0|].
  intros more. rewrite lookup_at_app, Hg0'. apply Hnew.
Qed.

Lemma alter_link_frame base rel n root root' q :
  alter_at base (link_at rel n) root = Some root' →
  apart (base ++ rel) q → lookup_at q root' = lookup_at q root.
Proof.
  intros Hal. eapply alter_at_frame; [done|].
  intros g0 g0' q' Hl. by eapply link_at_frame.
Qed.

(** A [new_dataset] that returns has linked the dataset where nothing
    was, and nothing else has moved. *)
Lemma new_dataset_effect (g : group_handle) k d w r w' :
  new_dataset g k d w = (Ok r, w') →
  ∃ p root root',
    live w g p true root ∧
    w' = with_root w p root' [EvCreateDataset p (gh_path g ++ [k]) d] ∧
    r = Build_group_handle (gh_file g) (gh_path g ++ [k]) ∧
    lookup_at (gh_path g ++ [k]) root = None ∧
    lookup_at (gh_path g ++ [k]) root' = Some (Dataset d) ∧
    (∀ q, apart (gh_path g ++ [k]) q → lookup_at q root' = lookup_at q root).
Proof.
  intros (p & root & root' & Hlive & Hal & -> & ->)%new_dataset_Ok.
  destruct (alter_link_lookup _ _ _ _ _ Hal) as [Hnone Hnew].
  exists p, root, root'. split_and!; try done.
  - specialize (Hnew []). by rewrite app_nil_r in Hnew.
  - intros q. by apply (alter_link_frame _ _ _ _ _ _ Hal).
Qed.

Lemma h5d_create_Ok (g : group_handle) name d w r w' :
  h5d_create g name d w = (Ok r, w') →
  ∃ k, Names.segments name = [k] ∧
       new_dataset (Build_group_handle (gh_file g) (start g name)) k d w = (Ok r, w').
Proof.
  unfold h5d_create. destruct (Names.segments name) as [|k [|]]; try done.
  intros H. by exists k.
Qed.

(** A [create_dataset] that returns has linked the dataset where [name]
    leads, where nothing was, after making at most the group above it;
    nothing apart from that path has moved. *)
Lemma create_dataset_Ok h name (data : array) compression w r w' :
  create_dataset h name data compression w = (Ok r, w') →
  ∃ p root root' made,
    live w h p true root ∧
    w' = with_root w p root'
           (made ++ [EvCreateDataset p (locate h name) (Build_dataset data compression)]) ∧
    r = Build_group_handle (gh_file h) (locate h name) ∧
    String.eqb name "" = false ∧
    lookup_at (locate h name) root = None ∧
    lookup_at (locate h name) root' = Some (Dataset (Build_dataset data compression)) ∧
    (∀ q, apart (locate h name) q → lookup_at q root' = lookup_at q root) ∧
    (made = [] ∨ ∃ gp, made = [EvCreateGroup p gp]).
Proof.
  set (d := Build_dataset data compression).
  assert (h5d_create h name d w = (Ok r, w') →
          ∃ p root root' made,
            live w h p true root ∧
            w' = with_root w p root' (made ++ [EvCreateDataset p (locate h name) d]) ∧
            r = Build_group_handle (gh_file h) (locate h name) ∧
            String.eqb name "" = false ∧
            lookup_at (locate h name) root = None ∧
            lookup_at (locate h name) root' = Some (Dataset d) ∧
            (∀ q, apart (locate h name) q → lookup_at q root' = lookup_at q root) ∧
            (made = [] ∨ ∃ gp, made = [EvCreateGroup p gp])) as Hdirect.
  { intros (k & Hseg & Hnew)%h5d_create_Ok.
    apply new_dataset_effect in Hnew as (p & root & root' & Hlive & -> & -> & Hno & Hyes & Hfr).
    cbn [gh_file gh_path] in *. unfold locate. rewrite Hseg.
    exists p, root, root', []. split_and!; try done; [|by left].
    destruct (String.eqb_spec name "") as [->|]; done. }
  unfold create_dataset. fold d.
  destruct (negb (String.eqb name "") && Names.has_slash (Names.lstrip name)) eqn:Hsplit;
    [|done].
  destruct (Names.rsplit name) as [[pp last]|] eqn:Hrs; [|done].
  apply andb_true_iff in Hsplit as [Hne%negb_true_iff _].
  apply rsplit_app in Hrs as [Hname Hlast].
  rewrite bind_run.
  destruct (require_group h pp w) as [[grp|e] w2] eqn:Hreq; [|done].
  apply require_group_Ok in Hreq as (-> & Hpp & p & wr & root & Hlive & Hcase).
  intros (k & Hseg & Hnew)%h5d_create_Ok.
  unfold start in Hnew. rewrite absolute_no_slash in Hnew by done.
  cbn [gh_file gh_path] in Hnew.
  assert (locate h name = locate h pp ++ [k]) as Hloc.
  { unfold locate, start. rewrite Hname, segments_app, Hseg, absolute_app.
    - by rewrite (assoc_L (++)).
    - intros ->. done. }
  rewrite Hloc.
  apply new_dataset_effect in Hnew
    as (p2 & root2 & root' & Hlive2 & -> & -> & Hno & Hyes & Hfr).
  cbn [gh_file gh_path] in *.
  destruct Hcase as [[-> (g0 & Hg0)]|(-> & root1 & Hal & ->)].
  - destruct (live_det _ _ _ _ _ _ _ _ Hlive2
                (live_same_file _ h _ _ _ _ eq_refl Hlive)) as (-> & <- & ->).
    exists p, root, root', []. split_and!; try done. by left.
  - pose proof (live_with_root _ _ _ _ _ root1 [EvCreateGroup p (locate h pp)] Hlive)
      as Hlive1.
    destruct (live_det _ _ _ _ _ _ _ _ Hlive2
                (live_same_file _ _ _ _ _ _ eq_refl Hlive1)) as (-> & _ & ->).
    destruct (alter_link_lookup _ _ _ _ _ Hal) as [Hgone Hgroup].
    fold (locate h pp) in Hgone.
    exists p, root, root', [EvCreateGroup p (locate h pp)].
    split_and!; try done.
    + by rewrite with_root_with_root.
    + by rewrite lookup_at_app, Hgone.
    + intros q Hq. rewrite (Hfr q Hq).
      destruct (decide (locate h pp `prefix_of` q)) as [[more ->]|Hpre].
      * rewrite (lookup_at_app _ more root), Hgone.
        unfold locate at 1. rewrite <- (assoc_L (++)), Hgroup. cbn [lookup_in].
        destruct more as [|b more]; [|apply lookup_at_empty].
        destruct Hq as [_ Hq]. destruct Hq. rewrite app_nil_r. by apply prefix_app_r.
      * eapply alter_link_frame; [done|]. fold (locate h pp). split; [done|].
        intros ?. destruct Hq as [_ Hq]. apply Hq. by apply prefix_app_r.
    + right. by eexists.
Qed.

(** A [save_h5] that returns has replaced what [col] leads to by the
    dataset, and nothing apart from that path has moved. *)
Lemma save_h5_effect h col (data : array) compression w r w' :
  save_h5 h col data compression w = (Ok r, w') →
  ∃ p root root' made,
    live w h p true root ∧
    w' = with_root w p root'
           (save_trace p (locate h col) root made (Build_dataset data compression)) ∧
    r = Build_group_handle (gh_file h) (locate h col) ∧
    lookup_at (locate h col) root' = Some (Dataset (Build_dataset data compression)) ∧
    (∀ q, apart (locate h col) q → lookup_at q root' = lookup_at q root) ∧
    (made = [] ∨ ∃ gp, made = [EvCreateGroup p gp]).
Proof.
  unfold save_h5, save_trace. rewrite bind_run.
  destruct (contains_total h col w) as [b ->]. rewrite bind_run. destruct b.
  - destruct (delitem h col w) as [[[]|e] w1] eqn:Hdel; [|done].
    apply delitem_Ok in Hdel as (p & root & root1 & Hlive & Hun & ->).
    intros (p2 & root2 & root' & made & Hlive2 & -> & -> & _ & _ & Hyes & Hfr & Hmade)
      %create_dataset_Ok.
    destruct (live_det _ _ _ _ _ _ _ _ Hlive2
                (live_with_root _ _ _ _ _ root1 [EvUnlink p (locate h col)] Hlive))
      as (-> & _ & ->).
    destruct (unlink_at_lookup _ _ _ Hun) as [[n Hn] _].
    exists p, root, root', made. rewrite Hn. split_and!; try done.
    + by rewrite with_root_with_root.
    + intros q Hq. rewrite (Hfr q Hq). by eapply unlink_at_frame.
  - cbn.
    intros (p & root & root' & made & Hlive & -> & -> & _ & Hno & Hyes & Hfr & Hmade)
      %create_dataset_Ok.
    exists p, root, root', made. by rewrite Hno.
Qed.

(** One step of the comprehension of [open_hdf5], for any key. *)
Lemma read_item_root w h p wr root k :
  live w h p wr root → gh_path h = [] →
  (obj ← getitem h k; v ← slice_all obj; mret (k, v)) w =
    match lookup_at (Names.segments k) root with
    | Some (Dataset d) =>
        (Ok (k, ds_data d), add_events w [EvRead p (Names.segments k)])
    | Some (Group _) =>
        (Raise (TypeError "Accessing a group is done with bytes or str"), w)
    | None => (Raise (KeyError k), w)
    end.
Proof.
  intros [Hh Hp] Hroot.
  assert (locate h k = Names.segments k) as Hloc.
  { unfold locate, start. rewrite Hroot. by destruct (Names.absolute k). }
  unfold getitem, slice_all, the_file, the_root. mrun.
  rewrite Hh. cbn [fh_path]. rewrite Hp, Hloc.
  destruct (lookup_at (Names.segments k) root) as [[d|g]|] eqn:Hl; [|done|done].
  cbn [gh_file gh_path]. rewrite Hh. cbn [fh_path]. by rewrite Hp, Hl.
Qed.

Lemma with_File_r_run {A} w p root (body : group_handle → M A) :
  stat (fs w) p = inr (H5File root) →
  with_File p mode_r body w =
    ((body (Build_group_handle (List.length (handles w)) [])
           (opened w p mode_r (open_rw (handles w) p))).1,
     Build_world
       (fs (body (Build_group_handle (List.length (handles w)) [])
                 (opened w p mode_r (open_rw (handles w) p))).2)
       (<[List.length (handles w) := None]>
          (handles (body (Build_group_handle (List.length (handles w)) [])
                         (opened w p mode_r (open_rw (handles w) p))).2))
       (events (body (Build_group_handle (List.length (handles w)) [])
                     (opened w p mode_r (open_rw (handles w) p))).2 ++
        [EvClose (List.length (handles w))])).
Proof.
  intros Hs.
  destruct (body (Build_group_handle (List.length (handles w)) [])
                 (opened w p mode_r (open_rw (handles w) p))) as [r w1] eqn:Hb.
  by apply (with_File_r w p root).
Qed.

(** An [open_hdf5] of one key that returns has read the dataset the key
    leads to. *)
Lemma open_hdf5_one_inv w p root col m w' :
  stat (fs w) p = inr (H5File root) →
  open_hdf5 p [col] w = (Ok m, w') →
  ∃ d, lookup_at (Names.segments col) root = Some (Dataset d) ∧
       m = {[col := ds_data d]}.
Proof.
  intros Hs. remember [col] as args eqn:Hargs. unfold open_hdf5.
  pose proof (open_group_opened w p mode_r (open_rw (handles w) p) root
                (stat_lookup _ _ _ Hs)) as Ho.
  assert (live (opened w p mode_r (open_rw (handles w) p))
               (Build_group_handle (List.length (handles w)) []) p (open_rw (handles w) p) root)
    as Hlive.
  { by destruct Ho as (? & ? & _). }
  rewrite (with_File_r_run w p root) by done.
  rewrite bind_run, (requested_keys _ _ _ _ _ _ Ho).
  rewrite bind_run, (keys_open _ _ _ _ _ _ Ho), keys_to_set.
  subst args. cbn [requested].
  destruct (bool_decide (list_to_set [col] ∖ dom root ≠@{gset string} ∅)); [done|].
  rewrite bind_run. cbn [mapM]. unfold bind at 1.
  rewrite (read_item_root _ _ _ _ _ col Hlive eq_refl).
  destruct (lookup_at (Names.segments col) root) as [[d|g]|]; [|done|done].
  cbn. intros [= <- _]. exists d. by rewrite insert_empty.
Qed.

(** Without a type for the data nothing is created, whatever the name. *)
Lemma create_dataset_refused_result h name (data : pydata) compression w r w' :
  asarray data = None →
  create_dataset h name data compression w = (r, w') → ∃ e, r = Raise e.
Proof.
  intros Ha. unfold create_dataset, make_new_dset. rewrite Ha.
  destruct (negb (String.eqb name "") && Names.has_slash (Names.lstrip name));
    [|intros [= <- _]; by eexists].
  destruct (Names.rsplit name) as [[pp last]|]; [|intros [= <- _]; by eexists].
  rewrite bind_run. destruct (require_group h pp w) as [[grp|e] w2];
    intros [= <- _]; by eexists.
Qed.

(** A [save_h5] that returns was given data that [numpy] turns into an
    array with a type of HDF5. *)
Lemma save_h5_Ok_asarray h col (data : pydata) compression w r w' :
  save_h5 h col data compression w = (Ok r, w') → is_Some (asarray data).
Proof.
  destruct (asarray data) as [a|] eqn:Ha; [by eexists|].
  unfold save_h5. rewrite bind_run.
  destruct (contains_total h col w) as [b ->]. rewrite bind_run.
  destruct ((if b then delitem h col else mret ()) w) as [[[]|e] w1]; [|done].
  by intros [? [=]]%(create_dataset_refused_result _ _ _ _ _ _ _ Ha).
Qed.

(** [save_h5] under a key of an open, writable group, with data that
    HDF5 has no type for: the [TypeError] comes after the old dataset is
    gone. *)
Lemma save_h5_refused w h p root g col (data : pydata) compression :
  open_group w h p true root g → Names.link_name col = true →
  asarray data = None →
  match g !! col with
  | Some _ =>
      ∃ root',
        save_h5 h col data compression w =
          (Raise (TypeError no_hdf5_type),
           with_root w p root' [EvUnlink p (gh_path h ++ [col])]) ∧
        group_at (gh_path h) root' = Some (delete col g)
  | None => save_h5 h col data compression w = (Raise (TypeError no_hdf5_type), w)
  end.
Proof.
  intros Ho Hl Ha. unfold save_h5. rewrite bind_run.
  rewrite (contains_open _ _ _ _ _ _ _ Ho Hl), bind_run.
  destruct (g !! col) as [n|] eqn:Hn.
  - rewrite bool_decide_true by done.
    destruct (delitem_open _ _ _ _ _ _ _ Ho Hl Hn) as (root1 & -> & Hg1).
    exists root1. split; [|done]. by apply create_dataset_refused.
  - rewrite bool_decide_false by (by intros [? ?]).
    unfold mret, M_ret, ret. by apply create_dataset_refused.
Qed.

End Effects.

(** C2 fails for data that HDF5 has no type for: the dataset that was
    under the name is deleted, and then [create_dataset] raises a
    [TypeError], so that nothing is under the name afterwards. *)
Lemma save_h5_replaces_counterexample :
  Examples.store !! "x" = Some (Dataset (Build_dataset [1; 2; 3]%Z (Some gzip))) ∧
  (∃ w',
     save_h5 (Build_group_handle 0 []) "x" (PyList [2 ^ 64]%Z) default_compression
             Examples.w_store_open =
       (Raise (TypeError no_hdf5_type), w') ∧
     fs w' !! ["data"; "store.h5"] = Some (H5File (delete "x" Examples.store))) ∧
  ¬ (∀ w h5 col data compression p root g,
       open_group w h5 p true root g → Names.link_name col = true →
       ∃ r w', save_h5 h5 col data compression w = (Ok r, w')).
Proof.
  split_and!; [reflexivity|eexists; split; vm_compute; reflexivity|].
  intros H.
  destruct (H Examples.w_store_open (Build_group_handle 0 []) "x"
              (PyList [2 ^ 64]%Z) default_compression
              ["data"; "store.h5"] Examples.store Examples.store)
    as (r & w' & Hrun); [by split_and!|reflexivity|].
  vm_compute in Hrun. discriminate Hrun.
Qed.

(** C2, amended.  A [save_h5 h5 col data compression] that returns was
    given data that [numpy] turns into an array HDF5 has a type for; it
    has unlinked what [col] led to, if anything, and then created the
    dataset there, with that array and the requested compression, making
    at most the group above it on the way.  On an open, writable group
    and a key [col]: with such data it does return, and the group is the
    old one with [col] replaced; with data that HDF5 has no type for it
    raises a [TypeError] after the unlink, and the group is the old one
    without [col].  Through a file object, writing [x] with [1,2,3],
    writing [x] again with [4,5] and reading [x] gives [4,5]. *)
Theorem save_h5_replaces (w : world) (h5 : group_handle) (col : string)
    (data : pydata) (compression : option codec) :
  (∀ r w', save_h5 h5 col data compression w = (Ok r, w') →
     ∃ a p root root' made,
       asarray data = Some a ∧
       live w h5 p true root ∧
       w' = with_root w p root'
              (save_trace p (locate h5 col) root made (Build_dataset a compression)) ∧
       (made = [] ∨ ∃ gp, made = [EvCreateGroup p gp]) ∧
       lookup_at (locate h5 col) root' =
         Some (Dataset (Build_dataset a compression))) ∧
  (∀ p root g,
     open_group w h5 p true root g → Names.link_name col = true →
     (∀ a, asarray data = Some a →
        ∃ root',
          save_h5 h5 col data compression w =
            (Ok (Build_group_handle (gh_file h5) (gh_path h5 ++ [col])),
             with_root w p root'
               (save_events p (gh_path h5) g col (Build_dataset a compression))) ∧
          group_at (gh_path h5) root' =
            Some (<[col := Dataset (Build_dataset a compression)]> g)) ∧
     (asarray data = None →
        match g !! col with
        | Some _ =>
            ∃ root',
              save_h5 h5 col data compression w =
                (Raise (TypeError no_hdf5_type),
                 with_root w p root' [EvUnlink p (gh_path h5 ++ [col])]) ∧
              group_at (gh_path h5) root' = Some (delete col g)
        | None =>
            save_h5 h5 col data compression w = (Raise (TypeError no_hdf5_type), w)
        end)) ∧
  (∀ p root,
     open_file w h5 p root →
     ∃ w', (save_h5 h5 "x" (PyList [1; 2; 3]%Z) compression;;
            save_h5 h5 "x" (PyList [4; 5]%Z) compression;;
            open_hdf5 p ["x"]) w = (Ok {["x" := [4; 5]%Z]}, w')).
Proof.
  split_and!.
  - intros r w' Hrun.
    destruct (save_h5_Ok_asarray _ _ _ _ _ _ _ Hrun) as [a Ha].
    rewrite (save_h5_asarray _ _ _ a) in Hrun by done.
    apply save_h5_effect in Hrun
      as (p & root & root' & made & Hlive & -> & _ & Hyes & _ & Hmade).
    by exists a, p, root, root', made.
  - intros p root g Ho Hl. split.
    + intros a Ha. rewrite (save_h5_asarray _ _ _ a) by done.
      by apply (save_h5_open w h5 p root g).
    + intros Ha. by apply (save_h5_refused w h5 p root g).
  - intros p root Hf.
    rewrite bind_run, (save_h5_asarray _ _ _ [1; 2; 3]%Z) by done.
    destruct (save_h5_file w h5 p root "x" [1; 2; 3]%Z compression Hf eq_refl)
      as [Hrun1 Hf1]. cbv zeta in Hrun1, Hf1.
    destruct (save_h5_file _ h5 p _ "x" [4; 5]%Z compression Hf1 eq_refl)
      as [Hrun2 Hf2]. cbv zeta in Hrun2, Hf2.
    rewrite Hrun1, bind_run, (save_h5_asarray _ _ _ [4; 5]%Z), Hrun2 by done.
    destruct Hf2 as (_ & _ & Hs2).
    rewrite (open_hdf5_one _ p _ "x" (Build_dataset [4; 5]%Z compression) Hs2 eq_refl);
      [by eexists|apply lookup_insert_eq].
Qed.

Lemma save_h5_replaces_witness :
  (∃ a p root root' made,
     asarray (PyList [4; 5]%Z) = Some a ∧
     live Examples.w_store_open (Build_group_handle 0 []) p true root ∧
     (save_h5 (Build_group_handle 0 []) "x" (PyList [4; 5]%Z) default_compression
              Examples.w_store_open).2 =
       with_root Examples.w_store_open p root'
         (save_trace p (locate (Build_group_handle 0 []) "x") root made
            (Build_dataset a default_compression)) ∧
     (made = [] ∨ ∃ gp, made = [EvCreateGroup p gp]) ∧
     lookup_at (locate (Build_group_handle 0 []) "x") root' =
       Some (Dataset (Build_dataset a default_compression))) ∧
  (∃ root',
     save_h5 (Build_group_handle 0 []) "x" (PyList [4; 5]%Z) default_compression
             Examples.w_store_open =
       (Ok (Build_group_handle 0 ([] ++ ["x"])),
        with_root Examples.w_store_open ["data"; "store.h5"] root'
          (save_events ["data"; "store.h5"] [] Examples.store "x"
             (Build_dataset [4; 5]%Z default_compression))) ∧
     group_at [] root' =
       Some (<["x" := Dataset (Build_dataset [4; 5]%Z default_compression)]>
               Examples.store)) ∧
  (∃ root',
     save_h5 (Build_group_handle 0 []) "x" (PyList [2 ^ 64]%Z) default_compression
             Examples.w_store_open =
       (Raise (TypeError no_hdf5_type),
        with_root Examples.w_store_open ["data"; "store.h5"] root'
          [EvUnlink ["data"; "store.h5"] ([] ++ ["x"])]) ∧
     group_at [] root' = Some (delete "x" Examples.store)) ∧
  (∃ w', (save_h5 (Build_group_handle 0 []) "x" (PyList [1; 2; 3]%Z) default_compression;;
          save_h5 (Build_group_handle 0 []) "x" (PyList [4; 5]%Z) default_compression;;
          open_hdf5 ["data"; "store.h5"] ["x"]) Examples.w_store_open =
           (Ok {["x" := [4; 5]%Z]}, w')).
Proof.
  split_and!.
  - apply (proj1 (save_h5_replaces Examples.w_store_open (Build_group_handle 0 [])
                    "x" (PyList [4; 5]%Z) default_compression)
             (Build_group_handle 0 ["x"])).
    vm_compute. reflexivity.
  - apply (proj1 (proj1 (proj2 (save_h5_replaces Examples.w_store_open
                                  (Build_group_handle 0 []) "x" (PyList [4; 5]%Z)
                                  default_compression))
                    ["data"; "store.h5"] Examples.store Examples.store
                    (conj eq_refl (conj eq_refl eq_refl)) eq_refl)).
    reflexivity.
  - apply (proj2 (proj1 (proj2 (save_h5_replaces Examples.w_store_open
                                  (Build_group_handle 0 []) "x" (PyList [2 ^ 64]%Z)
                                  default_compression))
                    ["data"; "store.h5"] Examples.store Examples.store
                    (conj eq_refl (conj eq_refl eq_refl)) eq_refl)).
    reflexivity.
  - apply (proj2 (proj2 (save_h5_replaces Examples.w_store_open (Build_group_handle 0 [])
                           "x" (PyList [4; 5]%Z) default_compression))
             ["data"; "store.h5"] Examples.store).
    split_and!; reflexivity.
Defined.

(** C10. A [save_h5] that returns has changed at most the entry [col]
    leads to: every object at a path apart from that of [col] is the
    object that was there, so for a key [col] every other key of the group
    has the value it had; the other files and the table of file objects
    are as before. *)
Theorem save_h5_frame (w w' : world) (h5 r : group_handle) (col : string)
    (data : array) (compression : option codec) :
  save_h5 h5 col data compression w = (Ok r, w') →
  ∃ p root root',
    live w h5 p true root ∧
    live w' h5 p true root' ∧
    lookup_at (locate h5 col) root' = Some (Dataset (Build_dataset data compression)) ∧
    (∀ q, apart (locate h5 col) q → lookup_at q root' = lookup_at q root) ∧
    (Names.link_name col = true →
     ∀ g, group_at (gh_path h5) root = Some g →
          ∃ g', group_at (gh_path h5) root' = Some g' ∧
                ∀ k, k ≠ col → g' !! k = g !! k) ∧
    (∀ f, f ≠ p → fs w' !! f = fs w !! f) ∧
    handles w' = handles w.
Proof.
  intros (p & root & root' & made & Hlive & -> & _ & Hyes & Hfr & _)%save_h5_effect.
  exists p, root, root'.
  split_and!; [done|by apply (live_with_root w h5 p true root)|done|done| | |done].
  - intros Hl g Hg. rewrite locate_link_name in Hyes, Hfr by done.
    rewrite lookup_at_snoc in Hyes.
    destruct (group_at (gh_path h5) root') as [g'|] eqn:Hg'; [|done].
    exists g'. split; [done|]. intros k Hk.
    specialize (Hfr (gh_path h5 ++ [k])).
    rewrite !lookup_at_snoc, Hg, Hg' in Hfr. apply Hfr.
    split; intros [t Ht]; rewrite <- (assoc_L (++)) in Ht;
      apply app_inv_head in Ht; simpl in Ht; congruence.
  - intros f Hf. cbn. by rewrite lookup_insert_ne.
Qed.

Lemma save_h5_frame_witness :
  ∃ p root root',
    live Examples.w_store_open (Build_group_handle 0 []) p true root ∧
    live (save_h5 (Build_group_handle 0 []) "x" [4; 5]%Z default_compression
                  Examples.w_store_open).2
         (Build_group_handle 0 []) p true root' ∧
    lookup_at (locate (Build_group_handle 0 []) "x") root' =
      Some (Dataset (Build_dataset [4; 5]%Z default_compression)) ∧
    (∀ q, apart (locate (Build_group_handle 0 []) "x") q →
          lookup_at q root' = lookup_at q root) ∧
    (Names.link_name "x" = true →
     ∀ g, group_at [] root = Some g →
          ∃ g', group_at [] root' = Some g' ∧ ∀ k, k ≠ "x" → g' !! k = g !! k) ∧
    (∀ f, f ≠ p →
          fs (save_h5 (Build_group_handle 0 []) "x" [4; 5]%Z default_compression
                      Examples.w_store_open).2 !! f = fs Examples.w_store_open !! f) ∧
    handles (save_h5 (Build_group_handle 0 []) "x" [4; 5]%Z default_compression
                     Examples.w_store_open).2 = handles Examples.w_store_open.
Proof.
  apply (save_h5_frame Examples.w_store_open _ (Build_group_handle 0 [])
           (Build_group_handle 0 ["x"]) "x" [4; 5]%Z default_compression).
  vm_compute. reflexivity.
Defined.

(** After a [save_h5] through a file object the keys of the root are
    link names still: a name with slashes adds at most its first
    component. *)
Lemma save_h5_names_ok (w w' : world) (h : group_handle) (p : path)
    (root : gmap string node) (col : string) (data : array)
    (compression : option codec) (r : group_handle) :
  open_file w h p root → names_ok root = true →
  save_h5 h col data compression w = (Ok r, w') →
  ∃ root', stat (fs w') p = inr (H5File root') ∧ names_ok root' = true.
Proof.
  intros (Hh & Hroot & Hs) Hnames
    (p0 & root0 & root' & made & Hlive & -> & _ & Hyes & Hfr & _)%save_h5_effect.
  assert (live w h p true root) as Hlive' by (split; [done|by apply stat_lookup]).
  destruct (live_det _ _ _ _ _ _ _ _ Hlive Hlive') as (-> & _ & ->).
  exists root'. split; [cbn; by eapply stat_with_root|].
  assert (locate h col = Names.segments col) as Hloc.
  { unfold locate, start. rewrite Hroot. by destruct (Names.absolute col). }
  rewrite Hloc in Hyes, Hfr.
  apply names_ok_iff. intros k Hk.
  pose proof (segments_link_names col) as Hseg.
  destruct (Names.segments col) as [|k0 rest] eqn:Hcol; [done|].
  destruct (decide (k = k0)) as [->|Hne]; [by apply Forall_inv in Hseg|].
  apply (names_ok_lookup root); [done|].
  assert (lookup_at [k] root' = lookup_at [k] root) as Hsame.
  { apply Hfr. split; intros [t Ht]; by simplify_eq/=. }
  simpl in Hsame. destruct Hk as [n Hn]. rewrite Hn in Hsame.
  destruct (root !! k) as [n'|]; [done|]. by destruct n.
Qed.

(** C5 fails for a name with a slash: [save_h5] writes the dataset below
    a group, and [open_hdf5], which looks for the name among the keys of
    the root, reports it missing. *)
Lemma save_h5_open_hdf5_roundtrip_counterexample :
  open_file Examples.w_store_open (Build_group_handle 0 []) ["data"; "store.h5"]
            Examples.store ∧
  (save_h5 (Build_group_handle 0 []) "g/x" [1; 2; 3]%Z default_compression
           Examples.w_store_open).1 = Ok (Build_group_handle 0 ["g"; "x"]) ∧
  ((save_h5 (Build_group_handle 0 []) "g/x" [1; 2; 3]%Z default_compression;;
    open_hdf5 ["data"; "store.h5"] ["g/x"]) Examples.w_store_open).1 =
    Raise (ValueError (KeysNotFound {["g/x"]} ["data"; "store.h5"])) ∧
  ¬ (∀ w h5 file_path root col (A : array) compression,
       open_file w h5 file_path root →
       ∃ w', (save_h5 h5 col A compression;; open_hdf5 file_path [col]) w =
               (Ok {[col := A]}, w')).
Proof.
  split_and!; [by split_and!|vm_compute; reflexivity|vm_compute; reflexivity|].
  intros H.
  destruct (H Examples.w_store_open (Build_group_handle 0 []) ["data"; "store.h5"]
              Examples.store "g/x" [1; 2; 3]%Z default_compression)
    as (w' & Hrun); [by split_and!|].
  apply (f_equal fst) in Hrun. vm_compute in Hrun. discriminate Hrun.
Qed.

(** C5, amended.  Round trip for a key: through a file object open for
    writing on the container at [file_path], [save_h5] under a name
    [col] without a slash of data that [numpy] turns into the array [A],
    with any compression and so with the default [gzip], followed by
    [open_hdf5 file_path col], gives the dictionary that maps [col] to
    [A] and nothing else; an array is given back as it is, and so is a
    list of integers that fit 64 bits signed.  Whatever the name and the
    data, a dictionary that comes back maps [col] to the array [numpy]
    made of the data.  A name that is not a link name, one with a slash
    for instance, is not read back: in a container whose keys are link
    names, after a [save_h5] under such a name that returns, [open_hdf5]
    with the name raises the [ValueError] of a missing key. *)
Theorem save_h5_open_hdf5_roundtrip (w : world) (h5 : group_handle)
    (file_path : path) (root : gmap string node) (col : string) (data : pydata)
    (compression : option codec) :
  open_file w h5 file_path root →
  (∀ m w', (save_h5 h5 col data compression;; open_hdf5 file_path [col]) w = (Ok m, w') →
           ∃ A, asarray data = Some A ∧ m = {[col := A]}) ∧
  (Names.link_name col = true →
   ∀ A, asarray data = Some A →
        ∃ w', (save_h5 h5 col data compression;; open_hdf5 file_path [col]) w =
                (Ok {[col := A]}, w')) ∧
  (Names.link_name col = false → names_ok root = true →
   ∀ r w1, save_h5 h5 col data compression w = (Ok r, w1) →
           open_hdf5 file_path [col] w1 =
             (Raise (ValueError (KeysNotFound {[col]} file_path)),
              after_read w1 file_path [])) ∧
  (∀ A : array, asarray A = Some A) ∧
  (∀ l, forallb fits_int64 l = true → asarray (PyList l) = Some l).
Proof.
  intros Hf. split_and!.
  - intros m w'. rewrite bind_run.
    destruct (save_h5 h5 col data compression w) as [[r|e] w1] eqn:Hsave; [|done].
    destruct (save_h5_Ok_asarray _ _ _ _ _ _ _ Hsave) as [A Ha].
    rewrite (save_h5_asarray _ _ _ A) in Hsave by done.
    apply save_h5_effect in Hsave
      as (p & root0 & root' & made & Hlive & -> & _ & Hyes & _ & _).
    destruct Hf as (Hh & Hroot & Hs).
    assert (live w h5 file_path true root) as Hlive'.
    { split; [done|by apply stat_lookup]. }
    destruct (live_det _ _ _ _ _ _ _ _ Hlive Hlive') as (-> & _ & ->).
    intros (d & Hd & ->)%(open_hdf5_one_inv _ file_path root').
    + exists A. split; [done|].
      unfold locate, start in Hyes. rewrite Hroot in Hyes.
      assert (d = Build_dataset A compression) as ->; [|done].
      destruct (Names.absolute col); simpl in Hyes; congruence.
    + cbn. by eapply stat_with_root.
  - intros Hl A Ha. rewrite bind_run, (save_h5_asarray _ _ _ A), <- bind_run by done.
    by apply (save_then_open w h5 file_path root).
  - intros Hl Hnames r w1 Hsave.
    destruct (save_h5_Ok_asarray _ _ _ _ _ _ _ Hsave) as [A Ha].
    rewrite (save_h5_asarray _ _ _ A) in Hsave by done.
    destruct (save_h5_names_ok _ _ _ _ _ _ _ _ _ Hf Hnames Hsave)
      as (root' & Hs' & Hnames').
    assert (list_to_set [col] ∖ dom root' =@{gset string} {[col]}) as Hmiss.
    { apply set_eq. intros x.
      rewrite elem_of_difference, elem_of_list_to_set, list_elem_of_singleton,
        elem_of_singleton.
      split; [by intros [-> _]|]. intros ->. split; [done|].
      intros Hd%elem_of_dom. apply (names_ok_lookup root') in Hd; [congruence|done]. }
    pose proof (open_hdf5_missing w1 file_path [col] root' Hs') as Hrun.
    cbn [requested] in Hrun. rewrite Hmiss in Hrun. apply Hrun.
    intros E. assert (col ∈ (∅ : gset string)) as []%elem_of_empty.
    rewrite <- E. by apply elem_of_singleton.
  - done.
  - intros l Hl. cbn. by rewrite Hl.
Qed.

Lemma save_h5_open_hdf5_roundtrip_witness :
  (∀ m w', (save_h5 (Build_group_handle 0 []) "z" (PyList [10; 20; 30]%Z)
                    default_compression;;
            open_hdf5 ["data"; "store.h5"] ["z"]) Examples.w_store_open = (Ok m, w') →
           ∃ A, asarray (PyList [10; 20; 30]%Z) = Some A ∧ m = {["z" := A]}) ∧
  (∃ w', (save_h5 (Build_group_handle 0 []) "z" (PyList [10; 20; 30]%Z)
                  default_compression;;
          open_hdf5 ["data"; "store.h5"] ["z"]) Examples.w_store_open =
           (Ok {["z" := [10; 20; 30]%Z]}, w')) ∧
  asarray (PyList [10; 20; 30]%Z) = Some [10; 20; 30]%Z ∧
  open_hdf5 ["data"; "store.h5"] ["g/z"]
    (save_h5 (Build_group_handle 0 []) "g/z" (PyList [10; 20; 30]%Z)
             default_compression Examples.w_store_open).2 =
    (Raise (ValueError (KeysNotFound {["g/z"]} ["data"; "store.h5"])),
     after_read
       (save_h5 (Build_group_handle 0 []) "g/z" (PyList [10; 20; 30]%Z)
                default_compression Examples.w_store_open).2
       ["data"; "store.h5"] []).
Proof.
  destruct (save_h5_open_hdf5_roundtrip Examples.w_store_open (Build_group_handle 0 [])
              ["data"; "store.h5"] Examples.store "z" (PyList [10; 20; 30]%Z)
              default_compression) as (Hvalue & Hreturns & _ & _ & Hlist).
  - split_and!; reflexivity.
  - split_and!; [exact Hvalue| | |].
    + apply Hreturns; reflexivity.
    + apply Hlist. reflexivity.
    + destruct (save_h5_open_hdf5_roundtrip Examples.w_store_open
                  (Build_group_handle 0 []) ["data"; "store.h5"] Examples.store "g/z"
                  (PyList [10; 20; 30]%Z) default_compression)
        as (_ & _ & Hnested & _); [split_and!; reflexivity|].
      apply (Hnested eq_refl eq_refl (Build_group_handle 0 ["g"; "z"])).
      vm_compute. reflexivity.
Defined.

Section Resolve.
Implicit Types (w : world) (h : group_handle) (p file : path)
  (root : gmap string node) (name method : string).

(** A [make_h5] that returns has opened the container that was there, or
    made an empty one where nothing was. *)
Lemma make_h5_Ok file w h w0 :
  make_h5 file w = (Ok h, w0) →
  ∃ m root0,
    h = Build_group_handle (List.length (handles w)) [] ∧
    hosts (fs w) file root0 ∧
    (∀ root, stat (fs w) file = inr (H5File root) → free_for_writing w file) ∧
    fs w0 = <[file := H5File root0]> (fs w) ∧
    handles w0 = handles w ++ [Some (Build_file_handle file true)] ∧
    events w0 = events w ++ [EvOpen file m (List.length (handles w))] ∧
    stat (fs w0) file = inr (H5File root0).
Proof.
  unfold make_h5. rewrite bind_run, Path_exists_run. unfold exists_, File.
  rewrite bind_run. unfold get.
  destruct (stat (fs w) file) as [e|[|root| |]] eqn:Hs; try done.
  - destruct e; try done. unfold create. rewrite bind_run. unfold get.
    destruct file as [|a l] eqn:Hfile; [done|]. rewrite <- Hfile in *.
    destruct (walk (fs w) [] (parent file)) eqn:Hw; [done|].
    intros [= <- <-]. exists mode_w, ∅.
    assert (creatable (fs w) file) as Hc.
    { split_and!; [by subst|done|]. unfold stat in Hs. subst file.
      rewrite Hw in Hs. by destruct (fs w !! (a :: l)). }
    split_and!; try done; [right; split; [by left|done]|]. by apply stat_created.
  - unfold free_for_writing.
    destruct (open_ro (handles w) file) eqn:Hro; [done|].
    intros [= <- <-]. exists mode_a, root.
    split_and!; try done; [by left|].
    cbn. symmetry. by apply insert_id, stat_lookup.
  - unfold create. rewrite bind_run. unfold get.
    destruct file as [|a l] eqn:Hfile; [done|]. rewrite <- Hfile in *.
    destruct (stat_walk_parent _ _ _ Hs) as [Hw _]; [by subst|]. rewrite Hw.
    intros [= <- <-]. exists mode_a, ∅.
    split_and!; try done; [right; split; [by right|done]|].
    cbn. by eapply stat_replaced.
Qed.

Lemma require_group_existing w h p wr root name g0 :
  live w h p wr root → String.eqb name "" = false →
  lookup_at (locate h name) root = Some (Group g0) →
  require_group h name w = (Ok (Build_group_handle (gh_file h) (locate h name)), w).
Proof.
  intros Hlive Hne Hl. unfold require_group.
  rewrite bind_run, (contains_live _ _ _ _ _ _ Hlive Hne), Hl.
  rewrite bool_decide_true by done. cbn [negb].
  destruct Hlive as [Hh Hp]. unfold getitem, the_file, the_root. mrun.
  rewrite Hh. cbn [fh_path]. by rewrite Hp, Hl.
Qed.

(** A [get_h5_object] that returns: what it has done, and what a second
    call does. *)
Lemma get_h5_object_Ok file method w g1 w1 :
  free_for_writing w file →
  get_h5_object file method w = (Ok g1, w1) →
  ∃ m evs root0 root1 grp g2 w2,
    hosts (fs w) file root0 ∧
    events w1 = events w ++ EvOpen file m (gh_file g1) :: evs ∧
    fs w1 = <[file := H5File root1]> (fs w) ∧
    gh_path g1 = Names.segments method ∧
    lookup_at (gh_path g1) root1 = Some (Group grp) ∧
    (∀ q, apart (gh_path g1) q → lookup_at q root1 = lookup_at q root0) ∧
    (root1 = root0 ∨ lookup_at (gh_path g1) root0 = None) ∧
    get_h5_object file method w1 = (Ok g2, w2) ∧
    fs w2 = fs w1 ∧
    gh_path g2 = gh_path g1 ∧
    handles w2 !! gh_file g1 = Some (Some (Build_file_handle file true)) ∧
    handles w2 !! gh_file g2 = Some (Some (Build_file_handle file true)).
Proof.
  intros Hfree. unfold get_h5_object at 1. rewrite bind_run.
  destruct (make_h5 file w) as [[h|e] w0] eqn:Hopen; [|done].
  apply make_h5_Ok in Hopen as (m & root0 & -> & Hhost & _ & Hfs0 & Hh0 & Hev0 & Hs0).
  set (n := List.length (handles w)) in *.
  set (h := Build_group_handle n []).
  assert (live w0 h file true root0) as Hlive0.
  { split; [|by apply stat_lookup]. cbn. rewrite Hh0. by apply list_lookup_middle. }
  assert (locate h method = Names.segments method) as Hloc.
  { unfold locate, start. by destruct (Names.absolute method). }
  intros (-> & Hne & p & wr & root & Hlive & Hcase)%require_group_Ok.
  destruct (live_det _ _ _ _ _ _ _ _ Hlive Hlive0) as (-> & -> & ->).
  cbn [gh_file gh_path]. rewrite Hloc in *.
  (* the state and the tree after the first call *)
  assert (∃ root1 grp evs,
            fs w1 = <[file := H5File root1]> (fs w) ∧
            handles w1 = handles w ++ [Some (Build_file_handle file true)] ∧
            events w1 = events w ++ EvOpen file m n :: evs ∧
            stat (fs w1) file = inr (H5File root1) ∧
            lookup_at (Names.segments method) root1 = Some (Group grp) ∧
            (∀ q, apart (Names.segments method) q →
                  lookup_at q root1 = lookup_at q root0) ∧
            (root1 = root0 ∨ lookup_at (Names.segments method) root0 = None))
    as (root1 & grp & evs & Hfs1 & Hh1 & Hev1 & Hs1 & Hgrp & Hfr & Hnew).
  { destruct Hcase as [[-> (g0 & Hg0)]|(_ & root' & Hal & ->)].
    - exists root0, g0, []. split_and!; try done. by left.
    - unfold start in Hal. replace (if Names.absolute method then [] else gh_path h)
        with (@nil string) in Hal by (by destruct (Names.absolute method)).
      destruct (alter_link_lookup _ _ _ _ _ Hal) as [Hnone Hyes].
      specialize (Hyes []). rewrite app_nil_r in Hyes. cbn [app] in *.
      exists root', ∅, [EvCreateGroup file (Names.segments method)].
      split_and!; try done.
      + cbn. by rewrite Hfs0, insert_insert_eq.
      + cbn. by rewrite Hev0, <- (assoc_L (++)).
      + cbn. by eapply stat_with_root.
      + intros q. by apply (alter_link_frame _ _ _ _ _ _ Hal).
      + by right. }
  (* the second call *)
  set (n2 := List.length (handles w1)).
  set (h2 := Build_group_handle n2 []).
  assert (free_for_writing w1 file) as Hfree1.
  { unfold free_for_writing. by rewrite Hh1, open_ro_opened. }
  pose proof (make_h5_existing w1 file root1 Hs1 Hfree1) as Hopen2. fold n2 h2 in Hopen2.
  assert (live (opened w1 file mode_a true) h2 file true root1) as Hlive2.
  { split; [by apply list_lookup_middle|by apply stat_lookup]. }
  assert (locate h2 method = Names.segments method) as Hloc2.
  { unfold locate, start. by destruct (Names.absolute method). }
  pose proof (require_group_existing _ h2 _ _ _ method grp Hlive2 Hne) as Hreq2.
  rewrite Hloc2 in Hreq2. specialize (Hreq2 Hgrp).
  exists m, evs, root0, root1, grp,
    (Build_group_handle n2 (Names.segments method)), (opened w1 file mode_a true).
  split_and!; try done.
  - unfold get_h5_object. by rewrite bind_run, Hopen2.
  - cbn [opened handles]. rewrite Hh1, <- (assoc_L (++)). by apply list_lookup_middle.
  - cbn [gh_file opened handles]. by apply list_lookup_middle.
Qed.

End Resolve.

(** C9. [get_h5_object] takes the path of the file.  While no file
    object has the file open read-only: a call that returns has first
    opened the container file, which it created when nothing was at the
    path or made of an empty file, and hands back the group [method] leads
    to under the root, which it made when nothing was there, leaving alone
    whatever is apart from it; a second call with the same path and name
    changes nothing in the file and hands back the same group of the same
    file.  On a path that holds a container or an empty file or is free,
    with a key [method] that is not a dataset, the call does return. *)
Theorem get_h5_object_resolves (w : world) (file : path) (method : string) :
  free_for_writing w file →
  (∀ g1 w1,
     get_h5_object file method w = (Ok g1, w1) →
     ∃ m evs root0 root1 grp g2 w2,
       hosts (fs w) file root0 ∧
       events w1 = events w ++ EvOpen file m (gh_file g1) :: evs ∧
       fs w1 = <[file := H5File root1]> (fs w) ∧
       gh_path g1 = Names.segments method ∧
       lookup_at (gh_path g1) root1 = Some (Group grp) ∧
       (∀ q, apart (gh_path g1) q → lookup_at q root1 = lookup_at q root0) ∧
       (root1 = root0 ∨ lookup_at (gh_path g1) root0 = None) ∧
       get_h5_object file method w1 = (Ok g2, w2) ∧
       fs w2 = fs w1 ∧
       gh_path g2 = gh_path g1 ∧
       handles w2 !! gh_file g1 = Some (Some (Build_file_handle file true)) ∧
       handles w2 !! gh_file g2 = Some (Some (Build_file_handle file true))) ∧
  (∀ root,
     Names.link_name method = true →
     hosts (fs w) file root →
     (∀ d, root !! method ≠ Some (Dataset d)) →
     ∃ g1 w1,
       get_h5_object file method w = (Ok g1, w1) ∧
       gh_path g1 = [method] ∧
       fs w1 = <[file := H5File (with_group root method)]> (fs w)).
Proof.
  intros Hfree. split.
  - intros g1 w1. by apply get_h5_object_Ok.
  - intros root Hl Hhost Hnd.
    destruct (get_h5_object_key w file method root Hl Hhost Hfree Hnd)
      as (g1 & w1 & g2 & w2 & m & evs & grp & Hrun & _ & Hfs & _ & _ & _ & _ & Hp & _).
    by exists g1, w1.
Qed.

Lemma get_h5_object_resolves_witness :
  ∃ g1 w1,
    get_h5_object ["data"; "store.h5"] "pca" Examples.w_store = (Ok g1, w1) ∧
    gh_path g1 = ["pca"] ∧
    fs w1 = <[["data"; "store.h5"] := H5File (with_group Examples.store "pca")]>
              (fs Examples.w_store) ∧
    ∃ m evs root0 root1 grp g2 w2,
      hosts (fs Examples.w_store) ["data"; "store.h5"] root0 ∧
      events w1 = events Examples.w_store ++
                  EvOpen ["data"; "store.h5"] m (gh_file g1) :: evs ∧
      fs w1 = <[["data"; "store.h5"] := H5File root1]> (fs Examples.w_store) ∧
      gh_path g1 = Names.segments "pca" ∧
      lookup_at (gh_path g1) root1 = Some (Group grp) ∧
      (∀ q, apart (gh_path g1) q → lookup_at q root1 = lookup_at q root0) ∧
      (root1 = root0 ∨ lookup_at (gh_path g1) root0 = None) ∧
      get_h5_object ["data"; "store.h5"] "pca" w1 = (Ok g2, w2) ∧
      fs w2 = fs w1 ∧
      gh_path g2 = gh_path g1 ∧
      handles w2 !! gh_file g1 =
        Some (Some (Build_file_handle ["data"; "store.h5"] true)) ∧
      handles w2 !! gh_file g2 =
        Some (Some (Build_file_handle ["data"; "store.h5"] true)).
Proof.
  destruct (proj2 (get_h5_object_resolves Examples.w_store ["data"; "store.h5"] "pca"
                     eq_refl)
              Examples.store) as (g1 & w1 & Hrun & Hpath & Hfs).
  - reflexivity.
  - left. reflexivity.
  - intros d. discriminate.
  - exists g1, w1. split_and!; [exact Hrun|exact Hpath|exact Hfs|].
    exact (proj1 (get_h5_object_resolves Examples.w_store ["data"; "store.h5"] "pca"
                    eq_refl)
             g1 w1 Hrun).
Defined.

(** * Further properties *)

(** ** [make_dir]: what stands in its way, and what it leaves alone *)

Section MakeDirMore.
Implicit Types (fs : gmap path entry) (p q l d : path) (k : string)
  (rp : list string) (w : world).

Lemma walk_app fs cur l1 l2 :
  walk fs cur (l1 ++ l2) =
    match walk fs cur l1 with
    | Some e => Some e
    | None => walk fs (cur ++ l1) l2
    end.
Proof.
  revert cur. induction l1 as [|a l1 IH]; intros cur; simpl.
  - by rewrite (right_id_L [] (++)).
  - destruct (fs !! (cur ++ [a])) as [[]|]; try done.
    by rewrite IH, <- (assoc_L (++) cur [a]).
Qed.

(** A file is not a directory, and nothing is below it. *)
Lemma walk_through_a_file fs q x more :
  stat fs q = inr x → x ≠ Dir → walk fs [] (q ++ more) = Some ENOTDIR.
Proof.
  intros Hs Hx. destruct q as [|k l _] using rev_ind.
  - by injection Hs as <-.
  - rewrite stat_snoc in Hs. rewrite walk_app, walk_snoc.
    destruct (walk fs [] l); [done|]. simpl.
    destruct (fs !! (l ++ [k])) as [[]|]; by simplify_eq.
Qed.

Lemma mkdir_parents_adds rp exist_ok w r w' :
  mkdir_parents exist_ok rp w = (r, w') →
  handles w' = handles w ∧ events w' = events w ∧
  ∀ q, fs w' !! q = fs w !! q ∨
       (q `prefix_of` rev rp ∧ q ≠ [] ∧ fs w !! q = None ∧ fs w' !! q = Some Dir).
Proof.
  assert (∀ exist_ok p e w r w', settle exist_ok p e w = (r, w') → w' = w) as Hsettle.
  { intros ? ? ? ? ? ?. rewrite settle_eq. by destruct (_ || _); intros [= _ <-]. }
  revert exist_ok w r w'. induction rp as [|k rp IH]; intros exist_ok w r w'.
  - rewrite mkdir_parents_nil. intros ->%Hsettle. split_and!; [done|done|by left].
  - rewrite mkdir_parents_cons. cbn [rev].
    assert (rev rp ++ [k] ≠ []) as Hne by (by destruct (rev rp)).
    assert (fs w !! (rev rp ++ [k]) = None →
            (Ok tt, Build_world (<[rev rp ++ [k] := Dir]> (fs w)) (handles w) (events w))
              = (r, w') →
            handles w' = handles w ∧ events w' = events w ∧
            ∀ q, fs w' !! q = fs w !! q ∨
                 (q `prefix_of` rev rp ++ [k] ∧ q ≠ [] ∧ fs w !! q = None ∧
                  fs w' !! q = Some Dir)) as Hmade.
    { intros Hk [= <- <-]. split_and!; [done|done|]. intros q. cbn.
      destruct (decide (q = rev rp ++ [k])) as [->|Hq].
      - right. by rewrite lookup_insert_eq.
      - left. by rewrite lookup_insert_ne. }
    destruct (walk (fs w) [] (rev rp)) as [[]|] eqn:Hw;
      try (by intros ->%Hsettle; split_and!; [done|done|by left]).
    + destruct (mkdir_parents true rp w) as [[[]|e] w1] eqn:Hrun.
      * destruct (IH _ _ _ _ Hrun) as (Hh & He & Hfr).
        rewrite mkdir_flat_snoc.
        assert (∀ q, fs w1 !! q = fs w !! q ∨
                     (q `prefix_of` rev rp ++ [k] ∧ q ≠ [] ∧ fs w !! q = None ∧
                      fs w1 !! q = Some Dir)) as Hfr'.
        { intros q. destruct (Hfr q) as [?|(?&?&?&?)]; [by left|right].
          split_and!; try done. by apply prefix_app_r. }
        destruct (walk (fs w1) [] (rev rp)) as [[]|];
          try (by intros ->%Hsettle); try (by intros [= _ <-]).
        destruct (fs w1 !! (rev rp ++ [k])) eqn:Hk; [by intros ->%Hsettle|].
        intros [= <- <-]. cbn. split_and!; [done|done|]. intros q.
        destruct (decide (q = rev rp ++ [k])) as [->|Hq].
        -- right. rewrite lookup_insert_eq. split_and!; try done.
           destruct (Hfr (rev rp ++ [k])) as [<-|(_&_&_&?)]; [done|congruence].
        -- rewrite lookup_insert_ne by done. apply Hfr'.
      * intros [= <- <-]. destruct (IH _ _ _ _ Hrun) as (Hh & He & Hfr).
        split_and!; [done|done|]. intros q.
        destruct (Hfr q) as [?|(?&?&?&?)]; [by left|right].
        split_and!; try done. by apply prefix_app_r.
    + destruct (fs w !! (rev rp ++ [k])) eqn:Hk.
      * intros ->%Hsettle. split_and!; [done|done|by left].
      * by apply Hmade.
Qed.

End MakeDirMore.

(** X1. A file in the way: when [q], a prefix of [d], is an entry that is
    not a directory, [make_dir d] raises [FileExistsError] if [q] is [d]
    itself and [NotADirectoryError] if [q] is above [d], and it makes
    nothing. *)
Theorem make_dir_blocked (d q : path) (x : entry) (w : world) :
  q `prefix_of` d →
  stat (fs w) q = inr x →
  x ≠ Dir →
  make_dir d w =
    (Raise (OSError (if bool_decide (q = d) then EEXIST else ENOTDIR) d), w).
Proof.
  intros [rest ->] Hs Hx. unfold make_dir, Path_mkdir.
  assert (is_dir (fs w) (q ++ rest) = false) as Hnd.
  { apply not_true_is_false. rewrite is_dir_walk.
    by rewrite (walk_through_a_file _ _ x). }
  destruct rest as [|k rest _] using rev_ind.
  - rewrite (right_id_L [] (++)) in *. rewrite bool_decide_eq_true_2 by done.
    destruct q as [|k l _] using rev_ind; [by injection Hs as <-|].
    rewrite stat_snoc in Hs. rewrite rev_unit, mkdir_parents_cons, rev_involutive.
    destruct (walk (fs w) [] l); [done|].
    destruct (fs w !! (l ++ [k])); [|done].
    by rewrite settle_eq, Hnd.
  - rewrite bool_decide_eq_false_2.
    2:{ intros E. apply (f_equal List.length) in E. rewrite !length_app in E.
        simpl in E. lia. }
    rewrite (assoc_L (++)) in *.
    rewrite rev_unit, mkdir_parents_cons, rev_involutive.
    rewrite (walk_through_a_file _ _ x) by done.
    by rewrite settle_eq, Hnd.
Qed.

Lemma make_dir_blocked_witness :
  make_dir ["d"; "a.txt"] Examples.w_abc =
    (Raise (OSError EEXIST ["d"; "a.txt"]), Examples.w_abc) ∧
  make_dir ["d"; "a.txt"; "sub"; "deep"] Examples.w_abc =
    (Raise (OSError ENOTDIR ["d"; "a.txt"; "sub"; "deep"]), Examples.w_abc).
Proof.
  split.
  - apply (make_dir_blocked ["d"; "a.txt"] ["d"; "a.txt"] OtherFile Examples.w_abc);
      [by exists []|reflexivity|discriminate].
  - apply (make_dir_blocked ["d"; "a.txt"; "sub"; "deep"] ["d"; "a.txt"] OtherFile
             Examples.w_abc);
      [by exists ["sub"; "deep"]|reflexivity|discriminate].
Defined.

(** X2. However it ends, [make_dir d] only adds directories on the way to
    [d]: every entry that was there is still there, unchanged; an entry
    that is new is a directory at a prefix of [d]; no file object and no
    record of the library is touched.  And when it returns, [d] is a
    directory. *)
Theorem make_dir_only_adds_directories (d : path) (w w' : world) (r : result unit) :
  make_dir d w = (r, w') →
  handles w' = handles w ∧
  events w' = events w ∧
  (∀ q x, fs w !! q = Some x → fs w' !! q = Some x) ∧
  (∀ q, fs w !! q = None → is_Some (fs w' !! q) →
        fs w' !! q = Some Dir ∧ q `prefix_of` d ∧ q ≠ []) ∧
  (r = Ok tt → is_dir (fs w') d = true).
Proof.
  unfold make_dir, Path_mkdir. intros Hrun.
  destruct (mkdir_parents_adds _ _ _ _ _ Hrun) as (Hh & He & Hfr).
  rewrite rev_involutive in Hfr. split_and!; [done|done| | |].
  - intros q x Hq. destruct (Hfr q) as [->|(_&_&?&_)]; [done|congruence].
  - intros q Hq [y Hy]. destruct (Hfr q) as [E|(?&?&?&?)]; [congruence|done].
  - intros ->. apply is_dir_walk. rewrite <- (rev_involutive d).
    by eapply mkdir_parents_is_dir.
Qed.

Lemma make_dir_only_adds_directories_witness :
  handles (make_dir ["data"; "raw"; "2024"] Examples.w_data).2 =
    handles Examples.w_data ∧
  events (make_dir ["data"; "raw"; "2024"] Examples.w_data).2 =
    events Examples.w_data ∧
  (∀ q x, fs Examples.w_data !! q = Some x →
          fs (make_dir ["data"; "raw"; "2024"] Examples.w_data).2 !! q = Some x) ∧
  (∀ q, fs Examples.w_data !! q = None →
        is_Some (fs (make_dir ["data"; "raw"; "2024"] Examples.w_data).2 !! q) →
        fs (make_dir ["data"; "raw"; "2024"] Examples.w_data).2 !! q = Some Dir ∧
        q `prefix_of` ["data"; "raw"; "2024"] ∧ q ≠ []) ∧
  (Ok tt = Ok tt →
   is_dir (fs (make_dir ["data"; "raw"; "2024"] Examples.w_data).2)
          ["data"; "raw"; "2024"] = true).
Proof.
  apply (make_dir_only_adds_directories ["data"; "raw"; "2024"] Examples.w_data
           (make_dir ["data"; "raw"; "2024"] Examples.w_data).2 (Ok tt)).
  vm_compute. reflexivity.
Defined.

(** ** [make_h5]: when it fails, and after [make_dir] *)

(** X3. [make_h5] returns exactly when the path holds a container file
    that no file object has open read-only, or an empty file, or is free
    below a directory that exists.  Otherwise it raises an [OSError] and
    changes nothing, so that no file is made and no file object is handed
    out: the error of a directory, the error of a file that is neither a
    container nor empty, the error of a container that is open read-only,
    and the error of the path itself ([FileNotFoundError],
    [NotADirectoryError]) when the directory above is not there. *)
Theorem make_h5_fails_cleanly (w : world) (file : path) :
  ((∃ h w', make_h5 file w = (Ok h, w')) ↔
   ∃ root, hosts (fs w) file root ∧
           (stat (fs w) file = inr (H5File root) → free_for_writing w file)) ∧
  (∀ e w', make_h5 file w = (Raise e, w') →
     w' = w ∧
     e = OSError (match stat (fs w) file with
                  | inl err => err
                  | inr Dir => EISDIR
                  | inr (H5File _) => EBUSY
                  | inr _ => ENOTHDF5
                  end) file).
Proof.
  split; [split|].
  - intros (h & w' & (m & root0 & _ & Hhost & Hfree & _)%make_h5_Ok).
    exists root0. split; [done|]. apply Hfree.
  - intros (root & [Hs|[[Hc|Hs] ->]] & Hfree); eexists _, _.
    + apply (make_h5_existing w file root); [done|by apply Hfree].
    + by apply make_h5_creatable.
    + by apply make_h5_empty.
  - intros e w'. unfold make_h5. rewrite bind_run, Path_exists_run.
    unfold exists_, File. rewrite bind_run. unfold get.
    destruct (stat (fs w) file) as [err|[|root| |]] eqn:Hs.
    + destruct err; try (by intros [= <- <-]).
      unfold create. rewrite bind_run. unfold get.
      destruct file as [|k l _] using rev_ind; [done|].
      rewrite stat_snoc in Hs.
      destruct (l ++ [k]) eqn:E; [by destruct l|]. rewrite <- E. rewrite parent_snoc.
      destruct (walk (fs w) [] l); [|done].
      injection Hs as ->. by intros [= <- <-].
    + by intros [= <- <-].
    + destruct (open_ro (handles w) file); [|done]. by intros [= <- <-].
    + by intros [= <- <-].
    + unfold create. rewrite bind_run. unfold get.
      destruct file as [|a l] eqn:Hfile; [done|]. rewrite <- Hfile in *.
      destruct (stat_walk_parent _ _ _ Hs) as [Hw _]; [by subst|]. by rewrite Hw.
Qed.

Lemma make_h5_fails_cleanly_witness :
  (∃ h w', make_h5 ["data"; "new.h5"] Examples.w_data = (Ok h, w')) ∧
  (∃ h w', make_h5 ["data"; "new.h5"] Examples.w_touched = (Ok h, w')) ∧
  (∃ h w', make_h5 ["data"; "store.h5"] Examples.w_store = (Ok h, w')) ∧
  (Examples.w_abc = Examples.w_abc ∧
   OSError ENOTHDF5 ["d"; "a.txt"] =
     OSError (match stat (fs Examples.w_abc) ["d"; "a.txt"] with
              | inl err => err
              | inr Dir => EISDIR
              | inr (H5File _) => EBUSY
              | inr _ => ENOTHDF5
              end) ["d"; "a.txt"]) ∧
  (Examples.w_store_reading = Examples.w_store_reading ∧
   OSError EBUSY ["data"; "store.h5"] =
     OSError (match stat (fs Examples.w_store_reading) ["data"; "store.h5"] with
              | inl err => err
              | inr Dir => EISDIR
              | inr (H5File _) => EBUSY
              | inr _ => ENOTHDF5
              end) ["data"; "store.h5"]) ∧
  (Examples.w_data = Examples.w_data ∧
   OSError ENOENT ["nowhere"; "new.h5"] =
     OSError (match stat (fs Examples.w_data) ["nowhere"; "new.h5"] with
              | inl err => err
              | inr Dir => EISDIR
              | inr (H5File _) => EBUSY
              | inr _ => ENOTHDF5
              end) ["nowhere"; "new.h5"]).
Proof.
  split; [|split; [|split; [|split; [|split]]]].
  - apply (proj1 (make_h5_fails_cleanly Examples.w_data ["data"; "new.h5"])).
    exists ∅. split; [|discriminate]. right. split; [left|done].
    split_and!; [done|reflexivity|reflexivity].
  - apply (proj1 (make_h5_fails_cleanly Examples.w_touched ["data"; "new.h5"])).
    exists ∅. split; [|discriminate]. right. split; [right; reflexivity|done].
  - apply (proj1 (make_h5_fails_cleanly Examples.w_store ["data"; "store.h5"])).
    exists Examples.store. split; [by left|reflexivity].
  - apply (proj2 (make_h5_fails_cleanly Examples.w_abc ["d"; "a.txt"])
                 (OSError ENOTHDF5 ["d"; "a.txt"]) Examples.w_abc).
    reflexivity.
  - apply (proj2 (make_h5_fails_cleanly Examples.w_store_reading ["data"; "store.h5"])
                 (OSError EBUSY ["data"; "store.h5"]) Examples.w_store_reading).
    reflexivity.
  - apply (proj2 (make_h5_fails_cleanly Examples.w_data ["nowhere"; "new.h5"])
                 (OSError ENOENT ["nowhere"; "new.h5"]) Examples.w_data).
    reflexivity.
Defined.

(** X4. [make_h5] makes no directory: below a directory that is not
    there it raises [FileNotFoundError].  After [make_dir] of the
    directory it creates the container, empty and open for writing, and
    what was in the file system is still there. *)
Theorem make_dir_then_make_h5 (d : path) (name : string) (w : world) :
  way_clear (fs w) d →
  fs w !! (d ++ [name]) = None →
  (is_dir (fs w) d = false →
   make_h5 (d ++ [name]) w = (Raise (OSError ENOENT (d ++ [name])), w)) ∧
  ∃ h w',
    (make_dir d;; make_h5 (d ++ [name])) w = (Ok h, w') ∧
    stat (fs w') (d ++ [name]) = inr (H5File ∅) ∧
    handles w' !! gh_file h = Some (Some (Build_file_handle (d ++ [name]) true)) ∧
    gh_path h = [] ∧
    is_dir (fs w') d = true ∧
    ∀ q x, fs w !! q = Some x → fs w' !! q = Some x.
Proof.
  intros Hc Hfree. split.
  - intros Hd.
    assert (walk (fs w) [] d = Some ENOENT) as Hw.
    { destruct (walk (fs w) [] d) as [e|] eqn:Hw.
      - destruct (walk_error _ _ _ _ Hw) as [-> | ->]; [done|].
        apply walk_ENOTDIR in Hw as (q & x & Hq & Hne & Hx & Hnd).
        destruct (Hc q Hq Hne); simpl in *; congruence.
      - apply is_dir_walk in Hw. congruence. }
    unfold make_h5. rewrite bind_run, Path_exists_run.
    unfold exists_, File. rewrite bind_run. unfold get.
    rewrite stat_snoc, Hw. unfold create. rewrite bind_run. unfold get.
    destruct (d ++ [name]) eqn:E; [by destruct d|]. rewrite <- E.
    by rewrite parent_snoc, Hw.
  - rewrite <- (rev_involutive d) in Hc.
    destruct (mkdir_parents_clear _ _ Hc) as (fs' & Hrun & Hw & Hfr).
    rewrite rev_involutive in Hw, Hfr.
    assert (fs' !! (d ++ [name]) = None) as Hfree'.
    { destruct (Hfr (d ++ [name])) as [->|(Hpre%prefix_length & _)]; [done|].
      rewrite length_app in Hpre. simpl in Hpre. lia. }
    assert (creatable fs' (d ++ [name])) as Hcr.
    { split_and!; [by destruct d|by rewrite parent_snoc|done]. }
    rewrite bind_run. unfold make_dir, Path_mkdir. rewrite Hrun.
    rewrite make_h5_creatable by done. eexists _, _. split; [done|].
    cbn [fs handles events opened gh_file gh_path]. split_and!.
    + by apply stat_created.
    + by apply list_lookup_middle.
    + done.
    + apply is_dir_walk. rewrite walk_insert_ne; [done|].
      intros q Hq%prefix_length _ E. simpl in E. subst q.
      rewrite length_app in Hq. simpl in Hq. lia.
    + intros q x Hq.
      assert (fs' !! q = Some x) as Hq'.
      { destruct (Hfr q) as [->|(_&_&?&_)]; [done|congruence]. }
      rewrite lookup_insert_ne; [done|]. intros <-. congruence.
Qed.

Lemma make_dir_then_make_h5_witness :
  (is_dir Examples.fs_data ["data"; "runs"] = false →
   make_h5 ["data"; "runs"; "pca.h5"] Examples.w_data =
     (Raise (OSError ENOENT ["data"; "runs"; "pca.h5"]), Examples.w_data)) ∧
  ∃ h w',
    (make_dir ["data"; "runs"];; make_h5 (["data"; "runs"] ++ ["pca.h5"]))
      Examples.w_data = (Ok h, w') ∧
    stat (fs w') (["data"; "runs"] ++ ["pca.h5"]) = inr (H5File ∅) ∧
    handles w' !! gh_file h =
      Some (Some (Build_file_handle (["data"; "runs"] ++ ["pca.h5"]) true)) ∧
    gh_path h = [] ∧
    is_dir (fs w') ["data"; "runs"] = true ∧
    ∀ q x, fs Examples.w_data !! q = Some x → fs w' !! q = Some x.
Proof.
  apply (make_dir_then_make_h5 ["data"; "runs"] "pca.h5" Examples.w_data).
  - intros q _ _. simpl. unfold Examples.fs_data.
    destruct (decide (q = ["data"])) as [->|Hq].
    + right. apply lookup_singleton_eq.
    + left. by apply lookup_singleton_ne.
  - reflexivity.
Defined.

(** ** [open_hdf5]: every way it ends *)

Section ReadMore.
Implicit Types (w : world) (h : group_handle) (p file_path : path)
  (root : gmap string node) (k : string) (keys args : list string).

Lemma live_add_events w h p wr root evs :
  live w h p wr root → live (add_events w evs) h p wr root.
Proof. by intros [? ?]. Qed.

(** The comprehension, whatever the keys: it reads, and does nothing
    else. *)
Lemma read_all_trace w h p wr root keys :
  live w h p wr root → gh_path h = [] →
  ∃ r evs,
    mapM (λ key, obj ← getitem h key; v ← slice_all obj; mret (key, v)) keys w =
      (r, add_events w evs) ∧
    Forall (is_read p) evs.
Proof.
  intros Hlive Hroot. revert w Hlive.
  induction keys as [|k keys IH]; intros w Hlive.
  - exists (Ok []), []. by rewrite add_events_nil.
  - cbn [mapM]. unfold bind at 1.
    rewrite (read_item_root _ _ _ _ _ k Hlive Hroot).
    destruct (lookup_at (Names.segments k) root) as [[d|g']|].
    + destruct (IH _ (live_add_events _ _ _ _ _ [EvRead p (Names.segments k)] Hlive))
        as (r & evs & Hrun & Hevs).
      unfold bind at 1. rewrite Hrun, add_events_add_events.
      destruct r as [kvs|e]; eexists _, _; (split; [reflexivity|]);
        (apply Forall_cons; split; [by eexists|done]).
    + eexists _, []. by rewrite add_events_nil.
    + eexists _, []. by rewrite add_events_nil.
Qed.

(** The comprehension stops at the first group with a [TypeError]. *)
Lemma read_all_TypeError w h p wr root keys :
  open_group w h p wr root root → gh_path h = [] →
  Forall (λ k, Names.link_name k = true ∧ is_Some (root !! k)) keys →
  Exists (λ k, ∃ g', root !! k = Some (Group g')) keys →
  ∃ evs,
    mapM (λ key, obj ← getitem h key; v ← slice_all obj; mret (key, v)) keys w =
      (Raise (TypeError "Accessing a group is done with bytes or str"),
       add_events w evs) ∧
    Forall (is_read p) evs.
Proof.
  intros Ho Hroot Hall. revert w Ho.
  induction Hall as [|k keys [Hl [n Hn]] Hall IH]; intros w Ho Hex.
  - by apply Exists_nil in Hex.
  - cbn [mapM]. unfold bind at 1.
    rewrite (read_item _ _ _ _ _ _ _ _ Ho Hl Hn). destruct n as [d|g'].
    + apply Exists_cons in Hex as [[g' Hg']|Hex]; [congruence|].
      destruct (IH (add_events w [EvRead p (gh_path h ++ [k])]) Ho Hex)
        as (evs & Hrun & Hevs).
      unfold bind at 1. rewrite Hrun. rewrite add_events_add_events.
      eexists. split; [reflexivity|]. apply Forall_cons. split; [by eexists|done].
    + exists []. by rewrite add_events_nil.
Qed.

(** What a dictionary that came back says about the container. *)
Lemma open_hdf5_Ok w p args root m w' :
  stat (fs w) p = inr (H5File root) →
  names_ok root = true →
  open_hdf5 p args w = (Ok m, w') →
  Forall (λ k, Names.link_name k = true ∧ ∃ d, root !! k = Some (Dataset d))
         (requested args root) ∧
  m = dict_of ((λ k, (k, array_in root k)) <$> requested args root).
Proof.
  intros Hs Hnames Hrun.
  destruct (decide (list_to_set (requested args root) ∖ dom root =@{gset string} ∅))
    as [Hm|Hm]; [|by rewrite (open_hdf5_missing _ _ _ _ Hs Hm) in Hrun].
  assert (Forall (λ k, Names.link_name k = true ∧ is_Some (root !! k))
                 (requested args root)) as Hpresent.
  { apply Forall_forall. intros k Hk.
    assert (is_Some (root !! k)) as Hk'.
    { apply elem_of_dom. apply dec_stable. intros Hn.
      assert (k ∈ (∅ : gset string)) as []%elem_of_empty.
      rewrite <- Hm. apply elem_of_difference. by rewrite elem_of_list_to_set. }
    split; [by apply (names_ok_lookup root)|done]. }
  set (P := λ k, from_option is_dataset false (root !! k)).
  destruct (decide (Forall (λ k, P k = true) (requested args root))) as [Hds|Hnot].
  - assert (Forall (λ k, Names.link_name k = true ∧ ∃ d, root !! k = Some (Dataset d))
                   (requested args root)) as Hall.
    { rewrite Forall_forall in Hpresent, Hds. apply Forall_forall. intros k Hk.
      destruct (Hpresent k Hk) as [Hl _]. split; [done|].
      specialize (Hds k Hk). unfold P in Hds.
      destruct (root !! k) as [[d|g']|]; try done. by exists d. }
    rewrite (open_hdf5_datasets _ _ _ _ Hs Hall) in Hrun. by injection Hrun as <- _.
  - apply not_Forall_Exists in Hnot; [|apply _].
    destruct (open_hdf5_group w p args root Hs Hpresent) as (e & evs & Hraise);
      [|congruence].
    apply Exists_exists in Hnot as (k & Hk & Hnd). apply Exists_exists.
    exists k. split; [done|]. rewrite Forall_forall in Hpresent.
    destruct (Hpresent k Hk) as [_ [[d|g'] Hn]]; [|by exists g'].
    destruct Hnd. unfold P. by rewrite Hn.
Qed.

(** No key is missing and one names a group: the [TypeError] of the slice. *)
Lemma open_hdf5_meets_group w file_path args root :
  stat (fs w) file_path = inr (H5File root) →
  Forall (λ k, Names.link_name k = true ∧ is_Some (root !! k)) (requested args root) →
  Exists (λ k, ∃ g', root !! k = Some (Group g')) (requested args root) →
  ∃ evs,
    open_hdf5 file_path args w =
      (Raise (TypeError "Accessing a group is done with bytes or str"),
       after_read w file_path evs) ∧
    Forall (is_read file_path) evs.
Proof.
  intros Hs Hall Hex.
  pose proof (open_group_opened w file_path mode_r (open_rw (handles w) file_path) root
                (stat_lookup _ _ _ Hs))
    as Ho.
  assert (list_to_set (requested args root) ∖ dom root =@{gset string} ∅) as Hm.
  { apply set_eq. intros k'.
    rewrite elem_of_difference, elem_of_list_to_set, elem_of_dom.
    split; [|by intros ?%elem_of_empty]. intros [Hk' Hn]. destruct Hn.
    rewrite Forall_forall in Hall. by destruct (Hall k' Hk'). }
  destruct (read_all_TypeError _ _ file_path _ root _ Ho eq_refl Hall Hex)
    as (evs & Hrun & Hevs).
  exists evs. split; [|done]. unfold open_hdf5.
  erewrite with_File_r; [|done|].
  2:{ rewrite bind_run, (requested_keys _ _ _ _ _ _ Ho).
      rewrite bind_run, (keys_open _ _ _ _ _ _ Ho), keys_to_set, Hm.
      rewrite bool_decide_false by (by intros ?).
      rewrite bind_run, Hrun. reflexivity. }
  by rewrite after_read_eq.
Qed.

End ReadMore.

(** X5. [open_hdf5] writes nothing and leaves nothing open, however it
    ends.  Either no container file is at the path: it raises the
    [OSError] of the open and the state is as before, so it never makes
    the file.  Or one is: then the file system is as before, the file
    object it opened is closed in the state it leaves, and all the
    library did in between is read datasets of that file. *)
Theorem open_hdf5_never_writes (w w' : world) (file_path : path) (args : list string)
    (r : result (gmap string array)) :
  open_hdf5 file_path args w = (r, w') →
  fs w' = fs w ∧
  ((∃ root evs,
      stat (fs w) file_path = inr (H5File root) ∧
      w' = after_read w file_path evs ∧
      Forall (is_read file_path) evs ∧
      handles w' = handles w ++ [None]) ∨
   (w' = w ∧
    r = Raise (OSError (match stat (fs w) file_path with
                        | inl err => err
                        | inr Dir => EISDIR
                        | inr _ => ENOTHDF5
                        end) file_path) ∧
    ∀ root, stat (fs w) file_path ≠ inr (H5File root))).
Proof.
  intros Hrun.
  destruct (stat (fs w) file_path) as [err|[|root| |]] eqn:Hs.
  1,2,4,5: unfold open_hdf5, with_File in Hrun; rewrite bind_run in Hrun;
    unfold File in Hrun; rewrite bind_run in Hrun; unfold get in Hrun;
    rewrite Hs in Hrun; try destruct err; injection Hrun as <- <-;
    (split; [done|right; by split_and!]).
  pose proof (open_group_opened w file_path mode_r (open_rw (handles w) file_path) root
                (stat_lookup _ _ _ Hs))
    as Ho.
  assert (live (opened w file_path mode_r (open_rw (handles w) file_path))
               (Build_group_handle (List.length (handles w)) []) file_path
               (open_rw (handles w) file_path) root)
    as Hlive by (by destruct Ho as (? & ? & ?)).
  assert (∃ evs, w' = after_read w file_path evs ∧ Forall (is_read file_path) evs)
    as (evs & -> & Hevs).
  { unfold open_hdf5 in Hrun. rewrite (with_File_r_run _ _ root) in Hrun by done.
    rewrite bind_run, (requested_keys _ _ _ _ _ _ Ho) in Hrun.
    rewrite bind_run, (keys_open _ _ _ _ _ _ Ho) in Hrun.
    destruct (bool_decide _).
    - injection Hrun as _ <-. exists []. split; [|done].
      by rewrite <- after_read_eq, add_events_nil.
    - rewrite bind_run in Hrun.
      destruct (read_all_trace _ _ _ _ _ (requested args root) Hlive eq_refl)
        as (r0 & evs & Hmap & Hevs).
      rewrite Hmap in Hrun. exists evs. split; [|done].
      rewrite <- after_read_eq. by destruct r0; injection Hrun as _ <-. }
  split; [done|left]. by exists root, evs.
Qed.

Lemma open_hdf5_never_writes_witness :
  fs (open_hdf5 ["data"; "store.h5"] ["x"] Examples.w_store).2 = fs Examples.w_store ∧
  ((∃ root evs,
      stat (fs Examples.w_store) ["data"; "store.h5"] = inr (H5File root) ∧
      (open_hdf5 ["data"; "store.h5"] ["x"] Examples.w_store).2 =
        after_read Examples.w_store ["data"; "store.h5"] evs ∧
      Forall (is_read ["data"; "store.h5"]) evs ∧
      handles (open_hdf5 ["data"; "store.h5"] ["x"] Examples.w_store).2 =
        handles Examples.w_store ++ [None]) ∨
   ((open_hdf5 ["data"; "store.h5"] ["x"] Examples.w_store).2 = Examples.w_store ∧
    (open_hdf5 ["data"; "store.h5"] ["x"] Examples.w_store).1 =
      Raise (OSError (match stat (fs Examples.w_store) ["data"; "store.h5"] with
                      | inl err => err
                      | inr Dir => EISDIR
                      | inr _ => ENOTHDF5
                      end) ["data"; "store.h5"]) ∧
    ∀ root, stat (fs Examples.w_store) ["data"; "store.h5"] ≠ inr (H5File root))).
Proof.
  apply (open_hdf5_never_writes Examples.w_store _ ["data"; "store.h5"] ["x"]).
  vm_compute. reflexivity.
Defined.

(** X6. On a container file whose requested keys are all there, a key
    that names a group makes [open_hdf5] raise a [TypeError]: the slice
    [f[key][:]] is not defined on a group.  In particular, without
    explicit keys, a container with a group at the top level cannot be
    read.  The file object is closed, and only datasets were read. *)
Theorem open_hdf5_group_key (w : world) (file_path : path) (args : list string)
    (root : gmap string node) :
  stat (fs w) file_path = inr (H5File root) →
  names_ok root = true →
  (∀ k, k ∈ requested args root → is_Some (root !! k)) →
  (∃ k g, k ∈ requested args root ∧ root !! k = Some (Group g)) →
  ∃ evs,
    open_hdf5 file_path args w =
      (Raise (TypeError "Accessing a group is done with bytes or str"),
       after_read w file_path evs) ∧
    Forall (is_read file_path) evs.
Proof.
  intros Hs Hnames Hpresent (k & g & Hk & Hg).
  apply (open_hdf5_meets_group w file_path args root); [done| |].
  - apply Forall_forall. intros k' Hk'. split; [|by apply Hpresent].
    apply (names_ok_lookup root); [done|by apply Hpresent].
  - apply Exists_exists. exists k. split; [done|]. by exists g.
Qed.

Lemma open_hdf5_group_key_witness :
  ∃ evs,
    open_hdf5 ["data"; "store.h5"] [] Examples.w_grouped =
      (Raise (TypeError "Accessing a group is done with bytes or str"),
       after_read Examples.w_grouped ["data"; "store.h5"] evs) ∧
    Forall (is_read ["data"; "store.h5"]) evs.
Proof.
  apply (open_hdf5_group_key Examples.w_grouped ["data"; "store.h5"] []
           Examples.grouped); [reflexivity|reflexivity| |].
  - intros k Hk. apply elem_of_dom. rewrite <- keys_to_set.
    by apply elem_of_list_to_set.
  - exists "pca", {[ "x" := Dataset (Build_dataset [4; 5]%Z (Some gzip)) ]}.
    split; [|reflexivity]. apply (elem_of_list_to_set (C:=gset string)).
    cbn [requested]. rewrite keys_to_set. apply elem_of_dom. by eexists.
Defined.

(** X7. A key has to be spelled as the link name: on a container file, a
    requested name that is not a link name (it has a slash, or is empty
    or a dot) is reported missing with a [ValueError], also when [h5py]
    would resolve it to an object of the file; nothing is read. *)
Theorem open_hdf5_rejects_paths (w : world) (file_path : path) (args : list string)
    (root : gmap string node) (k : string) :
  stat (fs w) file_path = inr (H5File root) →
  names_ok root = true →
  k ∈ args →
  Names.link_name k = false →
  ∃ missing_keys : gset string,
    open_hdf5 file_path args w =
      (Raise (ValueError (KeysNotFound missing_keys file_path)),
       after_read w file_path []) ∧
    k ∈ missing_keys.
Proof.
  intros Hs Hnames Hk Hl.
  assert (requested args root = args) as Hreq by (by destruct args; [inversion Hk|]).
  assert (k ∈ list_to_set args ∖ dom root) as Hin.
  { apply elem_of_difference. split; [by apply elem_of_list_to_set|].
    intros Hd%elem_of_dom. apply (names_ok_lookup root) in Hd; [congruence|done]. }
  exists (list_to_set args ∖ dom root). split; [|done].
  pose proof (open_hdf5_missing w file_path args root Hs) as Hrun.
  rewrite Hreq in Hrun. apply Hrun. intros He. rewrite He in Hin.
  by apply elem_of_empty in Hin.
Qed.

Lemma open_hdf5_rejects_paths_witness :
  is_Some (lookup_at (Names.segments "pca/x") Examples.grouped) ∧
  ∃ missing_keys : gset string,
    open_hdf5 ["data"; "store.h5"] ["x"; "pca/x"] Examples.w_grouped =
      (Raise (ValueError (KeysNotFound missing_keys ["data"; "store.h5"])),
       after_read Examples.w_grouped ["data"; "store.h5"] []) ∧
    "pca/x" ∈ missing_keys.
Proof.
  split; [by eexists|].
  apply (open_hdf5_rejects_paths Examples.w_grouped ["data"; "store.h5"]
           ["x"; "pca/x"] Examples.grouped "pca/x");
    [reflexivity|reflexivity|by right; left|reflexivity].
Defined.

(** X8. Reads of one container agree: two dictionaries that [open_hdf5]
    returns for one state give the same array to a key they share; the
    one for fewer keys is part of the one for more keys; and each is part
    of the one read without explicit keys.  So what is returned for a key
    depends neither on the order of the keys nor on how often a key is
    given. *)
Theorem open_hdf5_consistent (w w1 w2 : world) (file_path : path)
    (root : gmap string node) (args1 args2 : list string) (m1 m2 : gmap string array) :
  stat (fs w) file_path = inr (H5File root) →
  names_ok root = true →
  open_hdf5 file_path args1 w = (Ok m1, w1) →
  open_hdf5 file_path args2 w = (Ok m2, w2) →
  (∀ k v1 v2, m1 !! k = Some v1 → m2 !! k = Some v2 → v1 = v2) ∧
  ((∀ k, k ∈ requested args1 root → k ∈ requested args2 root) → m1 ⊆ m2) ∧
  (args2 = [] → m1 ⊆ m2) ∧
  ((∀ k, k ∈ args1 ↔ k ∈ args2) → m1 = m2).
Proof.
  intros Hs Hnames (Hall1 & ->)%(open_hdf5_Ok _ _ _ root) (Hall2 & ->)%(open_hdf5_Ok _ _ _ root);
    try done.
  assert (∀ keys1 keys2 : list string,
            (∀ k, k ∈ keys1 → k ∈ keys2) →
            dict_of ((λ k, (k, array_in root k)) <$> keys1) ⊆
            dict_of ((λ k, (k, array_in root k)) <$> keys2)) as Hsub.
  { intros keys1 keys2 Hincl. apply map_subseteq_spec. intros k v.
    rewrite !dict_of_lookup. destruct (decide (k ∈ keys1)) as [Hk|]; [|done].
    by rewrite decide_True by (by apply Hincl). }
  split_and!.
  - intros k v1 v2. rewrite !dict_of_lookup.
    destruct (decide (k ∈ _)); [|done]. destruct (decide (k ∈ _)); [|done]. congruence.
  - apply Hsub.
  - intros ->. apply Hsub. intros k Hk. rewrite Forall_forall in Hall1.
    destruct (Hall1 k Hk) as [_ [d Hd]]. cbn [requested].
    apply (elem_of_list_to_set (C:=gset string)).
    rewrite keys_to_set. apply elem_of_dom. by rewrite Hd.
  - intros Heq.
    assert (∀ k, k ∈ requested args1 root ↔ k ∈ requested args2 root) as Heq'.
    { destruct args1 as [|a1 args1], args2 as [|a2 args2]; [done| | |done].
      - exfalso. eapply (elem_of_nil (A:=string)), Heq. left.
      - exfalso. eapply (elem_of_nil (A:=string)), Heq. left. }
    apply (anti_symm (⊆)); apply Hsub; intros k; apply Heq'.
Qed.

Lemma open_hdf5_consistent_witness :
  (∀ k v1 v2, ({[ "x" := [1; 2; 3]%Z ]} : gmap string array) !! k = Some v1 →
              (<[ "y" := [7; 8]%Z ]> {[ "x" := [1; 2; 3]%Z ]} : gmap string array) !! k
                = Some v2 → v1 = v2) ∧
  ((∀ k, k ∈ requested ["x"; "x"] Examples.store → k ∈ requested [] Examples.store) →
   ({[ "x" := [1; 2; 3]%Z ]} : gmap string array) ⊆
   <[ "y" := [7; 8]%Z ]> {[ "x" := [1; 2; 3]%Z ]}) ∧
  (([] : list string) = [] →
   ({[ "x" := [1; 2; 3]%Z ]} : gmap string array) ⊆
   <[ "y" := [7; 8]%Z ]> {[ "x" := [1; 2; 3]%Z ]}) ∧
  ((∀ k, k ∈ ["x"; "x"] ↔ k ∈ ([] : list string)) →
   ({[ "x" := [1; 2; 3]%Z ]} : gmap string array) =
   <[ "y" := [7; 8]%Z ]> {[ "x" := [1; 2; 3]%Z ]}).
Proof.
  apply (open_hdf5_consistent Examples.w_store
           (after_read Examples.w_store ["data"; "store.h5"]
              (read_events ["data"; "store.h5"] ["x"; "x"]))
           (after_read Examples.w_store ["data"; "store.h5"]
              (read_events ["data"; "store.h5"] (requested [] Examples.store)))
           ["data"; "store.h5"] Examples.store ["x"; "x"] []);
    [reflexivity|reflexivity| |]; vm_compute; reflexivity.
Defined.

(** ** Trees that differ at a few places *)

Section TreeMore.
Implicit Types (g root : gmap string node) (k : string)
  (loc q rel : list string) (locs : list (list string)).

Lemma lookup_at_one k g : lookup_at [k] g = g !! k.
Proof. cbn. by destruct (g !! k) as [[]|]. Qed.

Lemma apart_cons_ne k a rel q : a ≠ k → apart (k :: rel) (a :: q).
Proof. intros Hne. split; intros [t Ht]; by simplify_eq/=. Qed.





End TreeMore.

(** ** [save_h5]: how writes compose, and when nothing is written *)

Section WriteMore.
Implicit Types (w : world) (h g : group_handle) (p : path)
  (root : gmap string node) (name col k : string).


(** Without a file object open for writing behind the handle, the calls
    that write raise, and the state is as before. *)
Lemma delitem_no_write h name w :
  no_write w (gh_file h) → ∃ e, delitem h name w = (Raise e, w).
Proof.
  intros Hnw. unfold delitem, the_file, the_root. mrun.
  destruct (handles w !! gh_file h) as [[[p wr]|]|] eqn:Hh; try by eexists.
  cbn [fh_path fh_writable].
  destruct (fs w !! p) as [[|root| |]|]; try by eexists.
  destruct wr; [by destruct (Hnw p)|]. by eexists.
Qed.

Lemma create_group_no_write h name w :
  no_write w (gh_file h) → ∃ e, create_group h name w = (Raise e, w).
Proof.
  intros Hnw. unfold create_group, the_file, the_root. mrun.
  destruct (handles w !! gh_file h) as [[[p wr]|]|] eqn:Hh; try by eexists.
  cbn [fh_path fh_writable].
  destruct (fs w !! p) as [[|root| |]|]; try by eexists.
  destruct wr; [by destruct (Hnw p)|]. by eexists.
Qed.

Lemma new_dataset_no_write g k d w :
  no_write w (gh_file g) → ∃ e, new_dataset g k d w = (Raise e, w).
Proof.
  intros Hnw. unfold new_dataset, the_file, the_root. mrun.
  destruct (handles w !! gh_file g) as [[[p wr]|]|] eqn:Hh; try by eexists.
  cbn [fh_path fh_writable].
  destruct (fs w !! p) as [[|root| |]|]; try by eexists.
  destruct wr; [by destruct (Hnw p)|]. by eexists.
Qed.

Lemma require_group_no_write h name w :
  no_write w (gh_file h) →
  ∃ r, require_group h name w = (r, w) ∧ ∀ g, r = Ok g → gh_file g = gh_file h.
Proof.
  intros Hnw. unfold require_group. rewrite bind_run.
  destruct (contains_total h name w) as [b ->]. destruct b; cbn [negb].
  - rewrite bind_run. unfold getitem, the_file, the_root. mrun.
    destruct (handles w !! gh_file h) as [[[p wr]|]|] eqn:Hh;
      try (by eexists; split; [reflexivity|]).
    cbn [fh_path].
    destruct (fs w !! p) as [[|root| |]|];
      try (by eexists; split; [reflexivity|]).
    destruct (lookup_at (locate h name) root) as [[d|g0]|];
      eexists; (split; [reflexivity|]); [done| |done].
    by intros g [= <-].
  - destruct (create_group_no_write h name w Hnw) as [e ->]. by eexists.
Qed.

Lemma h5d_create_no_write g name d w :
  no_write w (gh_file g) → ∃ e, h5d_create g name d w = (Raise e, w).
Proof.
  intros Hnw. unfold h5d_create.
  destruct (Names.segments name) as [|k [|k' l]]; [by eexists| |by eexists].
  by apply new_dataset_no_write.
Qed.

Lemma make_new_dset_no_write g name (data : pydata) compression w :
  no_write w (gh_file g) → ∃ e, make_new_dset g name data compression w = (Raise e, w).
Proof.
  intros Hnw. unfold make_new_dset. destruct (asarray data); [|by eexists].
  by apply h5d_create_no_write.
Qed.

Lemma create_dataset_no_write h name (data : pydata) compression w :
  no_write w (gh_file h) →
  ∃ e, create_dataset h name data compression w = (Raise e, w).
Proof.
  intros Hnw. unfold create_dataset.
  destruct (negb (String.eqb name "") && Names.has_slash (Names.lstrip name));
    [|by apply make_new_dset_no_write].
  destruct (Names.rsplit name) as [[parent_path last]|];
    [|by apply make_new_dset_no_write].
  rewrite bind_run.
  destruct (require_group_no_write h parent_path w Hnw) as (r & -> & Hr).
  destruct r as [g|e]; [|by eexists].
  apply make_new_dset_no_write. by rewrite (Hr g).
Qed.

End WriteMore.





(** X11. [save_h5] needs a file object that is open for writing: through
    a handle whose file object is closed, or was opened read-only, it
    raises, and the state is as before; in particular nothing was
    deleted. *)
Theorem save_h5_needs_write_access (w : world) (h5 : group_handle) (col : string)
    (data : array) (compression : option codec) :
  (∀ p, handles w !! gh_file h5 ≠ Some (Some (Build_file_handle p true))) →
  ∃ e, save_h5 h5 col data compression w = (Raise e, w).
Proof.
  intros Hnw. unfold save_h5. rewrite bind_run.
  destruct (contains_total h5 col w) as [b ->]. rewrite bind_run. destruct b.
  - destruct (delitem_no_write h5 col w Hnw) as [e ->]. by eexists.
  - cbn. by apply create_dataset_no_write.
Qed.

Lemma save_h5_needs_write_access_witness :
  ∃ e, save_h5 (Build_group_handle 0 []) "x" [4; 5]%Z default_compression
         (Build_world Examples.fs_store
            [Some (Build_file_handle ["data"; "store.h5"] false)] [])
       = (Raise e,
          Build_world Examples.fs_store
            [Some (Build_file_handle ["data"; "store.h5"] false)] []).
Proof.
  apply (save_h5_needs_write_access
           (Build_world Examples.fs_store
              [Some (Build_file_handle ["data"; "store.h5"] false)] [])
           (Build_group_handle 0 []) "x" [4; 5]%Z default_compression).
  intros p. cbn. discriminate.
Defined.

(** X12. [save_h5] under the name of a group replaces the group: when the
    call returns, the group and every object below it are gone from the
    container, and the dataset is in its place. *)
Theorem save_h5_replaces_a_group (w w' : world) (h5 r : group_handle) (col : string)
    (data : array) (compression : option codec) (p : path)
    (root grp : gmap string node) :
  live w h5 p true root →
  lookup_at (locate h5 col) root = Some (Group grp) →
  save_h5 h5 col data compression w = (Ok r, w') →
  ∃ root',
    fs w' !! p = Some (H5File root') ∧
    lookup_at (locate h5 col) root' = Some (Dataset (Build_dataset data compression)) ∧
    (∀ below, below ≠ [] → lookup_at (locate h5 col ++ below) root' = None) ∧
    EvUnlink p (locate h5 col) ∈ events w'.
Proof.
  intros Hlive Hgrp
    (p' & root0 & root' & made & Hlive' & -> & _ & Hyes & _ & _)%save_h5_effect.
  destruct (live_det _ _ _ _ _ _ _ _ Hlive' Hlive) as (-> & _ & ->).
  exists root'. split_and!; [cbn; apply lookup_insert_eq|done| |].
  - intros below Hne. rewrite lookup_at_app, Hyes. by destruct below.
  - cbn. unfold save_trace. rewrite Hgrp. apply elem_of_app. right. left.
Qed.

Lemma save_h5_replaces_a_group_witness :
  ∃ root',
    fs (save_h5 (Build_group_handle 0 []) "pca" [9]%Z default_compression
          Examples.w_grouped_open).2 !! ["data"; "store.h5"] = Some (H5File root') ∧
    lookup_at (locate (Build_group_handle 0 []) "pca") root' =
      Some (Dataset (Build_dataset [9]%Z default_compression)) ∧
    (∀ below, below ≠ [] →
       lookup_at (locate (Build_group_handle 0 []) "pca" ++ below) root' = None) ∧
    EvUnlink ["data"; "store.h5"] (locate (Build_group_handle 0 []) "pca") ∈
      events (save_h5 (Build_group_handle 0 []) "pca" [9]%Z default_compression
                Examples.w_grouped_open).2.
Proof.
  apply (save_h5_replaces_a_group Examples.w_grouped_open _ (Build_group_handle 0 [])
           (Build_group_handle 0 ["pca"]) "pca" [9]%Z default_compression
           ["data"; "store.h5"] Examples.grouped
           {[ "x" := Dataset (Build_dataset [4; 5]%Z (Some gzip)) ]}).
  - split; reflexivity.
  - reflexivity.
  - vm_compute. reflexivity.
Defined.

(** ** [get_h5_object]: a dataset in the way *)

(** X13. When [method] leads to a dataset of the container, and no file
    object has the container open read-only, [get_h5_object] raises a
    [TypeError] and the container is as it was; the file object that
    [make_h5] opened is not closed, it stays open for writing in the state
    that is left. *)
Theorem get_h5_object_dataset_in_the_way (w : world) (file : path) (method : string)
    (root : gmap string node) (d : dataset) :
  stat (fs w) file = inr (H5File root) →
  free_for_writing w file →
  lookup_at (Names.segments method) root = Some (Dataset d) →
  get_h5_object file method w =
    (Raise (TypeError "Incompatible object (Dataset) already exists"),
     opened w file mode_a true) ∧
  fs (opened w file mode_a true) = fs w ∧
  handles (opened w file mode_a true) !! List.length (handles w) =
    Some (Some (Build_file_handle file true)).
Proof.
  intros Hs Hfree Hd. split_and!; [|done|by apply list_lookup_middle].
  unfold get_h5_object. rewrite bind_run, (make_h5_existing _ _ root) by done.
  set (h := Build_group_handle _ []). set (w0 := opened _ _ _ _).
  assert (live w0 h file true root) as Hlive.
  { split; [by apply list_lookup_middle|by apply stat_lookup]. }
  assert (String.eqb method "" = false) as Hne by (by destruct method).
  assert (locate h method = Names.segments method) as Hloc.
  { unfold locate, start. by destruct (Names.absolute method). }
  unfold require_group.
  rewrite bind_run, (contains_live _ _ _ _ _ _ Hlive Hne), Hloc, Hd.
  rewrite bool_decide_true by done. cbn [negb].
  destruct Hlive as [Hh Hp].
  rewrite bind_run. unfold getitem, the_file, the_root. mrun.
  rewrite Hh. cbn [fh_path]. by rewrite Hp, Hloc, Hd.
Qed.

Lemma get_h5_object_dataset_in_the_way_witness :
  get_h5_object ["data"; "store.h5"] "pca/x" Examples.w_grouped =
    (Raise (TypeError "Incompatible object (Dataset) already exists"),
     opened Examples.w_grouped ["data"; "store.h5"] mode_a true) ∧
  fs (opened Examples.w_grouped ["data"; "store.h5"] mode_a true) =
    fs Examples.w_grouped ∧
  handles (opened Examples.w_grouped ["data"; "store.h5"] mode_a true)
    !! List.length (handles Examples.w_grouped) =
    Some (Some (Build_file_handle ["data"; "store.h5"] true)).
Proof.
  apply (get_h5_object_dataset_in_the_way Examples.w_grouped ["data"; "store.h5"]
           "pca/x" Examples.grouped (Build_dataset [4; 5]%Z (Some gzip)));
    reflexivity.
Defined.

(** ** Writing and reading back in one session *)

Section Sessions.
Implicit Types (w : world) (h : group_handle) (p file : path)
  (root g : gmap string node) (k col method : string)
  (kvs : list (string * array)).

(** [get_h5_object] on a container or a free path, with a key: the group
    it hands back, ready for [save_h5]. *)
Lemma get_h5_object_open w file method root :
  hosts (fs w) file root →
  free_for_writing w file →
  Names.link_name method = true →
  (∀ d, root !! method ≠ Some (Dataset d)) →
  ∃ h1 w1 grp,
    get_h5_object file method w = (Ok h1, w1) ∧
    h1 = Build_group_handle (List.length (handles w)) [method] ∧
    open_group w1 h1 file true (with_group root method) grp ∧
    stat (fs w1) file = inr (H5File (with_group root method)) ∧
    with_group root method !! method = Some (Group grp) ∧
    handles w1 = handles w ++ [Some (Build_file_handle file true)].
Proof.
  intros Hhost Hfree Hl Hnd.
  destruct (make_h5_hosts w file root Hhost Hfree)
    as (w0 & m & Hmake & Hf & _ & _ & Hhs & _).
  unfold get_h5_object. rewrite bind_run, Hmake.
  rewrite (require_group_file _ _ _ _ _ Hf Hl Hnd).
  destruct Hf as (Hh & _ & Hs). pose proof (stat_lookup _ _ _ Hs) as Hp.
  unfold with_group. destruct (root !! method) as [[d|grp]|] eqn:Hm.
  - by destruct (Hnd d).
  - eexists _, _, grp. split_and!; [done|done| |done|done|done].
    split_and!; [done|done|]. cbn [gh_path]. by rewrite group_at_cons, Hm.
  - eexists _, _, ∅. split_and!; [done|done| | |by apply lookup_insert_eq|done].
    + split_and!; [done|cbn; apply lookup_insert_eq|].
      cbn [gh_path]. by rewrite group_at_cons, lookup_insert_eq.
    + cbn. by eapply stat_with_root.
Qed.

(** [save_h5] under a key of an open group: the run, the group after it,
    and what is left alone. *)
Lemma save_h5_open_frame w h p root g col (data : array) compression :
  open_group w h p true root g → Names.link_name col = true →
  ∃ root',
    save_h5 h col data compression w =
      (Ok (Build_group_handle (gh_file h) (gh_path h ++ [col])),
       with_root w p root'
         (save_events p (gh_path h) g col (Build_dataset data compression))) ∧
    group_at (gh_path h) root' =
      Some (<[col := Dataset (Build_dataset data compression)]> g) ∧
    (∀ q, apart (gh_path h ++ [col]) q → lookup_at q root' = lookup_at q root).
Proof.
  intros Ho Hl.
  destruct (save_h5_open w h p root g col data compression Ho Hl)
    as (root' & Hrun & Hg).
  exists root'. split_and!; [done|done|].
  pose proof Hrun as Heff.
  apply save_h5_effect in Heff
    as (p' & root0 & root'' & made & Hlive & Hw' & _ & _ & Hfr & _).
  assert (live w h p true root) as Hlive' by (by destruct Ho as (? & ? & ?)).
  destruct (live_det _ _ _ _ _ _ _ _ Hlive Hlive') as (-> & _ & ->).
  assert (root'' = root') as ->.
  { apply (f_equal fs) in Hw'. cbn in Hw'.
    apply (f_equal (λ m, m !! p)) in Hw'. rewrite !lookup_insert_eq in Hw'.
    by injection Hw'. }
  by rewrite locate_link_name in Hfr.
Qed.

(** [require_group] opens and closes no file object. *)
Lemma require_group_keeps_handles h name w (r : result group_handle) w' :
  require_group h name w = (r, w') → handles w' = handles w.
Proof.
  unfold require_group. rewrite bind_run.
  destruct (contains_total h name w) as [b ->]. destruct b; cbn [negb].
  - rewrite bind_run. unfold getitem, the_file, the_root. mrun.
    destruct (handles w !! gh_file h) as [[[p wr]|]|]; try by intros [= _ <-].
    cbn [fh_path]. destruct (fs w !! p) as [[|root| |]|]; try by intros [= _ <-].
    by destruct (lookup_at (locate h name) root) as [[d|g0]|]; intros [= _ <-].
  - unfold create_group, the_file, the_root, set_root. mrun.
    destruct (handles w !! gh_file h) as [[[p wr]|]|]; try by intros [= _ <-].
    cbn [fh_path fh_writable]. destruct (fs w !! p) as [[|root| |]|]; try by intros [= _ <-].
    destruct wr; cbn [negb]; [|by intros [= _ <-]].
    by destruct (alter_at _ _ root); intros [= _ <-].
Qed.





End Sessions.



(** X15. What is written under a group of [get_h5_object] is out of
    reach of [open_hdf5]: on a container that no file object has open
    read-only (or an empty file, or a free path) and keys
    [method] and [col], after [get_h5_object] and a [save_h5] through the
    group the dataset is in the container at [method/col]; [open_hdf5]
    without keys then raises a [TypeError], for the group at the top
    level, and [open_hdf5] with the name [method/col] raises the
    [ValueError] of a missing key. *)
Theorem grouped_data_is_not_read_back (w : world) (file : path) (method col : string)
    (data : array) (compression : option codec) (root : gmap string node) :
  hosts (fs w) file root →
  free_for_writing w file →
  names_ok root = true →
  Names.link_name method = true →
  Names.link_name col = true →
  (∀ d, root !! method ≠ Some (Dataset d)) →
  ∃ g w1 r w2 root2,
    get_h5_object file method w = (Ok g, w1) ∧
    save_h5 g col data compression w1 = (Ok r, w2) ∧
    stat (fs w2) file = inr (H5File root2) ∧
    lookup_at [method; col] root2 = Some (Dataset (Build_dataset data compression)) ∧
    (∃ evs, open_hdf5 file [] w2 =
              (Raise (TypeError "Accessing a group is done with bytes or str"),
               after_read w2 file evs)) ∧
    open_hdf5 file [method +:+ "/" +:+ col] w2 =
      (Raise (ValueError (KeysNotFound {[method +:+ "/" +:+ col]} file)),
       after_read w2 file []).
Proof.
  intros Hhost Hfree Hnames Hlm Hlc Hnd.
  destruct (get_h5_object_open w file method root Hhost Hfree Hlm Hnd)
    as (g1 & w1 & grp & Hget & -> & Ho & Hs1 & Hgrp & _).
  destruct (save_h5_open_frame w1 _ file _ grp col data compression Ho Hlc)
    as (root2 & Hsave & Hg2 & Hfr).
  cbn [gh_path app] in Hg2, Hfr. rewrite group_at_cons in Hg2.
  destruct (root2 !! method) as [[?|grp2]|] eqn:Hm2; try done.
  cbn in Hg2. injection Hg2 as ->.
  assert (∀ k, k ≠ method → root2 !! k = with_group root method !! k) as Hother.
  { intros k Hk. rewrite <- !lookup_at_one. apply Hfr. by apply apart_cons_ne. }
  assert (names_ok root2 = true) as Hnames2.
  { apply names_ok_iff. intros k Hk. destruct (decide (k = method)) as [->|Hne]; [done|].
    rewrite (Hother k Hne) in Hk. unfold with_group in Hk.
    destruct (root !! method); [by apply (names_ok_lookup root)|].
    rewrite lookup_insert_ne in Hk by done. by apply (names_ok_lookup root). }
  assert (stat (fs (with_root w1 file root2
                      (save_events file [method] grp col
                         (Build_dataset data compression)))) file
          = inr (H5File root2)) as Hs2 by (cbn; by eapply stat_with_root).
  eexists _, w1, _, _, root2. split_and!; [done|done|done| | |].
  - change [method; col] with ([method] ++ [col]).
    by rewrite lookup_at_snoc, group_at_cons, Hm2, group_at_nil, lookup_insert_eq.
  - destruct (open_hdf5_meets_group _ file [] root2 Hs2) as (evs & Hrun & _).
    + apply Forall_forall. intros k Hk. cbn [requested] in Hk.
      apply (elem_of_list_to_set (C:=gset string)) in Hk.
      rewrite keys_to_set in Hk. apply elem_of_dom in Hk.
      split; [by apply (names_ok_lookup root2)|done].
    + apply Exists_exists. exists method. split; [|by eexists]. cbn [requested].
      apply (elem_of_list_to_set (C:=gset string)).
      rewrite keys_to_set. apply elem_of_dom. by rewrite Hm2.
    + by exists evs.
  - assert (root2 !! (method +:+ "/" +:+ col) = None) as Hnone.
    { apply eq_None_not_Some. intros Hk%(names_ok_lookup root2); [|done].
      unfold Names.link_name in Hk. rewrite has_slash_app in Hk. cbn in Hk.
      by rewrite orb_true_r, andb_false_r in Hk. }
    assert (list_to_set [method +:+ "/" +:+ col] ∖ dom root2
            =@{gset string} {[method +:+ "/" +:+ col]}) as Hmiss.
    { apply not_elem_of_dom in Hnone. apply set_eq. intros x.
      rewrite elem_of_difference, elem_of_list_to_set, list_elem_of_singleton,
        elem_of_singleton.
      split; [by intros [-> _]|by intros ->]. }
    pose proof (open_hdf5_missing _ file [method +:+ "/" +:+ col] root2 Hs2) as Hrun.
    cbn [requested] in Hrun. rewrite Hmiss in Hrun. apply Hrun.
    intros E. assert (method +:+ "/" +:+ col ∈ (∅ : gset string)) as []%elem_of_empty.
    rewrite <- E. by apply elem_of_singleton.
Qed.

Lemma grouped_data_is_not_read_back_witness :
  ∃ g w1 r w2 root2,
    get_h5_object ["data"; "new.h5"] "pca" Examples.w_data = (Ok g, w1) ∧
    save_h5 g "x" [4; 5]%Z default_compression w1 = (Ok r, w2) ∧
    stat (fs w2) ["data"; "new.h5"] = inr (H5File root2) ∧
    lookup_at ["pca"; "x"] root2 =
      Some (Dataset (Build_dataset [4; 5]%Z default_compression)) ∧
    (∃ evs, open_hdf5 ["data"; "new.h5"] [] w2 =
              (Raise (TypeError "Accessing a group is done with bytes or str"),
               after_read w2 ["data"; "new.h5"] evs)) ∧
    open_hdf5 ["data"; "new.h5"] ["pca" +:+ "/" +:+ "x"] w2 =
      (Raise (ValueError (KeysNotFound {["pca" +:+ "/" +:+ "x"]} ["data"; "new.h5"])),
       after_read w2 ["data"; "new.h5"] []).
Proof.
  apply (grouped_data_is_not_read_back Examples.w_data ["data"; "new.h5"] "pca" "x"
           [4; 5]%Z default_compression ∅);
    [|reflexivity|reflexivity|reflexivity|reflexivity|].
  - right. split; [left|done]. split_and!; [done|reflexivity|reflexivity].
  - intros d Hd. by rewrite lookup_empty in Hd.
Defined.

(** ** [fetch_files] after [make_h5] *)

Section ListingMore.
Implicit Types (fs : gmap path entry) (p q d f : path) (x : entry).

(** A new file changes what exists and what is a directory at its own
    path only. *)
Lemma stat_beside_new_file fs f x q :
  creatable fs f → x ≠ Dir → q ≠ f →
  exists_ (<[f := x]> fs) q = exists_ fs q ∧ is_dir (<[f := x]> fs) q = is_dir fs q.
Proof.
  intros (Hne & Hw & Hfree) Hx Hq. unfold exists_, is_dir.
  destruct q as [|k l _] using rev_ind; [done|]. rewrite !stat_snoc.
  destruct f as [|kf lf _] using rev_ind; [done|]. rewrite parent_snoc in Hw.
  assert (walk (<[lf ++ [kf] := x]> fs) [] lf = None) as Hw'.
  { rewrite walk_insert_ne; [done|]. intros q' Hq'%prefix_length _ E.
    simpl in E. subst q'. rewrite length_app in Hq'. simpl in Hq'. lia. }
  destruct (decide ((lf ++ [kf]) `prefix_of` l)) as [[more ->]|Hpre].
  - rewrite !(walk_app _ _ (lf ++ [kf]) more), !walk_snoc, Hw, Hw'. simpl.
    rewrite Hfree, lookup_insert_eq. by destruct x.
  - rewrite walk_insert_ne, lookup_insert_ne; [done|done|].
    intros q' Hq' _ E. simpl in E. by subst q'.
Qed.

Lemma glob_match_file pattern rel :
  Glob.glob_match pattern rel false = true ↔
  selects (Names.segments pattern) rel ∧ Glob.ends_with_slash pattern = false.
Proof.
  unfold Glob.glob_match. rewrite andb_true_iff, match_parts_selects.
  apply and_iff_compat_l. by destruct (Glob.ends_with_slash pattern).
Qed.

Lemma matches_new_file fs d f x pattern p :
  creatable fs f → x ≠ Dir →
  matches (<[f := x]> fs) d pattern p ↔
  matches fs d pattern p ∨
  (p = f ∧ ∃ rel, f = d ++ rel ∧ Glob.glob_match pattern rel false = true).
Proof.
  intros Hc Hx.
  assert (exists_ (<[f := x]> fs) f = true ∧ is_dir (<[f := x]> fs) f = false)
    as [He Hnd].
  { unfold exists_, is_dir. rewrite (stat_created _ _ x Hc). by destruct x. }
  assert (exists_ fs f = false) as Hno.
  { unfold exists_. by rewrite (creatable_stat _ _ Hc). }
  unfold matches. destruct (decide (p = f)) as [->|Hp].
  - rewrite He, Hnd, Hno. split.
    + intros [_ (rel & -> & Hm)]. right. split; [done|]. by exists rel.
    + intros [[? _]|[_ Hm]]; [done|]. by split.
  - destruct (stat_beside_new_file fs _ x p Hc Hx Hp) as [-> ->].
    split; [by left|]. by intros [?|[? _]].
Qed.

End ListingMore.

(** X16. Creating a container changes a listing by the container alone:
    after [make_h5] on a free path, [fetch_files] in a directory, with a
    pattern without a component [..], gives what it gave before and, when
    the new file is below the directory and the pattern selects it and
    does not ask for a directory, the new file. *)
Theorem make_h5_then_fetch_files (w : world) (d file : path) (pattern : string) :
  is_dir (fs w) d = true →
  creatable (fs w) file →
  valid_pattern pattern = true →
  stays_below pattern = true →
  ∃ h w1 files0 files1,
    fetch_files pattern d w = (Ok files0, w) ∧
    make_h5 file w = (Ok h, w1) ∧
    fetch_files pattern d w1 = (Ok files1, w1) ∧
    (∀ p, p ∈ files1 ↔
          p ∈ files0 ∨
          (p = file ∧
           ∃ rel, file = d ++ rel ∧ selects (Names.segments pattern) rel ∧
                  Glob.ends_with_slash pattern = false)).
Proof.
  intros Hd Hc Hv _.
  assert (d ≠ file) as Hdf.
  { intros ->. destruct Hc as (Hne & _ & Hfree).
    apply is_dir_exists, exists_lookup in Hd as [?|[? ?]]; [done|congruence]. }
  eexists _, _, _, _. split_and!;
    [by apply fetch_files_valid|by apply make_h5_creatable|by apply fetch_files_valid|].
  cbn [fs opened]. rewrite Hd.
  destruct (stat_beside_new_file (fs w) _ (H5File ∅) d Hc) as [_ ->]; [done|done|].
  rewrite Hd. intros p. rewrite !sorted_Permutation, !elem_of_glob.
  rewrite (matches_new_file _ _ _ _ _ _ Hc) by done.
  apply or_iff_compat_l, and_iff_compat_l.
  split; intros (rel & Hrel & Hm); exists rel; (split; [done|]);
    by apply glob_match_file.
Qed.

Lemma make_h5_then_fetch_files_witness :
  ∃ h w1 files0 files1,
    fetch_files "*.h5" ["data"] Examples.w_store = (Ok files0, Examples.w_store) ∧
    make_h5 ["data"; "new.h5"] Examples.w_store = (Ok h, w1) ∧
    fetch_files "*.h5" ["data"] w1 = (Ok files1, w1) ∧
    (∀ p, p ∈ files1 ↔
          p ∈ files0 ∨
          (p = ["data"; "new.h5"] ∧
           ∃ rel, ["data"; "new.h5"] = ["data"] ++ rel ∧
                  selects (Names.segments "*.h5") rel ∧
                  Glob.ends_with_slash "*.h5" = false)).
Proof.
  apply (make_h5_then_fetch_files Examples.w_store ["data"] ["data"; "new.h5"] "*.h5");
    [reflexivity| |reflexivity|reflexivity].
  split_and!; [done|reflexivity|reflexivity].
Defined.

(** ** [save_h5] and the other columns *)

Section Columns.
Implicit Types (w : world) (h : group_handle) (p : path)
  (root : gmap string node) (k col : string) (keys args : list string).

Lemma open_group_add_events w h p wr root g evs :
  open_group w h p wr root g → open_group (add_events w evs) h p wr root g.
Proof. by intros (? & ? & ?). Qed.

(** The comprehension sees the container through the requested keys
    only. *)
Lemma read_all_agree keys :
  ∀ w1 h1 p1 wr1 root1 w2 h2 p2 wr2 root2,
  open_group w1 h1 p1 wr1 root1 root1 → gh_path h1 = [] →
  open_group w2 h2 p2 wr2 root2 root2 → gh_path h2 = [] →
  Forall (λ k, Names.link_name k = true ∧ root1 !! k = root2 !! k ∧
               is_Some (root1 !! k)) keys →
  (mapM (λ key, obj ← getitem h1 key; v ← slice_all obj; mret (key, v)) keys w1).1 =
  (mapM (λ key, obj ← getitem h2 key; v ← slice_all obj; mret (key, v)) keys w2).1.
Proof.
  induction keys as [|k keys IH];
    intros w1 h1 p1 wr1 root1 w2 h2 p2 wr2 root2 Ho1 Hr1 Ho2 Hr2 Hall; [done|].
  apply Forall_cons in Hall as [(Hl & Heq & [n Hn]) Hall].
  cbn [mapM]. unfold bind at 1 3.
  rewrite (read_item _ _ _ _ _ _ _ n Ho1 Hl Hn).
  rewrite (read_item _ _ _ _ _ _ _ n Ho2 Hl) by (by rewrite <- Heq).
  destruct n as [d|g']; [|done].
  specialize (IH _ _ _ _ _ _ _ _ _ _
                (open_group_add_events _ _ _ _ _ _ [EvRead p1 (gh_path h1 ++ [k])] Ho1) Hr1
                (open_group_add_events _ _ _ _ _ _ [EvRead p2 (gh_path h2 ++ [k])] Ho2) Hr2
                Hall).
  unfold bind at 1 2.
  destruct (mapM _ keys (add_events w1 _)) as [r1 w1'].
  destruct (mapM _ keys (add_events w2 _)) as [r2 w2'].
  simpl in IH. subst r2. by destruct r1.
Qed.

(** What [open_hdf5] gives for explicit keys depends on these keys of the
    container only. *)
Lemma open_hdf5_agree w1 w2 p root1 root2 args :
  stat (fs w1) p = inr (H5File root1) →
  stat (fs w2) p = inr (H5File root2) →
  names_ok root1 = true →
  args ≠ [] →
  Forall (λ k, root1 !! k = root2 !! k) args →
  (open_hdf5 p args w1).1 = (open_hdf5 p args w2).1.
Proof.
  intros Hs1 Hs2 Hnames Hne Hall. rewrite Forall_forall in Hall.
  pose proof (open_group_opened w1 p mode_r (open_rw (handles w1) p) root1
                (stat_lookup _ _ _ Hs1)) as Ho1.
  pose proof (open_group_opened w2 p mode_r (open_rw (handles w2) p) root2
                (stat_lookup _ _ _ Hs2)) as Ho2.
  assert (list_to_set args ∖ dom root1 =@{gset string} list_to_set args ∖ dom root2)
    as Hmiss.
  { apply set_eq. intros k. rewrite !elem_of_difference, !elem_of_list_to_set,
      !elem_of_dom. split; intros [Hk Hn]; (split; [done|]).
    - by rewrite <- (Hall k Hk).
    - by rewrite (Hall k Hk). }
  assert (requested args root1 = args ∧ requested args root2 = args) as [Hr1 Hr2]
    by (by destruct args).
  unfold open_hdf5.
  rewrite (with_File_r_run _ _ root1), (with_File_r_run _ _ root2) by done.
  cbn [fst].
  rewrite !bind_run, (requested_keys _ _ _ _ _ _ Ho1), (requested_keys _ _ _ _ _ _ Ho2).
  rewrite Hr1, Hr2.
  rewrite !bind_run, (keys_open _ _ _ _ _ _ Ho1), (keys_open _ _ _ _ _ _ Ho2).
  rewrite !keys_to_set, <- Hmiss.
  destruct (decide (list_to_set args ∖ dom root1 =@{gset string} ∅)) as [Hm|Hm].
  - rewrite !bool_decide_false by (by intros ?). rewrite !bind_run.
    pose proof (read_all_agree args _ _ _ _ _ _ _ _ _ _ Ho1 eq_refl Ho2 eq_refl) as Hag.
    destruct (mapM _ args (opened w1 _ _ _)) as [r1 w1'].
    destruct (mapM _ args (opened w2 _ _ _)) as [r2 w2'].
    simpl in Hag. rewrite <- Hag; [by destruct r1|].
    apply Forall_forall. intros k Hk.
    assert (is_Some (root1 !! k)) as Hk'.
    { apply elem_of_dom. apply dec_stable. intros Hn.
      assert (k ∈ (∅ : gset string)) as []%elem_of_empty.
      rewrite <- Hm. apply elem_of_difference. by rewrite elem_of_list_to_set. }
    split_and!; [by apply (names_ok_lookup root1)|by apply Hall|done].
  - by rewrite !bool_decide_true by done.
Qed.

End Columns.

(** X17. Writing a column leaves the reading of the others alone: through
    a file object open for writing, after [save_h5] under the key [col],
    [open_hdf5] for keys that do not include [col] gives what it gave
    before, the same dictionary or the same error. *)
Theorem save_h5_keeps_other_columns (w : world) (h5 : group_handle)
    (file_path : path) (root : gmap string node) (col : string) (args : list string)
    (data : array) (compression : option codec) :
  open_file w h5 file_path root →
  names_ok root = true →
  Names.link_name col = true →
  args ≠ [] →
  col ∉ args →
  ((save_h5 h5 col data compression;; open_hdf5 file_path args) w).1 =
  (open_hdf5 file_path args w).1.
Proof.
  intros Hf Hnames Hl Hne Hcol.
  destruct (save_h5_file w h5 file_path root col data compression Hf Hl)
    as [Hrun (_ & _ & Hs')].
  cbv zeta in Hrun, Hs'. destruct Hf as (_ & _ & Hs).
  rewrite bind_run, Hrun. symmetry.
  apply (open_hdf5_agree _ _ _ root _ _ Hs Hs' Hnames Hne).
  apply Forall_forall. intros k Hk. rewrite lookup_insert_ne; [done|].
  by intros ->.
Qed.

Lemma save_h5_keeps_other_columns_witness :
  ((save_h5 (Build_group_handle 0 []) "x" [4; 5]%Z default_compression;;
    open_hdf5 ["data"; "store.h5"] ["y"]) Examples.w_store_open).1 =
  (open_hdf5 ["data"; "store.h5"] ["y"] Examples.w_store_open).1.
Proof.
  apply (save_h5_keeps_other_columns Examples.w_store_open (Build_group_handle 0 [])
           ["data"; "store.h5"] Examples.store "x" ["y"] [4; 5]%Z
           default_compression).
  - split_and!; reflexivity.
  - reflexivity.
  - reflexivity.
  - discriminate.
  - intros H. apply elem_of_cons in H as [?|H]; [done|]. by apply elem_of_nil in H.
Defined.

(** ** File objects that stay open *)

(** X18. [get_h5_object] never closes the file object it opens: where
    the path holds a container, an empty file or nothing, and no file
    object has the file open read-only, the state after the call has one
    more file object, open for writing on the file, whether the call
    hands back a group or raises; a group that is handed back belongs to
    that file object. *)
Theorem get_h5_object_leaves_file_open (w w' : world) (file : path) (method : string)
    (r : result group_handle) (root : gmap string node) :
  hosts (fs w) file root →
  free_for_writing w file →
  get_h5_object file method w = (r, w') →
  handles w' = handles w ++ [Some (Build_file_handle file true)] ∧
  (∀ g, r = Ok g → gh_file g = List.length (handles w)).
Proof.
  intros Hhost Hfree. unfold get_h5_object. rewrite bind_run.
  destruct (make_h5_hosts w file root Hhost Hfree) as (w0 & m & -> & _ & _ & _ & Hhs & _).
  intros Hreq. split.
  - by rewrite (require_group_keeps_handles _ _ _ _ _ Hreq).
  - intros g ->. by apply require_group_Ok in Hreq as [-> _].
Qed.

Lemma get_h5_object_leaves_file_open_witness :
  handles (get_h5_object ["data"; "store.h5"] "x" Examples.w_store).2 =
    handles Examples.w_store ++ [Some (Build_file_handle ["data"; "store.h5"] true)] ∧
  (∀ g, (get_h5_object ["data"; "store.h5"] "x" Examples.w_store).1 = Ok g →
        gh_file g = List.length (handles Examples.w_store)).
Proof.
  apply (get_h5_object_leaves_file_open Examples.w_store _ ["data"; "store.h5"] "x" _
           Examples.store).
  - left. reflexivity.
  - reflexivity.
  - vm_compute. reflexivity.
Defined.

(** X19. While no file object has the file open read-only, two groups
    from two calls of [get_h5_object] on one file belong to two file
    objects, and these write to one container: after a
    [save_h5] through each group both datasets are in the file, each
    under its group. *)
Theorem two_groups_one_container (w : world) (file : path) (method1 method2 : string)
    (col1 col2 : string) (A B : array) (cA cB : option codec)
    (root : gmap string node) :
  hosts (fs w) file root →
  free_for_writing w file →
  Names.link_name method1 = true → Names.link_name method2 = true →
  method1 ≠ method2 →
  Names.link_name col1 = true → Names.link_name col2 = true →
  (∀ d, root !! method1 ≠ Some (Dataset d)) →
  (∀ d, root !! method2 ≠ Some (Dataset d)) →
  ∃ g1 g2 w' root',
    (g1 ← get_h5_object file method1;
     g2 ← get_h5_object file method2;
     save_h5 g1 col1 A cA;;
     save_h5 g2 col2 B cB;;
     mret (g1, g2)) w = (Ok (g1, g2), w') ∧
    gh_file g1 ≠ gh_file g2 ∧
    stat (fs w') file = inr (H5File root') ∧
    lookup_at [method1; col1] root' = Some (Dataset (Build_dataset A cA)) ∧
    lookup_at [method2; col2] root' = Some (Dataset (Build_dataset B cB)).
Proof.
  intros Hhost Hfree Hl1 Hl2 Hne Hc1 Hc2 Hnd1 Hnd2.
  destruct (get_h5_object_open w file method1 root Hhost Hfree Hl1 Hnd1)
    as (g1 & w1 & grp1 & Hget1 & -> & Ho1 & Hs1 & Hgrp1 & Hhs1).
  set (root1 := with_group root method1) in *.
  assert (∀ d, root1 !! method2 ≠ Some (Dataset d)) as Hnd2'.
  { intros d. unfold root1, with_group. destruct (root !! method1); [done|].
    by rewrite lookup_insert_ne. }
  assert (free_for_writing w1 file) as Hfree1.
  { unfold free_for_writing. by rewrite Hhs1, open_ro_opened. }
  destruct (get_h5_object_open w1 file method2 root1 (or_introl Hs1) Hfree1 Hl2 Hnd2')
    as (g2 & w2 & grp2 & Hget2 & -> & Ho2 & Hs2 & Hgrp2 & Hhs2).
  set (root2 := with_group root1 method2) in *.
  assert (open_group w2 (Build_group_handle (List.length (handles w)) [method1])
                     file true root2 grp1) as Ho1'.
  { destruct Ho1 as (Hh & _ & _), Ho2 as (_ & Hp & _). split_and!; [|done|].
    - rewrite Hhs2. by apply lookup_app_l_Some.
    - cbn [gh_path]. rewrite group_at_cons.
      replace (root2 !! method1) with (root1 !! method1); [by rewrite Hgrp1|].
      unfold root2, with_group. destruct (root1 !! method2); [done|].
      by rewrite lookup_insert_ne. }
  destruct (save_h5_open_frame w2 _ file _ grp1 col1 A cA Ho1' Hc1)
    as (root3 & Hsave1 & Hg3 & Hfr3).
  cbn [gh_path gh_file app] in Hsave1, Hg3, Hfr3.
  set (w3 := with_root w2 file root3 _) in *.
  assert (open_group w3 (Build_group_handle (List.length (handles w1)) [method2])
                     file true root3 grp2) as Ho2'.
  { destruct Ho2 as (Hh & _ & Hg2). split_and!; [done|cbn; apply lookup_insert_eq|].
    apply lookup_at_group_at. rewrite Hfr3 by (by apply apart_cons_ne).
    by apply lookup_at_group_at. }
  destruct (save_h5_open_frame w3 _ file _ grp2 col2 B cB Ho2' Hc2)
    as (root4 & Hsave2 & Hg4 & Hfr4).
  cbn [gh_path gh_file app] in Hsave2, Hg4, Hfr4.
  eexists _, _, _, root4. split_and!.
  - rewrite bind_run, Hget1, bind_run, Hget2, bind_run, Hsave1, bind_run, Hsave2.
    reflexivity.
  - cbn. rewrite Hhs1, length_app. simpl. lia.
  - cbn. do 2 eapply stat_with_root. exact Hs2.
  - rewrite Hfr4 by (by apply apart_cons_ne).
    change [method1; col1] with ([method1] ++ [col1]).
    by rewrite lookup_at_snoc, Hg3, lookup_insert_eq.
  - change [method2; col2] with ([method2] ++ [col2]).
    by rewrite lookup_at_snoc, Hg4, lookup_insert_eq.
Qed.

Lemma two_groups_one_container_witness :
  ∃ g1 g2 w' root',
    (g1 ← get_h5_object ["data"; "new.h5"] "pca";
     g2 ← get_h5_object ["data"; "new.h5"] "umap";
     save_h5 g1 "x" [1; 2]%Z default_compression;;
     save_h5 g2 "x" [3]%Z None;;
     mret (g1, g2)) Examples.w_data = (Ok (g1, g2), w') ∧
    gh_file g1 ≠ gh_file g2 ∧
    stat (fs w') ["data"; "new.h5"] = inr (H5File root') ∧
    lookup_at ["pca"; "x"] root' =
      Some (Dataset (Build_dataset [1; 2]%Z default_compression)) ∧
    lookup_at ["umap"; "x"] root' = Some (Dataset (Build_dataset [3]%Z None)).
Proof.
  apply (two_groups_one_container Examples.w_data ["data"; "new.h5"] "pca" "umap"
           "x" "x" [1; 2]%Z [3]%Z default_compression None ∅);
    [|reflexivity|reflexivity|reflexivity|discriminate|reflexivity|reflexivity| |].
  - right. split; [left|done]. split_and!; [done|reflexivity|reflexivity].
  - intros d Hd. by rewrite lookup_empty in Hd.
  - intros d Hd. by rewrite lookup_empty in Hd.
Defined.


(** ** [fetch_files] and directories *)

(** X20. [fetch_files] does not tell files from directories: in a
    directory that exists, a directory below it whose path from there the
    pattern selects is in the list, for a pattern [Path.glob] accepts
    that has no component [..]. *)
Theorem fetch_files_lists_directories (pattern : string) (directory rel : path)
    (w : world) :
  valid_pattern pattern = true →
  stays_below pattern = true →
  is_dir (fs w) directory = true →
  is_dir (fs w) (directory ++ rel) = true →
  selects (Names.segments pattern) rel →
  ∃ files,
    fetch_files pattern directory w = (Ok files, w) ∧
    directory ++ rel ∈ files.
Proof.
  intros Hv _ Hd Hsub Hm. eexists. split; [by apply fetch_files_valid|].
  rewrite Hd, sorted_Permutation. apply elem_of_glob, matches_listed.
  split; [by apply is_dir_exists|]. by exists rel.
Qed.

Lemma fetch_files_lists_directories_witness :
  ∃ files,
    fetch_files "*" [] Examples.w_store = (Ok files, Examples.w_store) ∧
    [] ++ ["data"] ∈ files.
Proof.
  apply (fetch_files_lists_directories "*" [] ["data"] Examples.w_store);
    [reflexivity|reflexivity|reflexivity|reflexivity|].
  apply match_parts_selects. reflexivity.
Defined.

(** ** [save_h5]: what a failure leaves *)

Section Atomicity.
Implicit Types (w : world) (h : group_handle) (p : path)
  (root : gmap string node) (name col k x : string).

Lemma delitem_Raise h name w e w' :
  delitem h name w = (Raise e, w') → w' = w.
Proof.
  unfold delitem, the_file, the_root, set_root. mrun.
  destruct (handles w !! gh_file h) as [[[p wr]|]|]; try by intros [= _ <-].
  cbn [fh_path fh_writable].
  destruct (fs w !! p) as [[|root| |]|]; try by intros [= _ <-].
  destruct wr; cbn [negb]; [|by intros [= _ <-]].
  by destruct (unlink_at _ root); intros [= _ <-].
Qed.

Lemma new_dataset_Raise (g : group_handle) k d w e w' :
  new_dataset g k d w = (Raise e, w') → w' = w.
Proof.
  unfold new_dataset, the_file, the_root, set_root. mrun.
  destruct (handles w !! gh_file g) as [[[p wr]|]|]; try by intros [= _ <-].
  cbn [fh_path fh_writable].
  destruct (fs w !! p) as [[|root| |]|]; try by intros [= _ <-].
  destruct wr; cbn [negb]; [|by intros [= _ <-]].
  by destruct (alter_at _ _ root); intros [= _ <-].
Qed.

Lemma rsplit_trailing x :
  Names.has_slash x = false → Names.rsplit (x +:+ "/") = Some (x, "").
Proof.
  induction x as [|a x IH]; [done|]. simpl.
  destruct (Ascii.eqb a Names.slash); [done|]. intros Hx. by rewrite IH.
Qed.

Lemma segments_trailing x :
  Names.link_name x = true → Names.segments (x +:+ "/") = [x].
Proof.
  intros Hl. change (x +:+ "/") with (x +:+ String Names.slash "").
  by rewrite segments_app, segments_link_name.
Qed.

End Atomicity.

(** X21. For a key, [save_h5] is all or nothing but for one case.  When
    the call raises with data that [numpy] turns into an array HDF5 has
    a type for, the state is as it was before the call, so the dataset
    that was under the key is still there.  When it raises and the state
    is not as before, the data is what HDF5 has no type for, the error
    is the [TypeError] of [create_dataset], and all that has changed is
    that the object that was under the key is gone. *)
Theorem save_h5_key_failure (w w' : world) (h5 : group_handle) (col : string)
    (data : pydata) (compression : option codec) (e : exn) :
  Names.link_name col = true →
  save_h5 h5 col data compression w = (Raise e, w') →
  (is_Some (asarray data) → w' = w) ∧
  (w' = w ∨
   asarray data = None ∧ e = TypeError no_hdf5_type ∧
   ∃ p root g root',
     open_group w h5 p true root g ∧ is_Some (g !! col) ∧
     w' = with_root w p root' [EvUnlink p (gh_path h5 ++ [col])] ∧
     group_at (gh_path h5) root' = Some (delete col g)).
Proof.
  intros Hl. unfold save_h5. rewrite bind_run.
  destruct (contains_total h5 col w) as [b ->]. rewrite bind_run. destruct b.
  - destruct (delitem h5 col w) as [[[]|e0] w1] eqn:Hdel.
    + apply delitem_Ok in Hdel as (p & root & root1 & Hlive & Hun & ->).
      rewrite locate_link_name, unlink_at_snoc in Hun by done.
      pose proof Hun as Hun'.
      apply alter_at_inv in Hun as (g & g' & Hg & Hg' & Hg1).
      rewrite unlink_one in Hg'. destruct (g !! col) as [n|] eqn:Hn; [|done].
      injection Hg' as <-. destruct Hlive as [Hh Hp].
      destruct (asarray data) as [a|] eqn:Ha.
      * rewrite (create_dataset_asarray _ _ _ a), create_dataset_link_name by done.
        destruct (new_dataset_open
                    (with_root w p root1 [EvUnlink p (locate h5 col)])
                    h5 p root1 (delete col g) col (Build_dataset a compression))
          as (root' & -> & _); [|by apply lookup_delete_eq|done].
        split_and!; [done|cbn; apply lookup_insert_eq|done].
      * rewrite create_dataset_refused by done. intros [= <- <-].
        split; [by intros [? [=]]|]. right. split_and!; [done|done|].
        exists p, root, g, root1. rewrite locate_link_name by done.
        split_and!; [by split_and!|by rewrite Hn|done|done].
    + intros [= _ <-]. apply delitem_Raise in Hdel as ->. split; [done|by left].
  - cbn. destruct (asarray data) as [a|] eqn:Ha.
    + rewrite (create_dataset_asarray _ _ _ a), create_dataset_link_name by done.
      intros ->%new_dataset_Raise. split; [done|by left].
    + rewrite create_dataset_refused by done. intros [= _ <-]. split; [done|by left].
Qed.

Lemma save_h5_key_failure_witness :
  (save_h5 (Build_group_handle 0 []) "x" [4; 5]%Z default_compression
     Examples.w_store_reading).2 = Examples.w_store_reading ∧
  ((save_h5 (Build_group_handle 0 []) "x" (PyList [2 ^ 64]%Z) default_compression
      Examples.w_store_open).2 = Examples.w_store_open ∨
   asarray (PyList [2 ^ 64]%Z) = None ∧
   TypeError no_hdf5_type = TypeError no_hdf5_type ∧
   ∃ p root g root',
     open_group Examples.w_store_open (Build_group_handle 0 []) p true root g ∧
     is_Some (g !! "x") ∧
     (save_h5 (Build_group_handle 0 []) "x" (PyList [2 ^ 64]%Z) default_compression
        Examples.w_store_open).2 =
       with_root Examples.w_store_open p root' [EvUnlink p ([] ++ ["x"])] ∧
     group_at [] root' = Some (delete "x" g)).
Proof.
  split.
  - apply (proj1 (save_h5_key_failure Examples.w_store_reading _
                    (Build_group_handle 0 []) "x" [4; 5]%Z default_compression
                    (KeyError "x") eq_refl eq_refl)).
    by eexists.
  - apply (proj2 (save_h5_key_failure Examples.w_store_open _
                    (Build_group_handle 0 []) "x" (PyList [2 ^ 64]%Z)
                    default_compression (TypeError no_hdf5_type) eq_refl eq_refl)).
Defined.

(** X22. For other names it is not: through a file object open for
    writing, [save_h5] under a key followed by a slash deletes the object
    under the key, puts an empty group in its place and then raises, for
    the dataset has no name of its own; what was stored under the key is
    lost. *)
Theorem save_h5_trailing_slash (w : world) (h5 : group_handle) (file_path : path)
    (root : gmap string node) (x : string) (n : node) (data : array)
    (compression : option codec) :
  open_file w h5 file_path root →
  Names.link_name x = true →
  root !! x = Some n →
  ∃ w',
    save_h5 h5 (x +:+ "/") data compression w =
      (Raise (ValueError (LibraryMessage "Unable to create dataset")), w') ∧
    fs w' !! file_path = Some (H5File (<[x := Group ∅]> root)) ∧
    events w' = events w ++ [EvUnlink file_path [x]; EvCreateGroup file_path [x]].
Proof.
  intros (Hh & Hroot & Hs) Hl Hx. pose proof (stat_lookup _ _ _ Hs) as Hp.
  assert (Names.has_slash x = false) as Hns.
  { unfold Names.link_name in Hl. apply andb_true_iff in Hl as [_ Hl].
    by apply negb_true_iff in Hl. }
  assert (String.eqb (x +:+ "/") "" = false) as Hne by (by destruct x).
  assert (Names.absolute (x +:+ "/") = false) as Habs.
  { rewrite absolute_app by (by destruct x). by apply absolute_link_name. }
  assert (locate h5 (x +:+ "/") = [x]) as Hloc.
  { unfold locate, start. by rewrite Habs, Hroot, segments_trailing. }
  assert (live w h5 file_path true root) as Hlive by done.
  unfold save_h5.
  rewrite bind_run, (contains_live _ _ _ _ _ _ Hlive Hne), Hloc, lookup_at_one, Hx.
  rewrite bool_decide_true by done. rewrite bind_run.
  unfold delitem, the_file, the_root, set_root. mrun.
  rewrite Hh. cbn [fh_path fh_writable negb]. rewrite Hp, Hloc, unlink_one, Hx.
  unfold create_dataset. rewrite Hne. cbn [negb andb].
  assert (Names.has_slash (Names.lstrip (x +:+ "/")) = true) as ->.
  { destruct x as [|a x]; [done|]. simpl. simpl in Hns.
    apply orb_false_iff in Hns as [-> Hns]. simpl.
    rewrite has_slash_app. simpl. by rewrite !orb_true_r. }
  rewrite rsplit_trailing by done. mrun.
  unfold require_group, contains. rewrite link_name_nonempty by done. mrun.
  rewrite Hh. cbn [fh_path]. rewrite lookup_insert_eq.
  rewrite locate_link_name, Hroot by done. cbn [app].
  rewrite lookup_at_one, lookup_delete_eq.
  rewrite bool_decide_false by (by intros [? ?]). cbn [negb].
  unfold create_group, the_file, the_root, set_root, start. mrun.
  rewrite Hh. cbn [fs handles events fh_path fh_writable negb].
  rewrite lookup_insert_eq.
  rewrite locate_link_name, absolute_link_name, segments_link_name, Hroot by done.
  cbn [alter_at app]. rewrite link_one, lookup_delete_eq.
  eexists. split; [reflexivity|]. cbn [fs events]. split.
  - by rewrite lookup_insert_eq, insert_delete_eq.
  - by rewrite <- (assoc_L (++)).
Qed.

Lemma save_h5_trailing_slash_witness :
  ∃ w',
    save_h5 (Build_group_handle 0 []) ("x" +:+ "/") [4; 5]%Z default_compression
            Examples.w_store_open =
      (Raise (ValueError (LibraryMessage "Unable to create dataset")), w') ∧
    fs w' !! ["data"; "store.h5"] = Some (H5File (<["x" := Group ∅]> Examples.store)) ∧
    events w' = events Examples.w_store_open ++
                  [EvUnlink ["data"; "store.h5"] ["x"];
                   EvCreateGroup ["data"; "store.h5"] ["x"]].
Proof.
  apply (save_h5_trailing_slash Examples.w_store_open (Build_group_handle 0 [])
           ["data"; "store.h5"] Examples.store "x"
           (Dataset (Build_dataset [1; 2; 3]%Z (Some gzip))) [4; 5]%Z
           default_compression); [|reflexivity|reflexivity].
  split_and!; reflexivity.
Defined.


(** ** The order of a listing *)

Section ListingOrder.
Implicit Types (p q rel : path) (x y : string) (l files : list path).

Lemma StronglySorted_lookup_lt {A} (R : relation A) (l : list A) (i j : nat) (a b : A) :
  StronglySorted R l → l !! i = Some a → l !! j = Some b → (i < j)%nat → R a b.
Proof.
  intros Hs. revert i j. induction Hs as [|c l Hs IH Hall]; intros i j; [done|].
  destruct j as [|j]; [lia|]. destruct i as [|i]; simpl.
  - intros [= <-] Hb _. rewrite Forall_forall in Hall.
    by eapply Hall, list_elem_of_lookup_2.
  - intros Ha Hb Hlt. apply (IH i j); [done|done|lia].
Qed.

Lemma fetch_files_Ok pattern directory (w w' : world) files :
  fetch_files pattern directory w = (Ok files, w') →
  StronglySorted path_le files.
Proof.
  unfold fetch_files. rewrite bind_run.
  destruct (Path_glob directory pattern w) as [[found|e] w1]; [|done].
  intros [= <- _]. apply sorted_StronglySorted.
Qed.

End ListingOrder.

(** X23. The order of the list is that of [Path] objects, component by
    component: an entry comes before every entry below it, and of two
    entries that part ways at some component the one with the smaller
    component comes first, whatever follows.  So [d/a/b] is listed before
    [d/a.txt], though as a string [d/a.txt] is the smaller one. *)
Theorem fetch_files_order (pattern : string) (directory : path) (w w' : world)
    (files : list path) :
  fetch_files pattern directory w = (Ok files, w') →
  (∀ i j p rel,
     files !! i = Some p → files !! j = Some (p ++ rel) → rel ≠ [] → (i < j)%nat) ∧
  (∀ i j p x y rel1 rel2,
     files !! i = Some (p ++ x :: rel1) → files !! j = Some (p ++ y :: rel2) →
     String.compare x y = Lt → (i < j)%nat).
Proof.
  intros Hs%fetch_files_Ok. split.
  - intros i j p rel Hi Hj Hne.
    destruct (decide (i < j)%nat) as [|Hge]; [done|exfalso].
    destruct (decide (i = j)) as [->|Hij].
    + rewrite Hi in Hj. injection Hj as Hj.
      rewrite <- (right_id_L [] (++) p) in Hj at 1. by apply app_inv_head in Hj.
    + assert (path_le (p ++ rel) p) as Hle.
      { apply (StronglySorted_lookup_lt _ files j i); [done|done|done|lia]. }
      unfold path_le in Hle. rewrite <- (right_id_L [] (++) p) in Hle at 2.
      rewrite path_leb_app in Hle. by destruct rel.
  - intros i j p x y rel1 rel2 Hi Hj Hlt.
    destruct (decide (i < j)%nat) as [|Hge]; [done|exfalso].
    destruct (decide (i = j)) as [->|Hij].
    + rewrite Hi in Hj. injection Hj as Hj. apply app_inv_head in Hj.
      injection Hj as -> _. by rewrite compare_refl in Hlt.
    + assert (path_le (p ++ y :: rel2) (p ++ x :: rel1)) as Hle.
      { apply (StronglySorted_lookup_lt _ files j i); [done|done|done|lia]. }
      unfold path_le in Hle. rewrite path_leb_app in Hle. simpl in Hle.
      by rewrite String.compare_antisym, Hlt in Hle.
Qed.

Lemma fetch_files_order_witness :
  (fetch_files "**/*" ["d"] Examples.w_nested).1 =
    Ok [["d"; "a"]; ["d"; "a"; "b"]; ["d"; "a.txt"]] ∧
  String.compare "a.txt" "a/b" = Lt ∧
  (∀ i j p rel,
     [["d"; "a"]; ["d"; "a"; "b"]; ["d"; "a.txt"]] !! i = Some p →
     [["d"; "a"]; ["d"; "a"; "b"]; ["d"; "a.txt"]] !! j = Some (p ++ rel) →
     rel ≠ [] → (i < j)%nat) ∧
  (∀ i j p x y rel1 rel2,
     [["d"; "a"]; ["d"; "a"; "b"]; ["d"; "a.txt"]] !! i = Some (p ++ x :: rel1) →
     [["d"; "a"]; ["d"; "a"; "b"]; ["d"; "a.txt"]] !! j = Some (p ++ y :: rel2) →
     String.compare x y = Lt → (i < j)%nat).
Proof.
  split; [vm_compute; reflexivity|]. split; [reflexivity|].
  apply (fetch_files_order "**/*" ["d"] Examples.w_nested Examples.w_nested).
  vm_compute. reflexivity.
Defined.
